(** * richcorabbithole-api: the research pipeline (accept handler and SQS worker)

    A shallow embedding of [src/research.js] (the accept handler) and
    [src/researchWorker.js] (the queue worker), together with the part of
    the AWS services they talk to that the handlers' contract depends on:
    the DynamoDB task table, the S3 research bucket, the SQS research
    queue, Secrets Manager and the Anthropic messages API.

    JavaScript values are an inductive type, [async] handlers are
    computations in a state-and-exception monad over a [world] that holds
    the services' state, the module-level credential cache, the trace of
    every SDK call issued, and an oracle that decides which SDK calls
    reject.  A call that rejects leaves its service untouched.
    [console.log]/[console.error] calls are not modelled.  A string is a
    sequence of code units, one [ascii] each, and [String.length] is
    JavaScript's [length].

    Two of the unnamed source files are earlier revisions of the same two
    handlers (an accept handler that only tests [!topic], a worker without
    record validation and idempotency guard that stores
    [message.content[0].text]); the development follows the revisions the
    repository's tests exercise. *)

From Stdlib Require Import String Ascii List ZArith QArith Lia.
From stdpp Require Import base option strings pretty gmap.

Set Default Proof Using "Type".
Set Warnings "-register-all".
Open Scope string_scope.
Open Scope list_scope.

(** ** JavaScript values *)

(** Values as [JSON.parse] produces them, plus [undefined], which property
    reads produce.  [VNum] carries the (finite) value of a double. *)
Inductive value : Type :=
| VUndefined
| VNull
| VBool (b : bool)
| VNum (q : Q)
| VStr (s : string)
| VArr (xs : list value)
| VObj (fields : list (string * value)).

(** Thrown objects: [new Error(msg)], and the errors the runtime and the
    SDK clients raise; [message] is what [error.message] reads. *)
Record exn : Type := Exn { name : string; message : string }.

Definition Error (msg : string) : exn := {| name := "Error"; message := msg |}.
Definition TypeError (msg : string) : exn := {| name := "TypeError"; message := msg |}.
Definition SyntaxError (msg : string) : exn := {| name := "SyntaxError"; message := msg |}.

(** ToBoolean: the test behind [!x], [x || y] and [x && y]. *)
Definition truthy (v : value) : bool :=
  match v with
  | VUndefined | VNull => false
  | VBool b => b
  | VNum q => negb (Qeq_bool q 0)
  | VStr EmptyString => false
  | VStr (String _ _) => true
  | VArr _ | VObj _ => true
  end.

(** [typeof v === "string"] *)
Definition is_string (v : value) : bool :=
  match v with VStr _ => true | _ => false end.

(** Own-property lookup in an object literal; the last binding of a key
    wins, as in [JSON.parse] and in repeated assignment. *)
Fixpoint field {A} (k : string) (fields : list (string * A)) : option A :=
  match fields with
  | [] => None
  | (k', v) :: rest =>
      match field k rest with
      | Some v' => Some v'
      | None => if String.eqb k k' then Some v else None
      end
  end.

(** [obj[k] = v] on an object literal kept as an association list. *)
Fixpoint assign {A} (k : string) (v : A) (fields : list (string * A))
  : list (string * A) :=
  match fields with
  | [] => [(k, v)]
  | (k', v') :: rest =>
      if String.eqb k k' then (k, v) :: rest else (k', v') :: assign k v rest
  end.

(** Reading [v.k] for the keys the handlers read ([taskId], [topic]), which
    no primitive wrapper and no array defines: [None] is the TypeError
    JavaScript raises on [null] and [undefined]. *)
Definition get (v : value) (k : string) : option value :=
  match v with
  | VUndefined | VNull => None
  | VObj fields => Some (default VUndefined (field k fields))
  | VBool _ | VNum _ | VStr _ | VArr _ => Some VUndefined
  end.

(** The language built-ins the handlers call.  [JSON_parse] answers [None]
    where [JSON.parse] throws a SyntaxError.  [ToString_other] is the
    string conversion of a template literal for values that are not
    strings already. *)
Class JS : Type := {
  JSON_parse : string -> option value;
  JSON_stringify : value -> string;
  ToString_other : value -> string
}.

(** [`${v}`] *)
Definition ToString `{JS} (v : value) : string :=
  match v with
  | VStr s => s
  | _ => ToString_other v
  end.

(** ** The services *)

(** A DynamoDB item: attribute name to attribute value. *)
Abbreviation Item := (gmap string value).

(** Parameters of [UpdateCommand]. *)
Record UpdateInput : Type := {
  Key : value;
  UpdateExpression : string;
  ExpressionAttributeNames : list (string * string);
  ExpressionAttributeValues : list (string * value)
}.

Record S3Object : Type := { Body : string; ContentType : string }.

(** A content block of an Anthropic message: [block.type], and
    [block.text] (which only blocks of type [text] carry). *)
Record ContentBlock : Type := { block_type : string; block_text : string }.

(** Parameters of [messages.create]. *)
Record CreateParams : Type := {
  apiKey : string;
  model : string;
  max_tokens : Z;
  system : string;
  user_content : string
}.

(** Every SDK call of the two handlers.  Table, bucket, queue and secret
    names come from [process.env]; there is one of each. *)
Inductive command : Type :=
| GetCommand (key : value)
| PutCommand (item : list (string * value))
| UpdateCommand (input : UpdateInput)
| SendMessageCommand (MessageBody : string)
| GetSecretValueCommand
| PutObjectCommand (s3key : string) (obj : S3Object)
| MessagesCreate (params : CreateParams).

Record world : Type := World {
  table : gmap string Item;            (* DynamoDB: TABLE_NAME, hash key taskId *)
  bucket : gmap string S3Object;       (* S3: BUCKET_NAME *)
  queue : list string;                 (* SQS: bodies sent to RESEARCH_QUEUE_URL *)
  secret : string;                     (* Secrets Manager: SecretString of SECRET_ID *)
  provider : CreateParams -> list ContentBlock;  (* message.content answered *)
  faults : nat -> option exn;          (* the n-th SDK call rejects with this *)
  calls : list command;                (* SDK calls issued so far, oldest first *)
  cachedApiKey : option string;        (* module variable of researchWorker.js *)
  clock : nat -> string;               (* successive new Date().toISOString() *)
  ticks : nat;
  uuids : nat -> string;               (* successive randomUUID() *)
  draws : nat
}.

Definition set_table (f : gmap string Item -> gmap string Item) (w : world) : world :=
  World (f (table w)) (bucket w) (queue w) (secret w) (provider w) (faults w)
        (calls w) (cachedApiKey w) (clock w) (ticks w) (uuids w) (draws w).
Definition set_bucket (f : gmap string S3Object -> gmap string S3Object) (w : world) : world :=
  World (table w) (f (bucket w)) (queue w) (secret w) (provider w) (faults w)
        (calls w) (cachedApiKey w) (clock w) (ticks w) (uuids w) (draws w).
Definition set_queue (f : list string -> list string) (w : world) : world :=
  World (table w) (bucket w) (f (queue w)) (secret w) (provider w) (faults w)
        (calls w) (cachedApiKey w) (clock w) (ticks w) (uuids w) (draws w).
Definition set_calls (f : list command -> list command) (w : world) : world :=
  World (table w) (bucket w) (queue w) (secret w) (provider w) (faults w)
        (f (calls w)) (cachedApiKey w) (clock w) (ticks w) (uuids w) (draws w).
Definition set_cachedApiKey (k : option string) (w : world) : world :=
  World (table w) (bucket w) (queue w) (secret w) (provider w) (faults w)
        (calls w) k (clock w) (ticks w) (uuids w) (draws w).
Definition set_ticks (n : nat) (w : world) : world :=
  World (table w) (bucket w) (queue w) (secret w) (provider w) (faults w)
        (calls w) (cachedApiKey w) (clock w) n (uuids w) (draws w).
Definition set_draws (n : nat) (w : world) : world :=
  World (table w) (bucket w) (queue w) (secret w) (provider w) (faults w)
        (calls w) (cachedApiKey w) (clock w) (ticks w) (uuids w) n.

(** ** Computations: state and exceptions *)

Inductive outcome (A : Type) : Type :=
| Returned (a : A)
| Thrown (e : exn).
Arguments Returned {A} a.
Arguments Thrown {A} e.

Definition M (A : Type) : Type := world -> outcome A * world.

Definition ret {A} (a : A) : M A := fun w => (Returned a, w).
Definition throw {A} (e : exn) : M A := fun w => (Thrown e, w).
Definition bind {A B} (m : M A) (k : A -> M B) : M B :=
  fun w => match m w with
           | (Returned a, w') => k a w'
           | (Thrown e, w') => (Thrown e, w')
           end.
(** [try { m } catch (e) { h e }] *)
Definition try_catch {A} (m : M A) (h : exn -> M A) : M A :=
  fun w => match m w with
           | (Returned a, w') => (Returned a, w')
           | (Thrown e, w') => h e w'
           end.

Notation "'let*' x ':=' c1 'in' c2" := (bind c1 (fun x => c2))
  (at level 10, x pattern, c1 at level 100, c2 at level 200).

(** [try { m } catch (e) { console.error(...) }]: the error is logged and dropped. *)
Definition best_effort (m : M unit) : M unit := try_catch m (fun _ => ret tt).

(** [new Date().toISOString()] *)
Definition now_iso : M string :=
  fun w => (Returned (clock w (ticks w)), set_ticks (S (ticks w)) w).

(** [randomUUID()] *)
Definition randomUUID : M string :=
  fun w => (Returned (uuids w (draws w)), set_draws (S (draws w)) w).

(** ** DynamoDB, S3, SQS, Secrets Manager and the provider *)

(** Splitting the text of an update expression. *)
Fixpoint split_on (c : ascii) (s : string) : list string :=
  match s with
  | EmptyString => [EmptyString]
  | String a rest =>
      if Ascii.eqb a c then EmptyString :: split_on c rest
      else match split_on c rest with
           | [] => [String a EmptyString]
           | h :: t => String a h :: t
           end
  end.

Fixpoint ltrim (s : string) : string :=
  match s with
  | String a rest => if Ascii.eqb a " " then ltrim rest else s
  | EmptyString => EmptyString
  end.

Fixpoint rtrim (s : string) : string :=
  match s with
  | EmptyString => EmptyString
  | String a rest =>
      match rtrim rest with
      | EmptyString => if Ascii.eqb a " " then EmptyString else String a EmptyString
      | rest' => String a rest'
      end
  end.

Definition trim (s : string) : string := rtrim (ltrim s).

Fixpoint strip_prefix (p s : string) : option string :=
  match p, s with
  | EmptyString, _ => Some s
  | String a p', String b s' => if Ascii.eqb a b then strip_prefix p' s' else None
  | String _ _, EmptyString => None
  end.

(** One [path = operand] action of a SET clause. *)
Definition set_action (clause : string) : option (string * string) :=
  match split_on "=" clause with
  | [path; operand] => Some (trim path, trim operand)
  | _ => None
  end.

(** The actions of [SET a = :x, #b = :y, ...]. *)
Definition set_actions (expr : string) : option (list (string * string)) :=
  rest ← strip_prefix "SET " expr;
  mapM set_action (split_on "," rest).

(** An action with its placeholders substituted: [#name] through
    ExpressionAttributeNames, [:value] through ExpressionAttributeValues. *)
Definition resolve (u : UpdateInput) (action : string * string)
  : option (string * value) :=
  attr ← match fst action with
         | String "#" _ => field (fst action) (ExpressionAttributeNames u)
         | path => Some path
         end;
  v ← field (snd action) (ExpressionAttributeValues u);
  Some (attr, v).

Definition ValidationException : exn :=
  {| name := "ValidationException";
     message := "The provided key element or expression does not match the schema" |}.

(** UpdateItem with a SET expression: the named attributes are assigned on
    the item under the key, every other attribute of the item is kept; an
    item that does not exist yet is created from the key. *)
Definition UpdateItem (u : UpdateInput) (tbl : gmap string Item)
  : option (gmap string Item) :=
  match Key u with
  | VStr k =>
      actions ← set_actions (UpdateExpression u);
      sets ← mapM (resolve u) actions;
      let old := default {[ "taskId" := VStr k ]} (tbl !! k) in
      Some (<[ k := foldl (fun it av => <[ fst av := snd av ]> it) old sets ]> tbl)
  | _ => None
  end.

(** PutItem: the item replaces whatever the table holds under its key. *)
Definition PutItem (item : list (string * value)) (tbl : gmap string Item)
  : option (gmap string Item) :=
  match field "taskId" item with
  | Some (VStr k) => Some (<[ k := list_to_map item ]> tbl)
  | _ => None
  end.

(** Every SDK call is recorded, then rejects if the oracle says so. *)
Definition issue (c : command) : M unit :=
  fun w =>
    let w' := set_calls (fun cs => cs ++ [c]) w in
    match faults w (length (calls w)) with
    | Some e => (Thrown e, w')
    | None => (Returned tt, w')
    end.

(** [docClient.send(new GetCommand({TableName, Key: {taskId}}))], answering
    [existing.Item]. *)
Definition send_GetCommand (taskId : value) : M (option Item) :=
  let* _ := issue (GetCommand taskId) in
  fun w => match taskId with
           | VStr k => (Returned (table w !! k), w)
           | _ => (Thrown ValidationException, w)
           end.

(** [docClient.send(new PutCommand({TableName, Item}))] *)
Definition send_PutCommand (item : list (string * value)) : M unit :=
  let* _ := issue (PutCommand item) in
  fun w => match PutItem item (table w) with
           | Some tbl => (Returned tt, set_table (fun _ => tbl) w)
           | None => (Thrown ValidationException, w)
           end.

(** [docClient.send(new UpdateCommand({TableName, Key, UpdateExpression, ...}))] *)
Definition send_UpdateCommand (u : UpdateInput) : M unit :=
  let* _ := issue (UpdateCommand u) in
  fun w => match UpdateItem u (table w) with
           | Some tbl => (Returned tt, set_table (fun _ => tbl) w)
           | None => (Thrown ValidationException, w)
           end.

(** [sqsClient.send(new SendMessageCommand({QueueUrl, MessageBody}))] *)
Definition send_SendMessageCommand (body : string) : M unit :=
  let* _ := issue (SendMessageCommand body) in
  fun w => (Returned tt, set_queue (fun q => q ++ [body]) w).

(** [secretsClient.send(new GetSecretValueCommand({SecretId}))], answering
    [response.SecretString]. *)
Definition send_GetSecretValueCommand : M string :=
  let* _ := issue GetSecretValueCommand in
  fun w => (Returned (secret w), w).

(** [s3Client.send(new PutObjectCommand({Bucket, Key, Body, ContentType}))] *)
Definition send_PutObjectCommand (key : string) (obj : S3Object) : M unit :=
  let* _ := issue (PutObjectCommand key obj) in
  fun w => (Returned tt, set_bucket (fun b => <[ key := obj ]> b) w).

(** [anthropicInstance.messages.create(params)], answering [message.content]. *)
Definition messages_create (params : CreateParams) : M (list ContentBlock) :=
  let* _ := issue (MessagesCreate params) in
  fun w => (Returned (provider w params), w).

(** ** src/researchWorker.js *)

Module ResearchWorker.

(** The SQS event: [event.Records] (possibly missing) and each record's body. *)
Record SQSRecord : Type := { body : string }.
Record SQSEvent : Type := { Records : option (list SQSRecord) }.

Definition system_prompt : string :=
"You are a research assistant for a technical blog called richcorabbithole.
Your job is to produce comprehensive, well-sourced research on a given topic.

Structure your research as markdown with:
- An executive summary (2-3 sentences)
- Key findings organized by theme
- Important data points, statistics, or quotes
- A list of recommended sources/references
- Suggested angles for a blog post

Be thorough but concise. Focus on accuracy and cite specific sources where possible.".

(** [if (cachedApiKey) return cachedApiKey; ...] *)
Definition getAnthropicApiKey : M string :=
  fun w =>
    match cachedApiKey w with
    | Some (String a k) => (Returned (String a k), w)
    | _ =>
        (let* SecretString := send_GetSecretValueCommand in
         fun w' => (Returned SecretString,
                    set_cachedApiKey (Some SecretString) w')) w
    end.

(** One turn of [for (const [key, value] of Object.entries(extraFields))]. *)
Definition add_field
  (acc : list string * list (string * string) * list (string * value))
  (entry : string * value)
  : list string * list (string * string) * list (string * value) :=
  let '(expressionParts, attributeNames, attributeValues) := acc in
  let '(key, value) := entry in
  let attrKey := "#" +:+ key in
  let valKey := ":" +:+ key in
  (expressionParts ++ [attrKey +:+ " = " +:+ valKey],
   assign attrKey key attributeNames,
   assign valKey value attributeValues).

(** [parts.join(sep)] *)
Fixpoint join (sep : string) (parts : list string) : string :=
  match parts with
  | [] => EmptyString
  | [p] => p
  | p :: rest => p +:+ sep +:+ join sep rest
  end.

(** The command [updateTaskStatus] builds, given the clock reading. *)
Definition update_input (taskId : value) (status : string)
  (extraFields : list (string * value)) (now : string) : UpdateInput :=
  let '(expressionParts, attributeNames, attributeValues) :=
    foldl add_field
      (["#status = :status"; "updatedAt = :now"],
       [("#status", "status")],
       [(":status", VStr status); (":now", VStr now)])
      extraFields in
  {| Key := taskId;
     UpdateExpression := "SET " +:+ join ", " expressionParts;
     ExpressionAttributeNames := attributeNames;
     ExpressionAttributeValues := attributeValues |}.

Definition updateTaskStatus (taskId : value) (status : string)
  (extraFields : list (string * value)) : M unit :=
  let* now := now_iso in
  send_UpdateCommand (update_input taskId status extraFields now).

Section Handler.
Context `{JS}.

(** The body of the first [try]: parse the record and read both fields. *)
Definition parse_record (record : SQSRecord) : M (value * value) :=
  match JSON_parse (body record) with
  | None => throw (SyntaxError "Unexpected token in JSON")
  | Some parsed =>
      match get parsed "taskId", get parsed "topic" with
      | Some taskId, Some topic => ret (taskId, topic)
      | _, _ => throw (TypeError "Cannot read properties of null (reading 'taskId')")
      end
  end.

(** [block => block.type === "text"] *)
Definition is_text (block : ContentBlock) : bool :=
  String.eqb (block_type block) "text".

(** The argument of [anthropicInstance.messages.create], the client being
    built from [apiKey]. *)
Definition create_params (apiKey : string) (topic : value) : CreateParams :=
  {| apiKey := apiKey;
     model := "claude-sonnet-4-20250514";
     max_tokens := 4096;
     system := system_prompt;
     user_content :=
       "Research the following topic thoroughly: " +:+ ToString topic |}.

(** [existing.Item && existing.Item.status === "researched"] *)
Definition already_researched (existing : option Item) : bool :=
  match existing with
  | Some item =>
      match item !! "status" with
      | Some (VStr status) => String.eqb status "researched"
      | _ => false
      end
  | None => false
  end.

(** The body of the main [try]. *)
Definition research (taskId topic : value) : M value :=
  let* existing := send_GetCommand taskId in
  if already_researched existing then
    ret (VObj [("taskId", taskId); ("status", VStr "already_researched")])
  else
    let* _ := updateTaskStatus taskId "researching" [] in
    let* apiKey := getAnthropicApiKey in
    let* content := messages_create (create_params apiKey topic) in
    match List.find is_text content with
    | None => throw (Error "Claude returned no text content")
    | Some textBlock =>
        let researchContent := block_text textBlock in
        let s3Key := "research/" +:+ ToString taskId +:+ ".md" in
        let* _ :=
          send_PutObjectCommand s3Key
            {| Body := researchContent; ContentType := "text/markdown" |} in
        let* _ := updateTaskStatus taskId "researched" [("s3Key", VStr s3Key)] in
        ret (VObj [("taskId", taskId); ("s3Key", VStr s3Key);
                   ("status", VStr "researched")])
    end.

(** The [catch (error)] of the main [try]: mark the task failed, log a
    failure to do so, and rethrow [error]. *)
Definition mark_failed_and_rethrow (taskId : value) (error : exn) : M value :=
  let* _ :=
    best_effort
      (updateTaskStatus taskId "failed" [("error", VStr (message error))]) in
  throw error.

Definition handler (event : SQSEvent) : M value :=
  match Records event with
  | None | Some [] => ret VUndefined
  | Some (record :: _) =>
      let* fields :=
        try_catch (parse_record record)
          (fun parseErr => throw (Error "Malformed SQS message body")) in
      let '(taskId, topic) := fields in
      if negb (truthy taskId) then
        throw (Error "Missing taskId in SQS message")
      else if negb (truthy topic) then
        let* _ :=
          best_effort
            (updateTaskStatus taskId "failed"
               [("error", VStr "Missing topic in SQS message")]) in
        ret VUndefined
      else
        try_catch (research taskId topic) (mark_failed_and_rethrow taskId)
  end.

End Handler.
End ResearchWorker.

(** ** src/research.js *)

Module Research.

(** The API Gateway event: [event.body] is a string or missing. *)
Record APIGatewayEvent : Type := { body : option string }.
Record Response : Type := { statusCode : Z; resp_body : string }.

Section Handler.
Context `{JS}.

(** [{ statusCode, body: JSON.stringify(payload) }] *)
Definition respond (code : Z) (payload : value) : Response :=
  {| statusCode := code; resp_body := JSON_stringify payload |}.

(** [event.body || "{}"] *)
Definition body_or_default (event : APIGatewayEvent) : string :=
  match body event with
  | Some (String a s) => String a s
  | _ => "{}"
  end.

(** [topic.length], read once [typeof topic === "string"] held. *)
Definition str_length (v : value) : nat :=
  match v with VStr s => String.length s | _ => 0 end.

Definition failed_update (taskId errMsg now : string) : UpdateInput :=
  {| Key := VStr taskId;
     UpdateExpression := "SET #status = :status, updatedAt = :now, #error = :error";
     ExpressionAttributeNames := [("#status", "status"); ("#error", "error")];
     ExpressionAttributeValues :=
       [(":status", VStr "failed"); (":now", VStr now); (":error", VStr errMsg)] |}.

(** What follows the validation: create the record, queue the work. *)
Definition create_and_queue (topic : value) : M Response :=
  let* taskId := randomUUID in
  let* now := now_iso in
  let* _ :=
    try_catch
      (send_PutCommand
         [("taskId", VStr taskId); ("status", VStr "pending"); ("topic", topic);
          ("createdAt", VStr now); ("updatedAt", VStr now)])
      (fun err => throw (Error "Failed to create task record")) in
  let* _ :=
    try_catch
      (send_SendMessageCommand
         (JSON_stringify (VObj [("taskId", VStr taskId); ("topic", topic)])))
      (fun err =>
         let errMsg := "Failed to place message on queue" in
         let* _ :=
           best_effort
             (let* now' := now_iso in
              send_UpdateCommand (failed_update taskId errMsg now')) in
         throw (Error errMsg)) in
  ret (respond 202
         (VObj [("taskId", VStr taskId); ("status", VStr "pending");
                ("message", VStr "Research task queued for processing")])).

(** [error.message || error]; an Error object serialises to an empty object. *)
Definition message_or_error (error : exn) : value :=
  match message error with
  | EmptyString => VObj []
  | msg => VStr msg
  end.

Definition handler (event : APIGatewayEvent) : M Response :=
  try_catch
    (match JSON_parse (body_or_default event) with
     | None =>
         ret (respond 400 (VObj [("error", VStr "Invalid JSON in request body")]))
     | Some body =>
         match get body "topic" with
         | None =>
             throw (TypeError
               "Cannot destructure property 'topic' of 'body' as it is null.")
         | Some topic =>
             if negb (truthy topic) || negb (is_string topic) then
               ret (respond 400
                      (VObj [("error",
                              VStr "Missing required field: topic (must be a string)")]))
             else if (500 <? str_length topic)%nat then
               ret (respond 400
                      (VObj [("error", VStr "topic must be 500 characters or fewer")]))
             else create_and_queue topic
         end
     end)
    (fun error => ret (respond 500 (VObj [("error", message_or_error error)]))).

End Handler.
End Research.

(** ** Sample inputs, taken from the repository's test suite *)

Module Samples.

Definition dq : string := String (ascii_of_nat 34) EmptyString.
Definition quoted (s : string) : string := dq +:+ s +:+ dq.

Definition render_number (q : Q) : string :=
  pretty (Qnum q / Zpos (Qden q))%Z.

(** [JSON.stringify] on documents (no [undefined] inside) whose strings
    need no escaping and whose numbers are integers. *)
Fixpoint stringify (v : value) : string :=
  match v with
  | VUndefined | VNull => "null"
  | VBool true => "true"
  | VBool false => "false"
  | VNum q => render_number q
  | VStr s => quoted s
  | VArr xs =>
      "[" +:+ (fix elements (xs : list value) : string :=
                 match xs with
                 | [] => EmptyString
                 | [x] => stringify x
                 | x :: rest => stringify x +:+ "," +:+ elements rest
                 end) xs +:+ "]"
  | VObj fields =>
      "{" +:+ (fix members (fields : list (string * value)) : string :=
                 match fields with
                 | [] => EmptyString
                 | [(k, x)] => quoted k +:+ ":" +:+ stringify x
                 | (k, x) :: rest =>
                     quoted k +:+ ":" +:+ stringify x +:+ "," +:+ members rest
                 end) fields +:+ "}"
  end.

Fixpoint repeat_string (s : string) (n : nat) : string :=
  match n with
  | O => EmptyString
  | S n' => s +:+ repeat_string s n'
  end.

(** The JSON documents the tests send. *)
Definition documents : list value :=
  [ VObj [("taskId", VStr "t1"); ("topic", VStr "test")];
    VObj [("taskId", VStr "test-task-id-1234");
          ("topic", VStr "serverless architecture")];
    VObj [("topic", VStr "test")];
    VObj [("taskId", VStr "t1")];
    VObj [("taskId", VStr EmptyString)];
    VObj [("topic", VStr "test topic")];
    VObj [("topic", VStr "serverless architecture")];
    VObj [];
    VObj [("topic", VNum 123)];
    VObj [("topic", VStr (repeat_string "a" 500))];
    VObj [("topic", VStr (repeat_string "a" 501))];
    VNull ].

(** [JSON.parse] restricted to the texts of [documents]; every other text
    used below ([not json]) is one that [JSON.parse] rejects. *)
Definition parse (text : string) : option value :=
  List.find (fun v => String.eqb (stringify v) text) documents.

#[export] Instance sample_JS : JS :=
  {| JSON_parse := parse;
     JSON_stringify := stringify;
     ToString_other := fun _ => "[object Object]" |}.

Definition text_block (s : string) : ContentBlock :=
  {| block_type := "text"; block_text := s |}.
Definition tool_use_block : ContentBlock :=
  {| block_type := "tool_use"; block_text := EmptyString |}.

(** A world in which every call succeeds and the provider answers one
    text block. *)
Definition calm : world :=
  {| table := ∅; bucket := ∅; queue := [];
     secret := "sk-ant-test-key";
     provider := fun _ => [text_block "Test research content"];
     faults := fun _ => None;
     calls := [];
     cachedApiKey := None;
     clock := fun n => "2026-01-01T00:00:0" +:+ pretty n +:+ "Z";
     ticks := 0;
     uuids := fun _ => "test-task-id-1234";
     draws := 0 |}.

Definition with_task (taskId status : string) (w : world) : world :=
  set_table
    (fun tbl =>
       <[ taskId := list_to_map
            [("taskId", VStr taskId); ("status", VStr status);
             ("topic", VStr "test"); ("createdAt", VStr "2025-12-31T00:00:00Z");
             ("updatedAt", VStr "2025-12-31T00:00:00Z")] ]> tbl) w.

Fixpoint field_at (n : nat) (faulty : list (nat * exn)) : option exn :=
  match faulty with
  | [] => None
  | (m, e) :: rest => if Nat.eqb n m then Some e else field_at n rest
  end.

Definition with_faults (f : nat -> option exn) (w : world) : world :=
  World (table w) (bucket w) (queue w) (secret w) (provider w) f
        (calls w) (cachedApiKey w) (clock w) (ticks w) (uuids w) (draws w).

Definition with_provider (p : CreateParams -> list ContentBlock) (w : world) : world :=
  World (table w) (bucket w) (queue w) (secret w) p (faults w)
        (calls w) (cachedApiKey w) (clock w) (ticks w) (uuids w) (draws w).

Definition failing_at (faulty : list (nat * exn)) (w : world) : world :=
  with_faults (fun n => field_at n faulty) w.

Definition sqsEvent (v : value) : ResearchWorker.SQSEvent :=
  {| ResearchWorker.Records := Some [ {| ResearchWorker.body := stringify v |} ] |}.

Definition request (v : value) : Research.APIGatewayEvent :=
  {| Research.body := Some (stringify v) |}.

(** [cmd.name], as the tests' mocks read it. *)
Definition command_name (c : command) : string :=
  match c with
  | GetCommand _ => "GetCommand"
  | PutCommand _ => "PutCommand"
  | UpdateCommand _ => "UpdateCommand"
  | SendMessageCommand _ => "SendMessageCommand"
  | GetSecretValueCommand => "GetSecretValueCommand"
  | PutObjectCommand _ _ => "PutObjectCommand"
  | MessagesCreate _ => "messages.create"
  end.

(** [params.ExpressionAttributeValues[":status"]] of the update calls. *)
Definition status_written (c : command) : option value :=
  match c with
  | UpdateCommand u => field ":status" (ExpressionAttributeValues u)
  | _ => None
  end.

(** The work item and the requests of the tests. *)
Definition t1_test : ResearchWorker.SQSEvent :=
  sqsEvent (VObj [("taskId", VStr "t1"); ("topic", VStr "test")]).
Definition t1_without_topic : ResearchWorker.SQSEvent :=
  sqsEvent (VObj [("taskId", VStr "t1")]).
Definition without_taskId : ResearchWorker.SQSEvent :=
  sqsEvent (VObj [("topic", VStr "test")]).
Definition not_json : ResearchWorker.SQSEvent :=
  {| ResearchWorker.Records := Some [ {| ResearchWorker.body := "not json" |} ] |}.

Definition test_topic : Research.APIGatewayEvent :=
  request (VObj [("topic", VStr "test topic")]).
Definition topic_of_500 : Research.APIGatewayEvent :=
  request (VObj [("topic", VStr (repeat_string "a" 500))]).
Definition null_body : Research.APIGatewayEvent := request VNull.

(** The Task record [with_task] stores. *)
Definition stored_task (taskId status : string) : Item :=
  list_to_map
    [("taskId", VStr taskId); ("status", VStr status);
     ("topic", VStr "test"); ("createdAt", VStr "2025-12-31T00:00:00Z");
     ("updatedAt", VStr "2025-12-31T00:00:00Z")].

(** The provider answers a tool-use block, then the text. *)
Definition mixed_content : list ContentBlock :=
  [tool_use_block; text_block "The actual research"].

(** The provider call rejects, then the update that would record it. *)
Definition both_down : world :=
  failing_at [(3%nat, Error "Original Claude error"); (4%nat, Error "DynamoDB down too")]
    (with_task "t1" "pending" calm).

(** The provider answers the mixed content; the provider answers no text. *)
Definition mixed : world :=
  with_provider (fun _ => mixed_content) (with_task "t1" "pending" calm).
Definition textless : world :=
  with_provider (fun _ => [tool_use_block]) (with_task "t1" "pending" calm).

(** Every call rejects; every call from the second on rejects. *)
Definition all_down : world :=
  with_faults (fun _ => Some (Error "DynamoDB unavailable")) calm.
Definition broken_after_first : world :=
  with_faults (fun n => match n with O => None | _ => Some (Error "Everything is broken") end)
    calm.

(** The provider call, the fourth call of a delivery, rejects; the blob
    write, the fifth, rejects. *)
Definition rate_limited : world :=
  failing_at [(3%nat, Error "API rate limited")] (with_task "t1" "pending" calm).
Definition bucket_missing : world :=
  failing_at [(4%nat, Error "S3 bucket not found")] (with_task "t1" "pending" calm).

(** The guard's read, the first call of a delivery, rejects. *)
Definition read_throttled : world :=
  failing_at [(0%nat, Error "Throughput exceeded")] (with_task "t1" "researched" calm).

(** The publish, the second call of the accept handler, rejects. *)
Definition queue_down : world :=
  failing_at [(1%nat, Error "SQS unavailable")] calm.

End Samples.

(** ** Vocabulary of the specification *)

Section Vocabulary.
Context `{JS}.

(** The first record of [event] parses, and reading its two fields gives
    [taskId] and [topic] ([undefined] for a field that is absent). *)
Definition work_item (event : ResearchWorker.SQSEvent) (taskId topic : value) : Prop :=
  exists record rest parsed,
    ResearchWorker.Records event = Some (record :: rest) /\
    JSON_parse (ResearchWorker.body record) = Some parsed /\
    get parsed "taskId" = Some taskId /\
    get parsed "topic" = Some topic.

(** [k] is an own field of the parsed document. *)
Definition has_field (v : value) (k : string) : bool :=
  match v with
  | VObj fields => match field k fields with Some _ => true | None => false end
  | _ => false
  end.

(** The next [n] SDK calls are answered, none rejects. *)
Definition answered (n : nat) (w : world) : Prop :=
  forall i, (i < n)%nat -> faults w (i + length (calls w)) = None.

(** The key [getAnthropicApiKey] answers in [w] when its fetch, if it
    needs one, is answered; and the SDK calls it issues. *)
Definition current_key (w : world) : string :=
  match cachedApiKey w with
  | Some (String a k) => String a k
  | _ => secret w
  end.
Definition key_calls (w : world) : list command :=
  match cachedApiKey w with
  | Some (String _ _) => []
  | _ => [GetSecretValueCommand]
  end.

(** The three status transitions the worker performs, with the extra
    fields each supplies to [updateTaskStatus]. *)
Inductive transition : string -> list (string * value) -> Prop :=
| to_researching : transition "researching" []
| to_researched (s3Key : value) : transition "researched" [("s3Key", s3Key)]
| to_failed (error : value) : transition "failed" [("error", error)].

(** The stored status of a task. *)
Definition status_of (taskId : string) (w : world) : option value :=
  item ← table w !! taskId; item !! "status".

(** [n] successive deliveries of the same event, each to a fresh
    invocation of the worker. *)
Fixpoint deliveries (n : nat) (event : ResearchWorker.SQSEvent) (w : world) : world :=
  match n with
  | O => w
  | S n' => deliveries n' event (snd (ResearchWorker.handler event w))
  end.

(** Claim C1 as the specification words it, for one delivery: a status
    that is terminal is still the stored status after the delivery. *)
Definition terminal_is_final
  (event : ResearchWorker.SQSEvent) (taskId : string) (w : world) : Prop :=
  forall status,
    status_of taskId w = Some (VStr status) ->
    status = "researched" \/ status = "failed" ->
    status_of taskId (snd (ResearchWorker.handler event w)) = Some (VStr status).

(** A provider call or a blob write; a status write. *)
Definition provider_or_blob (c : command) : Prop :=
  match c with
  | MessagesCreate _ | PutObjectCommand _ _ => True
  | _ => False
  end.
Definition status_write (c : command) : Prop :=
  match c with
  | UpdateCommand _ => True
  | _ => False
  end.

(** Claim C2 as the specification words it, for one delivery: when the
    task is stored as [researched], the delivery issues no provider call,
    no blob write and no status write, returns the already-complete
    outcome and leaves the task's record as it was. *)
Definition redelivery_is_skipped
  (event : ResearchWorker.SQSEvent) (taskId : string) (w : world) : Prop :=
  status_of taskId w = Some (VStr "researched") ->
  (exists issued,
     calls (snd (ResearchWorker.handler event w)) = calls w ++ issued /\
     Forall (fun c => ~ provider_or_blob c /\ ~ status_write c) issued) /\
  fst (ResearchWorker.handler event w) =
    Returned (VObj [("taskId", VStr taskId); ("status", VStr "already_researched")]) /\
  table (snd (ResearchWorker.handler event w)) !! taskId = table w !! taskId.

(** The item an update starts from: the stored one, or the bare key. *)
Definition old_item (t : string) (tbl : gmap string Item) : Item :=
  default {[ "taskId" := VStr t ]} (tbl !! t).

(** The world after an answered [docClient.send(new UpdateCommand(u))]
    that leaves the table as [tbl], the clock having been read once. *)
Definition after_update (u : UpdateInput) (tbl : gmap string Item) (w : world) : world :=
  set_table (fun _ => tbl)
    (set_calls (fun cs => cs ++ [UpdateCommand u]) (set_ticks (S (ticks w)) w)).

(** The world after an answered [getAnthropicApiKey()]. *)
Definition after_key (w : world) : world :=
  match cachedApiKey w with
  | Some (String _ _) => w
  | _ => set_cachedApiKey (Some (secret w))
           (set_calls (fun cs => cs ++ [GetSecretValueCommand]) w)
  end.

(** The record the accept handler creates, the message it queues and the
    acknowledgement it answers. *)
Definition pending_item (taskId : string) (topic : value) (now : string)
  : list (string * value) :=
  [("taskId", VStr taskId); ("status", VStr "pending"); ("topic", topic);
   ("createdAt", VStr now); ("updatedAt", VStr now)].

Definition work_message (taskId : string) (topic : value) : string :=
  JSON_stringify (VObj [("taskId", VStr taskId); ("topic", topic)]).

Definition accepted (taskId : string) : Research.Response :=
  {| Research.statusCode := 202;
     Research.resp_body :=
       JSON_stringify
         (VObj [("taskId", VStr taskId); ("status", VStr "pending");
                ("message", VStr "Research task queued for processing")]) |}.

(** The response with status [code] whose body is the JSON text of
    [{ error: msg }]. *)
Definition error_response (code : Z) (msg : string) : Research.Response :=
  {| Research.statusCode := code;
     Research.resp_body := JSON_stringify (VObj [("error", VStr msg)]) |}.

(** The blob key of a task's research: [`research/${taskId}.md`]. *)
Definition key_of (t : string) : string := "research/" +:+ t +:+ ".md".

End Vocabulary.

(** ** Vocabulary of the further properties *)

Section Frames.
Context `{JS}.

(** [m] relates every world it starts from to the world it leaves,
    whether it returns or throws. *)
Definition keeps (R : world -> world -> Prop) {A} (m : M A) : Prop :=
  forall w, R w (snd (m w)).

(** Every record of the table carries its key as [taskId]. *)
Definition well_keyed (tbl : gmap string Item) : Prop :=
  forall k item, tbl !! k = Some item -> item !! "taskId" = Some (VStr k).

(** The [taskId] a delivery reads from its first record, if it gets
    that far. *)
Definition delivered_taskId (event : ResearchWorker.SQSEvent) : option value :=
  match ResearchWorker.Records event with
  | Some (record :: _) =>
      match JSON_parse (ResearchWorker.body record) with
      | Some parsed => get parsed "taskId"
      | None => None
      end
  | _ => None
  end.

(** The SDK calls the worker has in its code. *)
Definition worker_command (c : command) : Prop :=
  match c with
  | PutCommand _ | SendMessageCommand _ => False
  | _ => True
  end.

(** What a delivery for [taskId] may change: the record and the blob of
    that task, the credential cache, the clock's count and the trace. *)
Definition worker_frame (taskId : value) (w w' : world) : Prop :=
  queue w' = queue w /\ draws w' = draws w /\ faults w' = faults w /\
  (forall t, taskId <> VStr t -> table w' !! t = table w !! t) /\
  (forall k, k <> "research/" +:+ ToString taskId +:+ ".md" ->
             bucket w' !! k = bucket w !! k) /\
  exists issued, calls w' = calls w ++ issued /\ Forall worker_command issued.

(** A computation keeps the table well keyed. *)
Definition keyed (w w' : world) : Prop :=
  well_keyed (table w) -> well_keyed (table w').

(** The requests the accept handler's validation turns down: the body
    does not parse, or it parses to a document that can be read and whose
    [topic] is falsy, not a string, or longer than 500. *)
Definition invalid_request (request : Research.APIGatewayEvent) : Prop :=
  JSON_parse (Research.body_or_default request) = None \/
  exists parsed topic,
    JSON_parse (Research.body_or_default request) = Some parsed /\
    get parsed "topic" = Some topic /\
    (truthy topic = false \/ is_string topic = false \/
     (500 < Research.str_length topic)%nat).

(** The requests that pass it, with the topic they carry. *)
Definition valid_request (request : Research.APIGatewayEvent) (s : string) : Prop :=
  exists parsed,
    JSON_parse (Research.body_or_default request) = Some parsed /\
    get parsed "topic" = Some (VStr s) /\
    s <> EmptyString /\ (String.length s <= 500)%nat.

(** The SDK calls the accept handler has in its code. *)
Definition accept_command (c : command) : Prop :=
  match c with
  | PutCommand _ | SendMessageCommand _ | UpdateCommand _ => True
  | _ => False
  end.

(** The event that delivers one queued message. *)
Definition delivery_of (message : string) : ResearchWorker.SQSEvent :=
  {| ResearchWorker.Records := Some [ {| ResearchWorker.body := message |} ] |}.

End Frames.

(** ** Extra fields of a status update *)

(** Names DynamoDB takes after [#] and [:]: letters, digits, underscore. *)
Definition name_char (a : ascii) : bool :=
  let n := nat_of_ascii a in
  ((48 <=? n) && (n <=? 57) || (65 <=? n) && (n <=? 90) ||
   (97 <=? n) && (n <=? 122) || (n =? 95))%nat.

Fixpoint name_chars (s : string) : bool :=
  match s with
  | EmptyString => true
  | String a rest => name_char a && name_chars rest
  end.

(** Extra fields that neither collide with the placeholders the function
    uses itself ([#status], [:status], [:now]) nor name an attribute it
    sets or the key: distinct, non-empty names. *)
Definition plain_field (k : string) : Prop :=
  k <> EmptyString /\ name_chars k = true /\
  k <> "status" /\ k <> "updatedAt" /\ k <> "now" /\ k <> "taskId".

Definition plain_fields (extraFields : list (string * value)) : Prop :=
  NoDup (map fst extraFields) /\ Forall plain_field (map fst extraFields).

(** A string without the character [c]. *)
Fixpoint lacks (c : ascii) (s : string) : bool :=
  match s with
  | EmptyString => true
  | String a rest => negb (Ascii.eqb a c) && lacks c rest
  end.

(** The clause the loop of [updateTaskStatus] renders for one extra field. *)
Definition clause (key : string) : string :=
  ("#" +:+ key) +:+ " = " +:+ (":" +:+ key).

(** ** The command-line client: [scripts/call-research-api.js] *)

Module Cli.

(** [topic], [stage] and [profile] of the script; [None] is [null]. *)
Record arguments : Type := {
  topic : option string;
  stage : string;
  profile : option string
}.

(** The ways the script leaves with [process.exit(1)] before it calls the
    service: a flag without a value, no topic (the usage text), a topic
    that starts with two dashes. *)
Inductive failure : Type :=
  | FlagRequiresValue (flag : string)
  | Usage
  | InvalidTopic.

(** [s.startsWith(p)] *)
Definition startsWith (p s : string) : bool := String.prefix p s.

(** [!args[i + 1] || args[i + 1].startsWith('--')], [next] being what
    follows [args[i]]: nothing ([undefined]), or a string, which is falsy
    when empty. *)
Definition no_value (next : list string) : bool :=
  match next with
  | [] => true
  | v :: _ => String.eqb v EmptyString || startsWith "--" v
  end.

(** The loop over [args], from index [i] on ([args] is what is left from
    there): a flag takes the next argument and skips it, the first
    argument without leading dashes is the topic while there is none,
    anything else is passed over. *)
Fixpoint parse_named (args : list string) (a : arguments) : failure + arguments :=
  match args with
  | [] => inr a
  | arg :: next =>
      if String.eqb arg "--topic" then
        match next with
        | v :: rest =>
            if no_value next then inl (FlagRequiresValue "--topic")
            else parse_named rest {| topic := Some v; stage := stage a; profile := profile a |}
        | [] => inl (FlagRequiresValue "--topic")
        end
      else if String.eqb arg "--stage" then
        match next with
        | v :: rest =>
            if no_value next then inl (FlagRequiresValue "--stage")
            else parse_named rest {| topic := topic a; stage := v; profile := profile a |}
        | [] => inl (FlagRequiresValue "--stage")
        end
      else if String.eqb arg "--profile" then
        match next with
        | v :: rest =>
            if no_value next then inl (FlagRequiresValue "--profile")
            else parse_named rest {| topic := topic a; stage := stage a; profile := Some v |}
        | [] => inl (FlagRequiresValue "--profile")
        end
      else if negb (startsWith "--" arg) && negb (bool_decide (is_Some (topic a))) then
        parse_named next {| topic := Some arg; stage := stage a; profile := profile a |}
      else parse_named next a
  end.

(** Truthiness of a string that may be [null] or [undefined]. *)
Definition given (s : option string) : bool :=
  match s with
  | Some (String _ _) => true
  | _ => false
  end.

(** The script from [process.argv.slice(2)] and [process.env.AWS_PROFILE]
    up to the topic checks: the arguments it goes on with, or the exit. *)
Definition read_arguments (args : list string) (AWS_PROFILE : option string)
  : failure + arguments :=
  match parse_named args {| topic := None; stage := "dev"; profile := None |} with
  | inl exit => inl exit
  | inr a =>
      let profile' :=
        if negb (given (profile a)) && given AWS_PROFILE then AWS_PROFILE
        else profile a in
      if negb (given (topic a)) then inl Usage
      else if startsWith "--" (default EmptyString (topic a)) then inl InvalidTopic
      else inr {| topic := topic a; stage := stage a; profile := profile' |}
  end.

(** No topic, or one that does not start with two dashes. *)
Definition undashed (a : arguments) : Prop :=
  forall t, topic a = Some t -> startsWith "--" t = false.

End Cli.

(** ** Stepping through computations and SDK calls *)

Lemma length_snoc {A} (l : list A) (x : A) : length (l ++ [x]) = S (length l).
Proof. rewrite length_app. simpl. lia. Qed.

Lemma bind_returned {A B} (m : M A) (k : A -> M B) a w w' :
  m w = (Returned a, w') -> bind m k w = k a w'.
Proof. intros Hm. unfold bind. now rewrite Hm. Qed.

Lemma bind_thrown {A B} (m : M A) (k : A -> M B) e w w' :
  m w = (Thrown e, w') -> bind m k w = (Thrown e, w').
Proof. intros Hm. unfold bind. now rewrite Hm. Qed.

Lemma try_catch_returned {A} (m : M A) h a w w' :
  m w = (Returned a, w') -> try_catch m h w = (Returned a, w').
Proof. intros Hm. unfold try_catch. now rewrite Hm. Qed.

Lemma try_catch_thrown {A} (m : M A) h e w w' :
  m w = (Thrown e, w') -> try_catch m h w = h e w'.
Proof. intros Hm. unfold try_catch. now rewrite Hm. Qed.

(** A logged-and-dropped failure never escapes. *)
Lemma best_effort_returns m w : fst (best_effort m w) = Returned tt.
Proof.
  unfold best_effort, try_catch, ret.
  destruct (m w) as [[[]|e] w']; reflexivity.
Qed.

Lemma answered_at n w k :
  answered n w -> (length (calls w) <= k)%nat -> (k < n + length (calls w))%nat ->
  faults w k = None.
Proof.
  intros Ha Hle Hlt.
  replace k with ((k - length (calls w)) + length (calls w))%nat by lia.
  apply Ha. lia.
Qed.

Lemma issue_answered c w :
  faults w (length (calls w)) = None ->
  issue c w = (Returned tt, set_calls (fun cs => cs ++ [c]) w).
Proof. intros Hf. unfold issue. now rewrite Hf. Qed.

Lemma issue_rejected c e w :
  faults w (length (calls w)) = Some e ->
  issue c w = (Thrown e, set_calls (fun cs => cs ++ [c]) w).
Proof. intros Hf. unfold issue. now rewrite Hf. Qed.

Lemma send_GetCommand_answered t w :
  faults w (length (calls w)) = None ->
  send_GetCommand (VStr t) w =
  (Returned (table w !! t), set_calls (fun cs => cs ++ [GetCommand (VStr t)]) w).
Proof.
  intros Hf. unfold send_GetCommand.
  now rewrite (bind_returned _ _ _ _ _ (issue_answered _ _ Hf)).
Qed.

Lemma send_GetCommand_rejected taskId e w :
  faults w (length (calls w)) = Some e ->
  send_GetCommand taskId w =
  (Thrown e, set_calls (fun cs => cs ++ [GetCommand taskId]) w).
Proof.
  intros Hf. unfold send_GetCommand.
  now rewrite (bind_thrown _ _ _ _ _ (issue_rejected _ _ _ Hf)).
Qed.

Lemma send_UpdateCommand_answered u tbl w :
  faults w (length (calls w)) = None ->
  UpdateItem u (table w) = Some tbl ->
  send_UpdateCommand u w =
  (Returned tt, set_table (fun _ => tbl) (set_calls (fun cs => cs ++ [UpdateCommand u]) w)).
Proof.
  intros Hf Hu. unfold send_UpdateCommand.
  rewrite (bind_returned _ _ _ _ _ (issue_answered _ _ Hf)). cbn.
  now rewrite Hu.
Qed.

Lemma send_UpdateCommand_rejected u e w :
  faults w (length (calls w)) = Some e ->
  send_UpdateCommand u w =
  (Thrown e, set_calls (fun cs => cs ++ [UpdateCommand u]) w).
Proof.
  intros Hf. unfold send_UpdateCommand.
  now rewrite (bind_thrown _ _ _ _ _ (issue_rejected _ _ _ Hf)).
Qed.

Lemma send_PutObjectCommand_answered key obj w :
  faults w (length (calls w)) = None ->
  send_PutObjectCommand key obj w =
  (Returned tt,
   set_bucket (fun b => <[ key := obj ]> b)
     (set_calls (fun cs => cs ++ [PutObjectCommand key obj]) w)).
Proof.
  intros Hf. unfold send_PutObjectCommand.
  now rewrite (bind_returned _ _ _ _ _ (issue_answered _ _ Hf)).
Qed.

Lemma messages_create_answered params w :
  faults w (length (calls w)) = None ->
  messages_create params w =
  (Returned (provider w params), set_calls (fun cs => cs ++ [MessagesCreate params]) w).
Proof.
  intros Hf. unfold messages_create.
  now rewrite (bind_returned _ _ _ _ _ (issue_answered _ _ Hf)).
Qed.

(** ** What the update expressions of the handlers do to the table *)

Lemma UpdateItem_plain t status now tbl :
  UpdateItem (ResearchWorker.update_input (VStr t) status [] now) tbl =
  Some (<[ t := <[ "updatedAt" := VStr now ]>
                  (<[ "status" := VStr status ]> (old_item t tbl)) ]> tbl).
Proof. reflexivity. Qed.

Lemma UpdateItem_extra t status k v now tbl :
  k = "s3Key" \/ k = "error" ->
  UpdateItem (ResearchWorker.update_input (VStr t) status [(k, v)] now) tbl =
  Some (<[ t := <[ k := v ]>
                  (<[ "updatedAt" := VStr now ]>
                     (<[ "status" := VStr status ]> (old_item t tbl))) ]> tbl).
Proof. intros [-> | ->]; reflexivity. Qed.

Lemma UpdateItem_failed_update t msg now tbl :
  UpdateItem (Research.failed_update t msg now) tbl =
  Some (<[ t := <[ "error" := VStr msg ]>
                  (<[ "updatedAt" := VStr now ]>
                     (<[ "status" := VStr "failed" ]> (old_item t tbl))) ]> tbl).
Proof. reflexivity. Qed.

Lemma old_item_insert t item tbl : old_item t (<[ t := item ]> tbl) = item.
Proof. unfold old_item. now rewrite lookup_insert_eq. Qed.

Lemma old_item_stored t item tbl : tbl !! t = Some item -> old_item t tbl = item.
Proof. unfold old_item. now intros ->. Qed.

(** ** The worker, step by step *)

Section WorkerSteps.
Import ResearchWorker.

Lemma updateTaskStatus_answered taskId status extra tbl w :
  faults w (length (calls w)) = None ->
  UpdateItem (update_input taskId status extra (clock w (ticks w))) (table w) = Some tbl ->
  updateTaskStatus taskId status extra w =
  (Returned tt,
   after_update (update_input taskId status extra (clock w (ticks w))) tbl w).
Proof.
  intros Hf Hu. unfold updateTaskStatus, now_iso.
  erewrite bind_returned by reflexivity.
  now rewrite (send_UpdateCommand_answered _ tbl) by assumption.
Qed.

Lemma updateTaskStatus_rejected taskId status extra e w :
  faults w (length (calls w)) = Some e ->
  updateTaskStatus taskId status extra w =
  (Thrown e,
   set_calls
     (fun cs => cs ++ [UpdateCommand (update_input taskId status extra (clock w (ticks w)))])
     (set_ticks (S (ticks w)) w)).
Proof.
  intros Hf. unfold updateTaskStatus, now_iso.
  erewrite bind_returned by reflexivity.
  now rewrite (send_UpdateCommand_rejected _ e) by assumption.
Qed.

(** Every way [updateTaskStatus] can end. *)
Lemma updateTaskStatus_cases taskId status extra w :
  updateTaskStatus taskId status extra w =
  let u := update_input taskId status extra (clock w (ticks w)) in
  let w0 := set_calls (fun cs => cs ++ [UpdateCommand u]) (set_ticks (S (ticks w)) w) in
  match faults w (length (calls w)) with
  | Some e => (Thrown e, w0)
  | None =>
      match UpdateItem u (table w) with
      | Some tbl => (Returned tt, set_table (fun _ => tbl) w0)
      | None => (Thrown ValidationException, w0)
      end
  end.
Proof.
  unfold updateTaskStatus, now_iso, send_UpdateCommand, bind, issue.
  cbn [faults calls table ticks clock set_ticks set_calls].
  destruct (faults w (length (calls w))); reflexivity.
Qed.

Lemma getAnthropicApiKey_answered w :
  answered (length (key_calls w)) w ->
  getAnthropicApiKey w = (Returned (current_key w), after_key w).
Proof.
  unfold answered, key_calls, current_key, getAnthropicApiKey, after_key.
  destruct (cachedApiKey w) as [[|a k]|] eqn:Hk; intros Ha; try reflexivity.
  all: specialize (Ha 0%nat ltac:(cbn; lia)); cbn in Ha.
  all: unfold send_GetSecretValueCommand, bind, issue; now rewrite Ha.
Qed.

Lemma after_key_frame w :
  table (after_key w) = table w /\ bucket (after_key w) = bucket w /\
  queue (after_key w) = queue w /\ faults (after_key w) = faults w /\
  provider (after_key w) = provider w /\ clock (after_key w) = clock w /\
  ticks (after_key w) = ticks w /\
  calls (after_key w) = calls w ++ key_calls w.
Proof.
  unfold after_key, key_calls.
  destruct (cachedApiKey w) as [[|a k]|]; cbn; rewrite ?app_nil_r; repeat split; reflexivity.
Qed.

Lemma key_calls_after_update u tbl w : key_calls (after_update u tbl w) = key_calls w.
Proof. reflexivity. Qed.
Lemma current_key_after_update u tbl w : current_key (after_update u tbl w) = current_key w.
Proof. reflexivity. Qed.
Lemma key_calls_set_calls f w : key_calls (set_calls f w) = key_calls w.
Proof. reflexivity. Qed.
Lemma current_key_set_calls f w : current_key (set_calls f w) = current_key w.
Proof. reflexivity. Qed.

End WorkerSteps.

Ltac project :=
  cbn [table bucket queue secret provider faults calls cachedApiKey clock ticks
       uuids draws set_table set_bucket set_queue set_calls set_cachedApiKey
       set_ticks set_draws after_update fst snd].

Ltac frame_key :=
  repeat match goal with
  | |- context [after_key ?w] =>
      let F := fresh in
      pose proof (after_key_frame w) as F;
      destruct F as (?F1 & ?F2 & ?F3 & ?F4 & ?F5 & ?F6 & ?F7 & ?F8);
      progress (rewrite ?F1, ?F2, ?F3, ?F4, ?F5, ?F6, ?F7, ?F8);
      clear F1 F2 F3 F4 F5 F6 F7 F8
  end.

Ltac same_key :=
  rewrite ?key_calls_after_update, ?current_key_after_update,
          ?key_calls_set_calls, ?current_key_set_calls.

Ltac still_answered Ha :=
  project; frame_key; project; same_key;
  apply (answered_at _ _ _ Ha); project;
  rewrite ?length_app, ?length_snoc; cbn [length]; lia.

(** The run of the main [try] when every call is answered and the
    provider's content has a text block. *)
Section WorkerFacts.
Context `{JS}.
Import ResearchWorker.

(** A record that parses with both fields truthy reaches the main [try]. *)
Lemma handler_valid_item event taskId topic w :
  work_item event taskId topic ->
  truthy taskId = true -> truthy topic = true ->
  handler event w =
  try_catch (research taskId topic) (mark_failed_and_rethrow taskId) w.
Proof.
  intros (record & rest & parsed & Hrec & Hparse & Hid & Htopic) Ht1 Ht2.
  unfold handler, parse_record, try_catch, bind.
  rewrite Hrec, Hparse, Hid, Htopic. cbn.
  now rewrite Ht1, Ht2.
Qed.

Lemma find_first_text pre b post :
  Forall (fun x => is_text x = false) pre -> is_text b = true ->
  List.find is_text (pre ++ b :: post) = Some b.
Proof.
  intros Hpre Hb. induction Hpre as [|x pre Hx _ IH]; cbn.
  - now rewrite Hb.
  - now rewrite Hx.
Qed.

Lemma find_no_text content :
  Forall (fun x => is_text x = false) content -> List.find is_text content = None.
Proof.
  induction 1 as [|x l Hx _ IH]; cbn; [reflexivity|]. now rewrite Hx.
Qed.

(** The run of the main [try] when every call is answered and the
    provider's content has a text block. *)
Lemma research_text t topic w textBlock :
  already_researched (table w !! t) = false ->
  answered (5 + length (key_calls w)) w ->
  List.find is_text (provider w (create_params (current_key w) topic)) = Some textBlock ->
  exists w',
    research (VStr t) topic w =
      (Returned (VObj [("taskId", VStr t); ("s3Key", VStr (key_of t));
                       ("status", VStr "researched")]), w') /\
    bucket w' = <[ key_of t := {| Body := block_text textBlock;
                                  ContentType := "text/markdown" |} ]> (bucket w) /\
    table w' =
      <[ t := <[ "s3Key" := VStr (key_of t) ]>
                (<[ "updatedAt" := VStr (clock w (S (ticks w))) ]>
                   (<[ "status" := VStr "researched" ]>
                      (<[ "updatedAt" := VStr (clock w (ticks w)) ]>
                         (<[ "status" := VStr "researching" ]>
                            (old_item t (table w)))))) ]> (table w) /\
    queue w' = queue w /\ faults w' = faults w /\
    calls w' =
      calls w ++
      [GetCommand (VStr t);
       UpdateCommand (update_input (VStr t) "researching" [] (clock w (ticks w)))] ++
      key_calls w ++
      [MessagesCreate (create_params (current_key w) topic);
       PutObjectCommand (key_of t)
         {| Body := block_text textBlock; ContentType := "text/markdown" |};
       UpdateCommand (update_input (VStr t) "researched"
                        [("s3Key", VStr (key_of t))] (clock w (S (ticks w))))].
Proof.
  intros Hnot Ha Hfind.
  eexists. split.
  - unfold research.
    erewrite bind_returned; cycle 1.
    { apply send_GetCommand_answered. still_answered Ha. }
    rewrite Hnot.
    erewrite bind_returned; cycle 1.
    { apply updateTaskStatus_answered; [still_answered Ha | apply UpdateItem_plain]. }
    project.
    erewrite bind_returned; cycle 1.
    { apply getAnthropicApiKey_answered.
      same_key. intros i Hi. still_answered Ha. }
    same_key.
    erewrite bind_returned; cycle 1.
    { apply messages_create_answered. still_answered Ha. }
    project. frame_key. project. same_key. rewrite Hfind.
    erewrite bind_returned; cycle 1.
    { apply send_PutObjectCommand_answered. still_answered Ha. }
    erewrite bind_returned; cycle 1.
    { apply updateTaskStatus_answered; [still_answered Ha | apply UpdateItem_extra; now left]. }
    reflexivity.
  - project. frame_key. project.
    rewrite old_item_insert, insert_insert_eq, <- !app_assoc.
    repeat split; reflexivity.
Qed.

(** The run of the main [try] when the calls are answered and the
    provider's content has no text block. *)
Lemma research_no_text t topic w :
  already_researched (table w !! t) = false ->
  answered (3 + length (key_calls w)) w ->
  List.find is_text (provider w (create_params (current_key w) topic)) = None ->
  exists w',
    research (VStr t) topic w =
      (Thrown (Error "Claude returned no text content"), w') /\
    bucket w' = bucket w /\
    table w' =
      <[ t := <[ "updatedAt" := VStr (clock w (ticks w)) ]>
                (<[ "status" := VStr "researching" ]> (old_item t (table w))) ]>
        (table w) /\
    queue w' = queue w /\ faults w' = faults w /\
    clock w' = clock w /\ ticks w' = S (ticks w) /\
    calls w' =
      calls w ++
      [GetCommand (VStr t);
       UpdateCommand (update_input (VStr t) "researching" [] (clock w (ticks w)))] ++
      key_calls w ++
      [MessagesCreate (create_params (current_key w) topic)].
Proof.
  intros Hnot Ha Hfind.
  eexists. split.
  - unfold research.
    erewrite bind_returned; cycle 1.
    { apply send_GetCommand_answered. still_answered Ha. }
    rewrite Hnot.
    erewrite bind_returned; cycle 1.
    { apply updateTaskStatus_answered; [still_answered Ha | apply UpdateItem_plain]. }
    project.
    erewrite bind_returned; cycle 1.
    { apply getAnthropicApiKey_answered.
      same_key. intros i Hi. still_answered Ha. }
    same_key.
    erewrite bind_returned; cycle 1.
    { apply messages_create_answered. still_answered Ha. }
    project. frame_key. project. same_key. rewrite Hfind.
    reflexivity.
  - project. frame_key. project.
    rewrite <- !app_assoc.
    repeat split; reflexivity.
Qed.

Lemma not_researched_guard t w :
  status_of t w <> Some (VStr "researched") ->
  already_researched (table w !! t) = false.
Proof.
  unfold status_of, already_researched. intros Hs.
  destruct (table w !! t) as [item|]; cbn in *; [|reflexivity].
  destruct (item !! "status") as [[| | | |s| |]|]; try reflexivity.
  destruct (String.eqb_spec s "researched") as [->|]; [congruence | reflexivity].
Qed.

Lemma researched_guard t item w :
  table w !! t = Some item ->
  item !! "status" = Some (VStr "researched") ->
  already_researched (table w !! t) = true.
Proof. intros Hrow Hstatus. unfold already_researched. now rewrite Hrow, Hstatus. Qed.

(** The [catch] of the main [try], when its status update is answered. *)
Lemma mark_failed_answered t error w :
  faults w (length (calls w)) = None ->
  mark_failed_and_rethrow (VStr t) error w =
  (Thrown error,
   after_update
     (update_input (VStr t) "failed" [("error", VStr (message error))] (clock w (ticks w)))
     (<[ t := <[ "error" := VStr (message error) ]>
                (<[ "updatedAt" := VStr (clock w (ticks w)) ]>
                   (<[ "status" := VStr "failed" ]> (old_item t (table w)))) ]>
        (table w))
     w).
Proof.
  intros Hf. unfold mark_failed_and_rethrow, best_effort.
  erewrite bind_returned; cycle 1.
  { apply try_catch_returned.
    apply updateTaskStatus_answered; [assumption | apply UpdateItem_extra; now right]. }
  reflexivity.
Qed.

(** The [catch] of the main [try], when its status update is rejected. *)
Lemma mark_failed_rejected taskId error e w :
  faults w (length (calls w)) = Some e ->
  mark_failed_and_rethrow taskId error w =
  (Thrown error,
   set_calls
     (fun cs => cs ++ [UpdateCommand
        (update_input taskId "failed" [("error", VStr (message error))]
           (clock w (ticks w)))])
     (set_ticks (S (ticks w)) w)).
Proof.
  intros Hf. unfold mark_failed_and_rethrow, best_effort.
  erewrite bind_returned; cycle 1.
  { erewrite try_catch_thrown; cycle 1.
    { apply updateTaskStatus_rejected. exact Hf. }
    reflexivity. }
  reflexivity.
Qed.

(** Whatever the [catch] meets, it rethrows the error it caught. *)
Lemma mark_failed_rethrows taskId error w :
  fst (mark_failed_and_rethrow taskId error w) = Thrown error.
Proof.
  unfold mark_failed_and_rethrow, bind.
  pose proof (best_effort_returns
    (updateTaskStatus taskId "failed" [("error", VStr (message error))]) w) as Hb.
  destruct (best_effort _ w) as [r w']. cbn in Hb. now rewrite Hb.
Qed.

End WorkerFacts.

(** ** The worker's contract *)

Section WorkerClaims.
Context `{JS}.
Import ResearchWorker.

(** A record whose [taskId] reads as a falsy value, or whose parsed
    document cannot be read at all, is thrown back untouched. *)
Lemma handler_unusable_taskId event record rest parsed w :
  Records event = Some (record :: rest) ->
  JSON_parse (body record) = Some parsed ->
  (forall taskId, get parsed "taskId" = Some taskId -> truthy taskId = false) ->
  handler event w = (Thrown (Error "Malformed SQS message body"), w) \/
  handler event w = (Thrown (Error "Missing taskId in SQS message"), w).
Proof.
  intros Hrec Hparse Hfalsy.
  unfold handler, parse_record, try_catch, bind. rewrite Hrec, Hparse.
  destruct (get parsed "taskId") as [taskId|] eqn:Hid.
  - destruct (get parsed "topic") as [topic|] eqn:Htopic.
    + right. cbn. now rewrite (Hfalsy taskId eq_refl).
    + left. reflexivity.
  - left. reflexivity.
Qed.

Lemma absent_field_reads_falsy parsed k v :
  has_field parsed k = false -> get parsed k = Some v -> truthy v = false.
Proof.
  unfold has_field, get.
  destruct parsed as [| | | | | |fields]; intros Hf Hg; try congruence;
    try (injection Hg as <-; reflexivity).
  destruct (field k fields); [discriminate|].
  injection Hg as <-. reflexivity.
Qed.

(** C4. Poison messages: when the delivered body does not parse, or parses
    to a document with no [taskId] field, the worker throws and the world
    is exactly as before: no SDK call was issued, so no Task Store write,
    no secret fetch, no provider call and no blob write. *)
Theorem poison_message_escalates_untouched event record rest w :
  Records event = Some (record :: rest) ->
  (JSON_parse (body record) = None \/
   exists parsed,
     JSON_parse (body record) = Some parsed /\ has_field parsed "taskId" = false) ->
  exists e,
    handler event w = (Thrown e, w) /\
    (e = Error "Malformed SQS message body" \/
     e = Error "Missing taskId in SQS message").
Proof.
  intros Hrec [Hparse | (parsed & Hparse & Habsent)].
  - exists (Error "Malformed SQS message body"). split; [|now left].
    unfold handler, parse_record, try_catch, bind. now rewrite Hrec, Hparse.
  - destruct (handler_unusable_taskId event record rest parsed w Hrec Hparse) as [Hh | Hh].
    + intros taskId. now apply absent_field_reads_falsy.
    + eexists. split; [exact Hh | now left].
    + eexists. split; [exact Hh | now right].
Qed.

(** C5. Missing topic: when the record parses, its [taskId] is there
    (truthy, the handler's own test) and its [topic] is absent (or falsy),
    the worker returns normally whatever the store answers; it issues the
    one update that marks the task [failed] with the error
    [Missing topic in SQS message], and when that update is answered the
    Task record carries both. *)
Theorem missing_topic_marks_failed_and_acknowledges event taskId topic w :
  work_item event taskId topic ->
  truthy taskId = true -> truthy topic = false ->
  fst (handler event w) = Returned VUndefined /\
  calls (snd (handler event w)) =
    calls w ++
    [UpdateCommand (update_input taskId "failed"
       [("error", VStr "Missing topic in SQS message")] (clock w (ticks w)))] /\
  (forall t, taskId = VStr t -> faults w (length (calls w)) = None ->
     exists item,
       table (snd (handler event w)) !! t = Some item /\
       item !! "status" = Some (VStr "failed") /\
       item !! "error" = Some (VStr "Missing topic in SQS message")) /\
  (forall e, faults w (length (calls w)) = Some e ->
     table (snd (handler event w)) = table w).
Proof.
  intros (record & rest & parsed & Hrec & Hparse & Hid & Htopic) Ht1 Ht2.
  assert (Hrun : handler event w =
    (let* _ := best_effort (updateTaskStatus taskId "failed"
                 [("error", VStr "Missing topic in SQS message")]) in
     ret VUndefined) w).
  { unfold handler, parse_record, try_catch at 1, bind at 1.
    rewrite Hrec, Hparse, Hid, Htopic. cbn. now rewrite Ht1, Ht2. }
  rewrite Hrun. clear Hrun.
  unfold bind, best_effort, try_catch. rewrite updateTaskStatus_cases. cbn zeta.
  destruct (faults w (length (calls w))) as [e|] eqn:Hf.
  - cbn. repeat split. intros t _ Hnone. discriminate.
  - destruct (UpdateItem _ (table w)) as [tbl|] eqn:Hu; cbn.
    + repeat split.
      * intros t -> _. rewrite UpdateItem_extra in Hu by now right.
        injection Hu as <-. eexists. split; [apply lookup_insert_eq|].
        split; [|apply lookup_insert_eq].
        rewrite lookup_insert_ne by discriminate.
        rewrite lookup_insert_ne by discriminate. apply lookup_insert_eq.
      * discriminate.
    + repeat split.
      intros t -> _. rewrite UpdateItem_extra in Hu by now right. discriminate.
Qed.

(** The guard: a task stored as [researched], read successfully, ends the
    delivery at once. *)
Lemma guard_skips_researched event (t : string) topic item w :
  work_item event (VStr t) topic ->
  truthy (VStr t) = true -> truthy topic = true ->
  table w !! t = Some item ->
  item !! "status" = Some (VStr "researched") ->
  faults w (length (calls w)) = None ->
  handler event w =
  (Returned (VObj [("taskId", VStr t); ("status", VStr "already_researched")]),
   set_calls (fun cs => cs ++ [GetCommand (VStr t)]) w).
Proof.
  intros Hitem Ht1 Ht2 Hrow Hstatus Hread.
  rewrite (handler_valid_item _ _ _ _ Hitem Ht1 Ht2).
  apply try_catch_returned.
  unfold research.
  erewrite bind_returned by (apply send_GetCommand_answered; exact Hread).
  now rewrite (researched_guard _ _ _ Hrow Hstatus).
Qed.

(** The guard's read rejected: the delivery goes to the [catch], which
    issues its one status update and rethrows; no provider call and no
    blob write are made. *)
Lemma read_rejected_reaches_no_provider event taskId topic e w :
  work_item event taskId topic ->
  truthy taskId = true -> truthy topic = true ->
  faults w (length (calls w)) = Some e ->
  fst (handler event w) = Thrown e /\
  bucket (snd (handler event w)) = bucket w /\
  queue (snd (handler event w)) = queue w /\
  calls (snd (handler event w)) =
    calls w ++
    [GetCommand taskId;
     UpdateCommand (update_input taskId "failed" [("error", VStr (message e))]
                      (clock w (ticks w)))].
Proof.
  intros Hitem Ht1 Ht2 Hread.
  rewrite (handler_valid_item _ _ _ _ Hitem Ht1 Ht2).
  erewrite try_catch_thrown; cycle 1.
  { unfold research. apply bind_thrown. apply send_GetCommand_rejected. exact Hread. }
  set (w1 := set_calls (fun cs => cs ++ [GetCommand taskId]) w).
  unfold mark_failed_and_rethrow, best_effort, try_catch, bind.
  rewrite updateTaskStatus_cases. cbn zeta.
  destruct (faults w1 (length (calls w1))); [|destruct (UpdateItem _ (table w1))];
    subst w1; unfold throw, ret; project; rewrite <- app_assoc;
    repeat split; reflexivity.
Qed.

(** C2. Idempotence under redelivery: when the work item's task is stored
    as [researched], the delivery makes no provider call and no blob
    write and leaves the bucket and the queue as they were, whatever its
    calls are answered; when the guard's read of the task is answered,
    the delivery issues that read and nothing else (no status update, no
    secret fetch), returns [{taskId, status: "already_researched"}] and
    leaves the table as it was. *)
Theorem redelivery_of_researched_is_skipped event (t : string) topic item w :
  work_item event (VStr t) topic ->
  truthy (VStr t) = true -> truthy topic = true ->
  table w !! t = Some item ->
  item !! "status" = Some (VStr "researched") ->
  (exists issued,
     calls (snd (handler event w)) = calls w ++ issued /\
     Forall (fun c => ~ provider_or_blob c) issued) /\
  bucket (snd (handler event w)) = bucket w /\
  queue (snd (handler event w)) = queue w /\
  (faults w (length (calls w)) = None ->
   fst (handler event w) =
     Returned (VObj [("taskId", VStr t); ("status", VStr "already_researched")]) /\
   calls (snd (handler event w)) = calls w ++ [GetCommand (VStr t)] /\
   table (snd (handler event w)) = table w).
Proof.
  intros Hitem Ht1 Ht2 Hrow Hstatus.
  destruct (faults w (length (calls w))) as [e|] eqn:Hread.
  - destruct (read_rejected_reaches_no_provider _ _ _ _ _ Hitem Ht1 Ht2 Hread)
      as (_ & Hbucket & Hqueue & Hcalls).
    split; [|split; [exact Hbucket | split; [exact Hqueue | discriminate]]].
    eexists. split; [exact Hcalls|].
    repeat constructor; intros [].
  - rewrite (guard_skips_researched _ _ _ _ _ Hitem Ht1 Ht2 Hrow Hstatus Hread).
    split; [|repeat split; reflexivity].
    eexists. split; [reflexivity|]. repeat constructor; intros [].
Qed.

(** C3. Double failure: when the main [try] throws [E] and the update that
    would record the failure is itself rejected with [E2], the handler
    throws [E]; the rejected update leaves the table as the [try] left it. *)
Theorem double_failure_escalates_original event taskId topic E E2 w w1 :
  work_item event taskId topic ->
  truthy taskId = true -> truthy topic = true ->
  research taskId topic w = (Thrown E, w1) ->
  faults w1 (length (calls w1)) = Some E2 ->
  fst (handler event w) = Thrown E /\
  table (snd (handler event w)) = table w1.
Proof.
  intros Hitem Ht1 Ht2 Hrun Hreject.
  rewrite (handler_valid_item _ _ _ _ Hitem Ht1 Ht2).
  rewrite (try_catch_thrown _ _ _ _ _ Hrun).
  rewrite (mark_failed_rejected _ _ _ _ Hreject).
  split; reflexivity.
Qed.

(** C8. Success path and response extraction: for a work item with a
    string [taskId] whose task is not stored as [researched], when every
    call is answered: if the provider's content has a first block of type
    [text] (whatever blocks of other types precede it), that block's text
    is stored under [research/{taskId}.md] as [text/markdown], the Task
    record ends [researched] with [s3Key] that key, and the worker returns
    [{taskId, s3Key, status: "researched"}]; if the content has no block
    of type [text], the worker throws [Claude returned no text content],
    writes no blob, and the Task record ends [failed] with that error. *)
Theorem worker_success_and_extraction event (t : string) topic w :
  work_item event (VStr t) topic ->
  truthy (VStr t) = true -> truthy topic = true ->
  status_of t w <> Some (VStr "researched") ->
  answered (5 + length (key_calls w)) w ->
  (forall pre textBlock post,
     provider w (create_params (current_key w) topic) = pre ++ textBlock :: post ->
     Forall (fun block => is_text block = false) pre ->
     is_text textBlock = true ->
     fst (handler event w) =
       Returned (VObj [("taskId", VStr t); ("s3Key", VStr (key_of t));
                       ("status", VStr "researched")]) /\
     bucket (snd (handler event w)) !! key_of t =
       Some {| Body := block_text textBlock; ContentType := "text/markdown" |} /\
     exists item,
       table (snd (handler event w)) !! t = Some item /\
       item !! "status" = Some (VStr "researched") /\
       item !! "s3Key" = Some (VStr (key_of t))) /\
  (Forall (fun block => is_text block = false)
     (provider w (create_params (current_key w) topic)) ->
   fst (handler event w) = Thrown (Error "Claude returned no text content") /\
   bucket (snd (handler event w)) = bucket w /\
   exists item,
     table (snd (handler event w)) !! t = Some item /\
     item !! "status" = Some (VStr "failed") /\
     item !! "error" = Some (VStr "Claude returned no text content")).
Proof.
  intros Hitem Ht1 Ht2 Hnot%not_researched_guard Ha.
  rewrite (handler_valid_item _ _ _ _ Hitem Ht1 Ht2).
  split.
  - intros pre textBlock post Hcontent Hpre Htext.
    destruct (research_text t topic w textBlock Hnot Ha) as
      (w' & Hrun & Hbucket & Htable & _ & _ & _).
    { rewrite Hcontent. now apply find_first_text. }
    rewrite (try_catch_returned _ _ _ _ _ Hrun). cbn [fst snd].
    split; [reflexivity|]. split.
    + rewrite Hbucket. apply lookup_insert_eq.
    + rewrite Htable. eexists. split; [apply lookup_insert_eq|].
      split; [|apply lookup_insert_eq].
      rewrite lookup_insert_ne by discriminate.
      rewrite lookup_insert_ne by discriminate. apply lookup_insert_eq.
  - intros Hnone%find_no_text.
    destruct (research_no_text t topic w Hnot) as
      (w' & Hrun & Hbucket & Htable & _ & Hfaults & Hclock & Hticks & Hcalls);
      [|exact Hnone|].
    { intros i Hi. apply Ha. lia. }
    rewrite (try_catch_thrown _ _ _ _ _ Hrun).
    rewrite mark_failed_answered.
    + cbn [fst snd after_update table bucket set_table set_calls set_ticks].
      split; [reflexivity|]. split; [exact Hbucket|].
      eexists. split; [apply lookup_insert_eq|].
      split; [|apply lookup_insert_eq].
      rewrite lookup_insert_ne by discriminate.
      rewrite lookup_insert_ne by discriminate. apply lookup_insert_eq.
    + rewrite Hfaults, Hcalls.
      apply (answered_at _ _ _ Ha); rewrite !length_app; cbn [length]; lia.
Qed.

End WorkerClaims.

(** ** The status-update primitive *)

Section StatusUpdate.
Import ResearchWorker.

(** C10. Frame property of [updateTaskStatus]: each of the worker's three
    transitions, applied to a stored Task record by an answered update,
    sets [status], [updatedAt] and the extra field it was given, and
    leaves every other attribute of the record as it was, [taskId],
    [topic] and [createdAt] among them; no other record changes. *)
Theorem status_update_frame (t : string) status extraFields item w :
  transition status extraFields ->
  table w !! t = Some item ->
  faults w (length (calls w)) = None ->
  exists item',
    table (snd (updateTaskStatus (VStr t) status extraFields w)) !! t = Some item' /\
    item' !! "status" = Some (VStr status) /\
    item' !! "updatedAt" = Some (VStr (clock w (ticks w))) /\
    (forall k v, In (k, v) extraFields -> item' !! k = Some v) /\
    (forall k, k <> "status" -> k <> "updatedAt" ->
               ~ In k (map fst extraFields) -> item' !! k = item !! k) /\
    item' !! "taskId" = item !! "taskId" /\
    item' !! "topic" = item !! "topic" /\
    item' !! "createdAt" = item !! "createdAt" /\
    (forall t', t' <> t ->
       table (snd (updateTaskStatus (VStr t) status extraFields w)) !! t' =
       table w !! t').
Proof.
  intros Htr Hrow Hf.
  assert (Hshape : extraFields = [] \/
    exists k v, extraFields = [(k, v)] /\ (k = "s3Key" \/ k = "error")).
  { destruct Htr; [now left | right; eauto | right; eauto]. }
  destruct Hshape as [-> | (k & v & -> & Hk)].
  - rewrite (updateTaskStatus_answered _ _ _ _ _ Hf (UpdateItem_plain _ _ _ _)).
    cbn [snd after_update table set_table].
    rewrite (old_item_stored _ _ _ Hrow).
    eexists. split; [apply lookup_insert_eq|].
    split; [rewrite lookup_insert_ne by discriminate; apply lookup_insert_eq|].
    split; [apply lookup_insert_eq|].
    split; [intros k v []|].
    split; [intros k Hk1 Hk2 _; now rewrite !lookup_insert_ne by congruence|].
    repeat split; try (now rewrite !lookup_insert_ne by discriminate).
    intros t' Hne. now rewrite lookup_insert_ne by congruence.
  - rewrite (updateTaskStatus_answered _ _ _ _ _ Hf (UpdateItem_extra _ _ _ _ _ _ Hk)).
    cbn [snd after_update table set_table].
    rewrite (old_item_stored _ _ _ Hrow).
    eexists. split; [apply lookup_insert_eq|].
    split.
    { destruct Hk as [-> | ->];
        rewrite !lookup_insert_ne by discriminate; apply lookup_insert_eq. }
    split.
    { destruct Hk as [-> | ->];
        rewrite lookup_insert_ne by discriminate; apply lookup_insert_eq. }
    split.
    { intros k' v' [[= <- <-] | []]. apply lookup_insert_eq. }
    split.
    { intros k' Hk1 Hk2 Hk3. cbn in Hk3.
      rewrite !lookup_insert_ne by (try congruence; intros ->; apply Hk3; now left).
      reflexivity. }
    repeat split;
      try (destruct Hk as [-> | ->]; now rewrite !lookup_insert_ne by discriminate).
    intros t' Hne. now rewrite lookup_insert_ne by congruence.
Qed.

End StatusUpdate.

(** ** The accept handler, step by step *)

Section AcceptFacts.
Context `{JS}.
Import Research.

(** Every way the part after validation can end. *)
Lemma create_and_queue_cases topic w :
  create_and_queue topic w =
  let taskId := uuids w (draws w) in
  let now := clock w (ticks w) in
  let item := pending_item taskId topic now in
  let msg := work_message taskId topic in
  let errMsg := "Failed to place message on queue" in
  let u := failed_update taskId errMsg (clock w (S (ticks w))) in
  let w0 := set_calls (fun cs => cs ++ [PutCommand item])
              (set_ticks (S (ticks w)) (set_draws (S (draws w)) w)) in
  match faults w (length (calls w)) with
  | Some _ => (Thrown (Error "Failed to create task record"), w0)
  | None =>
      let w1 := set_calls (fun cs => cs ++ [SendMessageCommand msg])
                  (set_table (fun tbl => <[ taskId := list_to_map item ]> tbl) w0) in
      match faults w (S (length (calls w))) with
      | None => (Returned (accepted taskId), set_queue (fun q => q ++ [msg]) w1)
      | Some _ =>
          let w2 := set_calls (fun cs => cs ++ [UpdateCommand u])
                      (set_ticks (S (S (ticks w))) w1) in
          match faults w (S (S (length (calls w)))) with
          | Some _ => (Thrown (Error errMsg), w2)
          | None =>
              (Thrown (Error errMsg),
               set_table
                 (fun tbl =>
                    <[ taskId := <[ "error" := VStr errMsg ]>
                         (<[ "updatedAt" := VStr (clock w (S (ticks w))) ]>
                            (<[ "status" := VStr "failed" ]> (list_to_map item))) ]>
                      tbl) w2)
          end
      end
  end.
Proof.
  unfold create_and_queue, randomUUID, now_iso, send_PutCommand,
    send_SendMessageCommand, send_UpdateCommand, best_effort, try_catch, bind, issue,
    throw, ret.
  project. cbn [PutItem field String.eqb Ascii.eqb Bool.eqb].
  destruct (faults w (length (calls w))) eqn:F0; [reflexivity|].
  project. rewrite ?length_snoc.
  destruct (faults w (S (length (calls w)))) eqn:F1; [|reflexivity].
  project. rewrite ?length_snoc.
  destruct (faults w (S (S (length (calls w))))) eqn:F2; [reflexivity|].
  project. rewrite UpdateItem_failed_update, old_item_insert.
  reflexivity.
Qed.

(** A body that parses to a document whose [topic] is a non-empty string
    of at most 500 characters passes the validation. *)
Lemma handler_valid_topic event parsed s w :
  JSON_parse (body_or_default event) = Some parsed ->
  get parsed "topic" = Some (VStr s) ->
  s <> EmptyString -> (String.length s <= 500)%nat ->
  handler event w =
  try_catch (create_and_queue (VStr s))
    (fun error => ret (respond 500 (VObj [("error", message_or_error error)]))) w.
Proof.
  intros Hparse Htopic Hne Hlen.
  unfold handler, try_catch. rewrite Hparse, Htopic.
  destruct s as [|a s']; [congruence|].
  cbn [truthy is_string negb orb str_length].
  destruct (Nat.ltb_spec 500 (String.length (String a s'))); [lia | reflexivity].
Qed.

(** Invalid input is answered 400 and nothing else happens. *)
Lemma accept_rejects_invalid_input event w :
  (JSON_parse (body_or_default event) = None \/
   exists parsed topic,
     JSON_parse (body_or_default event) = Some parsed /\
     get parsed "topic" = Some topic /\
     (truthy topic = false \/ is_string topic = false \/
      (500 < str_length topic)%nat)) ->
  exists msg, handler event w = (Returned (error_response 400 msg), w).
Proof.
  intros [Hparse | (parsed & topic & Hparse & Htopic & Hbad)];
    unfold handler, try_catch; rewrite Hparse.
  - eexists. reflexivity.
  - rewrite Htopic.
    destruct (negb (truthy topic) || negb (is_string topic)) eqn:Hguard.
    + eexists. reflexivity.
    + apply orb_false_elim in Hguard as [Ht Hs].
      apply negb_false_iff in Ht. apply negb_false_iff in Hs.
      destruct Hbad as [Hbad | [Hbad | Hbad]]; try congruence.
      apply Nat.ltb_lt in Hbad. rewrite Hbad. eexists. reflexivity.
Qed.

(** C6, at the input where the code departs from it: a body that parses to
    [null] has no [topic], yet the handler answers 500, with the message
    of the TypeError that destructuring [null] raises; no SDK call is
    issued. *)
Theorem accept_null_body_answers_500 event w :
  JSON_parse (body_or_default event) = Some VNull ->
  handler event w =
  (Returned (error_response 500
     "Cannot destructure property 'topic' of 'body' as it is null."), w).
Proof.
  intros Hparse. unfold handler, try_catch. now rewrite Hparse.
Qed.

(** C7. Success path: a body that parses to a document whose [topic] is a
    non-empty string [s] of at most 500 characters, with the store write
    and the publish answered, is answered 202 with the [taskId] drawn from
    [randomUUID] in this invocation and [status: "pending"]; the table
    holds under that [taskId] the record with [status = pending],
    [topic = s] and [createdAt = updatedAt], the reading of the clock; the
    message published is [{taskId, topic: s}] and nothing else is sent. *)
Theorem accept_valid_request event parsed s w :
  JSON_parse (body_or_default event) = Some parsed ->
  get parsed "topic" = Some (VStr s) ->
  s <> EmptyString -> (String.length s <= 500)%nat ->
  answered 2 w ->
  let taskId := uuids w (draws w) in
  let now := clock w (ticks w) in
  fst (handler event w) =
    Returned
      {| statusCode := 202;
         resp_body :=
           JSON_stringify
             (VObj [("taskId", VStr taskId); ("status", VStr "pending");
                    ("message", VStr "Research task queued for processing")]) |} /\
  draws (snd (handler event w)) = S (draws w) /\
  (exists item,
     table (snd (handler event w)) !! taskId = Some item /\
     item !! "taskId" = Some (VStr taskId) /\
     item !! "status" = Some (VStr "pending") /\
     item !! "topic" = Some (VStr s) /\
     item !! "createdAt" = Some (VStr now) /\
     item !! "updatedAt" = Some (VStr now) /\
     item !! "error" = None /\ item !! "s3Key" = None) /\
  queue (snd (handler event w)) =
    queue w ++ [JSON_stringify (VObj [("taskId", VStr taskId); ("topic", VStr s)])] /\
  calls (snd (handler event w)) =
    calls w ++
    [PutCommand (pending_item taskId (VStr s) now);
     SendMessageCommand (work_message taskId (VStr s))].
Proof.
  intros Hparse Htopic Hne Hlen Ha taskId now.
  rewrite (handler_valid_topic _ _ _ _ Hparse Htopic Hne Hlen).
  unfold try_catch. rewrite create_and_queue_cases. cbn zeta.
  pose proof (Ha 0%nat ltac:(lia)) as Hput.
  pose proof (Ha 1%nat ltac:(lia)) as Hsend.
  cbn [Nat.add] in Hput, Hsend. rewrite Hput, Hsend.
  project. split; [reflexivity|]. split; [reflexivity|].
  split; [|split; [reflexivity | now rewrite <- app_assoc]].
  eexists. split; [apply lookup_insert_eq|].
  repeat split; reflexivity.
Qed.

(** C9. Publish failure: with a valid request, the store write answered
    and the publish rejected, the handler answers 500 with the error
    [Failed to place message on queue] whether or not the compensating
    update is answered, and nothing is queued; when that update is
    answered the record just created ends [failed] with that error, its
    [topic] and [createdAt] kept. *)
Theorem accept_publish_failure event parsed s e w :
  JSON_parse (body_or_default event) = Some parsed ->
  get parsed "topic" = Some (VStr s) ->
  s <> EmptyString -> (String.length s <= 500)%nat ->
  faults w (length (calls w)) = None ->
  faults w (S (length (calls w))) = Some e ->
  let taskId := uuids w (draws w) in
  fst (handler event w) =
    Returned
      {| statusCode := 500;
         resp_body :=
           JSON_stringify
             (VObj [("error", VStr "Failed to place message on queue")]) |} /\
  queue (snd (handler event w)) = queue w /\
  (faults w (S (S (length (calls w)))) = None ->
   exists item,
     table (snd (handler event w)) !! taskId = Some item /\
     item !! "status" = Some (VStr "failed") /\
     item !! "error" = Some (VStr "Failed to place message on queue") /\
     item !! "updatedAt" = Some (VStr (clock w (S (ticks w)))) /\
     item !! "topic" = Some (VStr s) /\
     item !! "createdAt" = Some (VStr (clock w (ticks w)))).
Proof.
  intros Hparse Htopic Hne Hlen Hput Hsend taskId.
  rewrite (handler_valid_topic _ _ _ _ Hparse Htopic Hne Hlen).
  unfold try_catch. rewrite create_and_queue_cases. cbn zeta.
  rewrite Hput, Hsend.
  destruct (faults w (S (S (length (calls w))))) as [e'|] eqn:Hupdate.
  - project. repeat split. discriminate.
  - project. repeat split. intros _.
    eexists. split; [apply lookup_insert_eq|].
    split; [rewrite !lookup_insert_ne by discriminate; apply lookup_insert_eq|].
    split; [apply lookup_insert_eq|].
    split; [rewrite lookup_insert_ne by discriminate; apply lookup_insert_eq|].
    split; rewrite !lookup_insert_ne by discriminate; reflexivity.
Qed.

(** The accept handler writes no record but the one keyed by the
    [taskId] it draws. *)
Lemma accept_writes_only_its_task event w t :
  t <> uuids w (draws w) ->
  table (snd (handler event w)) !! t = table w !! t.
Proof.
  intros Hne. unfold handler, try_catch.
  destruct (JSON_parse (body_or_default event)) as [parsed|]; [|reflexivity].
  destruct (get parsed "topic") as [topic|]; [|reflexivity].
  destruct (negb (truthy topic) || negb (is_string topic)); [reflexivity|].
  destruct (500 <? str_length topic)%nat; [reflexivity|].
  rewrite create_and_queue_cases. cbn zeta.
  destruct (faults w (length (calls w))); [reflexivity|].
  destruct (faults w (S (length (calls w)))).
  - destruct (faults w (S (S (length (calls w))))); unfold ret; project;
      now rewrite ?lookup_insert_ne by congruence.
  - project. now rewrite lookup_insert_ne by congruence.
Qed.

End AcceptFacts.

(** ** The task lifecycle under redelivery *)

Section Lifecycle.
Context `{JS}.
Import ResearchWorker.

Lemma status_of_stored t status w :
  status_of t w = Some status ->
  exists item, table w !! t = Some item /\ item !! "status" = Some status.
Proof.
  unfold status_of. intros Hs.
  destruct (table w !! t) as [item|]; [|discriminate]. eauto.
Qed.

Lemma answered_after_call n c w :
  answered (S n) w -> answered n (set_calls (fun cs => cs ++ [c]) w).
Proof.
  intros Ha i Hi. cbn [faults calls set_calls]. rewrite length_snoc.
  replace (i + S (length (calls w)))%nat with (S i + length (calls w))%nat by lia.
  apply Ha. lia.
Qed.

(** Deliveries to a task stored as [researched], their reads answered,
    each issue the read and change nothing else. *)
Lemma deliveries_of_researched event t topic item n :
  work_item event (VStr t) topic ->
  truthy (VStr t) = true -> truthy topic = true ->
  item !! "status" = Some (VStr "researched") ->
  forall w,
    table w !! t = Some item ->
    answered n w ->
    table (deliveries n event w) = table w /\
    bucket (deliveries n event w) = bucket w /\
    calls (deliveries n event w) = calls w ++ repeat (GetCommand (VStr t)) n.
Proof.
  intros Hitem Ht1 Ht2 Hstatus.
  induction n as [|n IH]; intros w Hrow Ha; cbn [deliveries repeat].
  - now rewrite app_nil_r.
  - assert (Hrun : snd (handler event w) =
                   set_calls (fun cs => cs ++ [GetCommand (VStr t)]) w).
    { rewrite (guard_skips_researched _ _ _ _ _ Hitem Ht1 Ht2 Hrow Hstatus);
        [reflexivity|]. apply (Ha 0%nat). lia. }
    rewrite Hrun.
    destruct (IH (set_calls (fun cs => cs ++ [GetCommand (VStr t)]) w) Hrow
                (answered_after_call _ _ _ Ha)) as (-> & -> & ->).
    cbn [table bucket calls set_calls]. now rewrite <- app_assoc.
Qed.

(** C1, amended. [researched] is final: deliveries of the task's work
    item whose reads are answered never write the task again, and an
    accept writes no record but the one it creates.  [failed] is not
    final: a redelivery whose calls are answered reprocesses the task,
    writing [researching] over [failed] and ending [researched]. *)
Theorem researched_is_final_failed_is_retried event (t : string) topic w :
  work_item event (VStr t) topic ->
  truthy (VStr t) = true -> truthy topic = true ->
  (status_of t w = Some (VStr "researched") ->
   forall n, answered n w ->
     table (deliveries n event w) = table w /\
     calls (deliveries n event w) = calls w ++ repeat (GetCommand (VStr t)) n) /\
  (forall request, t <> uuids w (draws w) ->
     table (snd (Research.handler request w)) !! t = table w !! t) /\
  (status_of t w = Some (VStr "failed") ->
   answered (5 + length (key_calls w)) w ->
   forall textBlock,
     List.find is_text (provider w (create_params (current_key w) topic)) =
       Some textBlock ->
     status_of t (snd (handler event w)) = Some (VStr "researched") /\
     In (UpdateCommand (update_input (VStr t) "researching" [] (clock w (ticks w))))
        (calls (snd (handler event w)))).
Proof.
  intros Hitem Ht1 Ht2. split; [|split].
  - intros (item & Hrow & Hstatus)%status_of_stored n Ha.
    destruct (deliveries_of_researched event t topic item n Hitem Ht1 Ht2 Hstatus w Hrow Ha)
      as (Htable & _ & Hcalls).
    now split.
  - intros request Hne. now apply accept_writes_only_its_task.
  - intros Hfailed Ha textBlock Hfind.
    destruct (research_text t topic w textBlock) as
      (w' & Hrun & _ & Htable & _ & _ & Hcalls); [|exact Ha|exact Hfind|].
    { apply not_researched_guard. rewrite Hfailed. discriminate. }
    rewrite (handler_valid_item _ _ _ _ Hitem Ht1 Ht2).
    rewrite (try_catch_returned _ _ _ _ _ Hrun). cbn [snd]. split.
    + unfold status_of. rewrite Htable, lookup_insert_eq. cbn.
      rewrite lookup_insert_ne by discriminate.
      rewrite lookup_insert_ne by discriminate. apply lookup_insert_eq.
    + rewrite Hcalls. apply in_or_app. right. right. now left.
Qed.

(** Delivering the same work item twice: once the first delivery has
    reached [researched], the second, its read answered, issues that read
    only and returns the already-complete outcome. *)
Lemma second_delivery_after_success event (t : string) topic textBlock w :
  work_item event (VStr t) topic ->
  truthy (VStr t) = true -> truthy topic = true ->
  status_of t w <> Some (VStr "researched") ->
  answered (6 + length (key_calls w)) w ->
  List.find is_text (provider w (create_params (current_key w) topic)) =
    Some textBlock ->
  let w1 := snd (handler event w) in
  status_of t w1 = Some (VStr "researched") /\
  handler event w1 =
    (Returned (VObj [("taskId", VStr t); ("status", VStr "already_researched")]),
     set_calls (fun cs => cs ++ [GetCommand (VStr t)]) w1).
Proof.
  intros Hitem Ht1 Ht2 Hnot%not_researched_guard Ha Hfind w1. subst w1.
  destruct (research_text t topic w textBlock Hnot) as
    (w' & Hrun & _ & Htable & _ & Hfaults & Hcalls); [|exact Hfind|].
  { intros i Hi. apply Ha. lia. }
  rewrite (handler_valid_item _ _ _ _ Hitem Ht1 Ht2).
  rewrite (try_catch_returned _ _ _ _ _ Hrun). cbn [snd].
  assert (Hrow : exists item, table w' !! t = Some item /\
                              item !! "status" = Some (VStr "researched")).
  { rewrite Htable. eexists. split; [apply lookup_insert_eq|].
    rewrite lookup_insert_ne by discriminate.
    rewrite lookup_insert_ne by discriminate. apply lookup_insert_eq. }
  destruct Hrow as (item & Hrow & Hstatus). split.
  - unfold status_of. now rewrite Hrow.
  - apply (guard_skips_researched _ _ topic item); try assumption.
    rewrite Hfaults, Hcalls.
    apply (answered_at _ _ _ Ha); rewrite !length_app; cbn [length]; lia.
Qed.

End Lifecycle.

(** ** The claims at the inputs of the test suite *)

Import Samples.

Lemma sqsEvent_work_item v taskId topic :
  parse (stringify v) = Some v ->
  get v "taskId" = Some taskId ->
  get v "topic" = Some topic ->
  work_item (sqsEvent v) taskId topic.
Proof.
  intros Hparse Hid Htopic.
  exists {| ResearchWorker.body := stringify v |}, [], v.
  repeat split; assumption.
Qed.

Lemma t1_test_work_item : work_item t1_test (VStr "t1") (VStr "test").
Proof. apply sqsEvent_work_item; reflexivity. Qed.

(** C1 as worded fails: the task is stored [failed], its work item is
    redelivered, every call is answered, and the stored status ends
    [researched]. *)
Lemma failed_task_is_reprocessed :
  ~ terminal_is_final t1_test "t1" (with_task "t1" "failed" calm).
Proof.
  intros Hfinal.
  specialize (Hfinal "failed" eq_refl (or_intror eq_refl)).
  vm_compute in Hfinal. discriminate Hfinal.
Qed.

Lemma researched_is_final_failed_is_retried_witness :
  table (deliveries 2 t1_test (with_task "t1" "researched" calm)) =
    table (with_task "t1" "researched" calm) /\
  status_of "t1" (snd (ResearchWorker.handler t1_test (with_task "t1" "failed" calm))) =
    Some (VStr "researched").
Proof.
  split.
  - destruct (researched_is_final_failed_is_retried t1_test "t1" (VStr "test")
                (with_task "t1" "researched" calm) t1_test_work_item eq_refl eq_refl)
      as (Hfinal & _ & _).
    destruct (Hfinal eq_refl 2%nat) as (Htable & _); [|exact Htable].
    intros i _. reflexivity.
  - destruct (researched_is_final_failed_is_retried t1_test "t1" (VStr "test")
                (with_task "t1" "failed" calm) t1_test_work_item eq_refl eq_refl)
      as (_ & _ & Hretry).
    destruct (Hretry eq_refl) with (textBlock := text_block "Test research content")
      as (Hstatus & _); [| reflexivity | exact Hstatus].
    intros i _. reflexivity.
Defined.

(** C2 as worded fails: the task is stored [researched], its work item
    is redelivered, the guard's read is rejected, and the delivery writes
    [failed] over [researched] and throws. *)
Lemma rejected_read_overwrites_researched :
  ~ redelivery_is_skipped t1_test "t1" read_throttled.
Proof.
  intros Hskipped.
  destruct (Hskipped eq_refl) as (_ & _ & Hrow).
  apply (f_equal (fun row => row ≫= (fun item : Item => item !! "status"))) in Hrow.
  vm_compute in Hrow. discriminate Hrow.
Qed.

Lemma redelivery_of_researched_is_skipped_witness :
  fst (ResearchWorker.handler t1_test (with_task "t1" "researched" calm)) =
    Returned (VObj [("taskId", VStr "t1"); ("status", VStr "already_researched")]) /\
  calls (snd (ResearchWorker.handler t1_test (with_task "t1" "researched" calm))) =
    [GetCommand (VStr "t1")] /\
  bucket (snd (ResearchWorker.handler t1_test read_throttled)) = bucket read_throttled.
Proof.
  destruct (redelivery_of_researched_is_skipped t1_test "t1" (VStr "test")
              (stored_task "t1" "researched") (with_task "t1" "researched" calm)
              t1_test_work_item eq_refl eq_refl eq_refl eq_refl)
    as (_ & _ & _ & Hskipped).
  destruct (Hskipped eq_refl) as (Hresult & Hcalls & _).
  destruct (redelivery_of_researched_is_skipped t1_test "t1" (VStr "test")
              (stored_task "t1" "researched") read_throttled
              t1_test_work_item eq_refl eq_refl eq_refl eq_refl)
    as (_ & Hbucket & _).
  split; [exact Hresult | split; [exact Hcalls | exact Hbucket]].
Defined.


Lemma double_failure_escalates_original_witness :
  fst (ResearchWorker.handler t1_test both_down) =
    Thrown (Error "Original Claude error") /\
  status_of "t1" (snd (ResearchWorker.handler t1_test both_down)) =
    Some (VStr "researching").
Proof.
  assert (Hrun :
    ResearchWorker.research (VStr "t1") (VStr "test") both_down =
    (Thrown (Error "Original Claude error"),
     snd (ResearchWorker.research (VStr "t1") (VStr "test") both_down)))
    by (vm_compute; reflexivity).
  assert (Hreject :
    faults (snd (ResearchWorker.research (VStr "t1") (VStr "test") both_down))
      (length (calls (snd (ResearchWorker.research (VStr "t1") (VStr "test") both_down)))) =
    Some (Error "DynamoDB down too"))
    by (vm_compute; reflexivity).
  pose proof (double_failure_escalates_original t1_test (VStr "t1") (VStr "test")
                _ _ _ _ t1_test_work_item eq_refl eq_refl Hrun Hreject)
    as [Hthrown Htable].
  split; [exact Hthrown|]. unfold status_of. rewrite Htable.
  vm_compute. reflexivity.
Defined.

Lemma poison_message_escalates_untouched_witness :
  ResearchWorker.handler not_json calm =
    (Thrown (Error "Malformed SQS message body"), calm) /\
  ResearchWorker.handler without_taskId calm =
    (Thrown (Error "Missing taskId in SQS message"), calm).
Proof.
  split.
  - destruct (poison_message_escalates_untouched not_json
                {| ResearchWorker.body := "not json" |} [] calm eq_refl)
      as (e & Hrun & [-> | ->]).
    + left. reflexivity.
    + exact Hrun.
    + rewrite Hrun. vm_compute in Hrun. discriminate Hrun.
  - destruct (poison_message_escalates_untouched without_taskId
                {| ResearchWorker.body := stringify (VObj [("topic", VStr "test")]) |}
                [] calm eq_refl)
      as (e & Hrun & [-> | ->]).
    + right. exists (VObj [("topic", VStr "test")]). split; reflexivity.
    + rewrite Hrun. vm_compute in Hrun. discriminate Hrun.
    + exact Hrun.
Defined.

Lemma missing_topic_marks_failed_and_acknowledges_witness :
  fst (ResearchWorker.handler t1_without_topic (with_task "t1" "pending" calm)) =
    Returned VUndefined /\
  status_of "t1"
    (snd (ResearchWorker.handler t1_without_topic (with_task "t1" "pending" calm))) =
    Some (VStr "failed").
Proof.
  destruct (missing_topic_marks_failed_and_acknowledges t1_without_topic
              (VStr "t1") VUndefined (with_task "t1" "pending" calm))
    as (Hreturned & _ & Hmarked & _).
  - apply sqsEvent_work_item; reflexivity.
  - reflexivity.
  - reflexivity.
  - split; [exact Hreturned|].
    destruct (Hmarked "t1" eq_refl eq_refl) as (item & Hrow & Hstatus & _).
    unfold status_of. rewrite Hrow. exact Hstatus.
Defined.


Lemma worker_success_and_extraction_witness :
  bucket (snd (ResearchWorker.handler t1_test mixed)) !! "research/t1.md" =
    Some {| Body := "The actual research"; ContentType := "text/markdown" |} /\
  fst (ResearchWorker.handler t1_test textless) =
    Thrown (Error "Claude returned no text content").
Proof.
  split.
  - destruct (worker_success_and_extraction t1_test "t1" (VStr "test") mixed
                t1_test_work_item eq_refl eq_refl) as (Htext & _).
    + discriminate.
    + intros i _. reflexivity.
    + destruct (Htext [tool_use_block] (text_block "The actual research") [])
        as (_ & Hblob & _).
      * reflexivity.
      * repeat constructor.
      * reflexivity.
      * exact Hblob.
  - destruct (worker_success_and_extraction t1_test "t1" (VStr "test") textless
                t1_test_work_item eq_refl eq_refl) as (_ & Hnone).
    + discriminate.
    + intros i _. reflexivity.
    + destruct Hnone as (Hthrown & _); [repeat constructor | exact Hthrown].
Defined.

Lemma status_update_frame_witness :
  exists item',
    table (snd (ResearchWorker.updateTaskStatus (VStr "t1") "failed"
                  [("error", VStr "API rate limited")]
                  (with_task "t1" "researching" calm))) !! "t1" = Some item' /\
    item' !! "status" = Some (VStr "failed") /\
    item' !! "topic" = Some (VStr "test") /\
    item' !! "createdAt" = Some (VStr "2025-12-31T00:00:00Z").
Proof.
  destruct (status_update_frame "t1" "failed" [("error", VStr "API rate limited")]
              (stored_task "t1" "researching") (with_task "t1" "researching" calm)
              (to_failed (VStr "API rate limited")) eq_refl eq_refl)
    as (item' & Hrow & Hstatus & _ & _ & _ & _ & Htopic & Hcreated & _).
  exists item'. repeat split; [exact Hrow | exact Hstatus | | ].
  - rewrite Htopic. reflexivity.
  - rewrite Hcreated. reflexivity.
Defined.

Lemma accept_null_body_answers_500_witness :
  Research.handler null_body calm =
  (Returned (error_response 500
     "Cannot destructure property 'topic' of 'body' as it is null."), calm).
Proof. apply (accept_null_body_answers_500 null_body calm). reflexivity. Defined.

Lemma accept_valid_request_witness :
  fst (Research.handler topic_of_500 calm) = Returned (accepted "test-task-id-1234") /\
  status_of "test-task-id-1234" (snd (Research.handler topic_of_500 calm)) =
    Some (VStr "pending") /\
  queue (snd (Research.handler topic_of_500 calm)) =
    [work_message "test-task-id-1234" (VStr (repeat_string "a" 500))].
Proof.
  destruct (accept_valid_request topic_of_500
              (VObj [("topic", VStr (repeat_string "a" 500))])
              (repeat_string "a" 500) calm)
    as (Hanswer & _ & (item & Hrow & _ & Hstatus & _) & Hqueue & _).
  - vm_compute. reflexivity.
  - reflexivity.
  - discriminate.
  - vm_compute. lia.
  - intros i _. reflexivity.
  - split; [exact Hanswer|]. split; [|exact Hqueue].
    change (uuids calm (draws calm)) with "test-task-id-1234" in Hrow.
    unfold status_of. rewrite Hrow. exact Hstatus.
Defined.


Lemma accept_publish_failure_witness :
  fst (Research.handler test_topic queue_down) =
    Returned (error_response 500 "Failed to place message on queue") /\
  status_of "test-task-id-1234" (snd (Research.handler test_topic queue_down)) =
    Some (VStr "failed").
Proof.
  destruct (accept_publish_failure test_topic (VObj [("topic", VStr "test topic")])
              "test topic" (Error "SQS unavailable") queue_down)
    as (Hanswer & _ & Hmarked).
  - reflexivity.
  - reflexivity.
  - discriminate.
  - vm_compute. lia.
  - reflexivity.
  - reflexivity.
  - split; [exact Hanswer|].
    destruct (Hmarked eq_refl) as (item & Hrow & Hstatus & _).
    change (uuids queue_down (draws queue_down)) with "test-task-id-1234" in Hrow.
    unfold status_of. rewrite Hrow. exact Hstatus.
Defined.

(** ** The repository's tests, replayed *)

Example worker_returns_undefined_without_records :
  fst (ResearchWorker.handler {| ResearchWorker.Records := Some [] |} calm) =
    Returned VUndefined /\
  fst (ResearchWorker.handler {| ResearchWorker.Records := None |} calm) =
    Returned VUndefined.
Proof. split; reflexivity. Qed.

Example worker_marks_failed_when_topic_is_missing :
  let run := ResearchWorker.handler t1_without_topic (with_task "t1" "pending" calm) in
  fst run = Returned VUndefined /\
  map status_written (calls (snd run)) = [Some (VStr "failed")].
Proof. vm_compute. split; reflexivity. Qed.

Example worker_skips_already_researched :
  let run := ResearchWorker.handler t1_test (with_task "t1" "researched" calm) in
  fst run = Returned (VObj [("taskId", VStr "t1"); ("status", VStr "already_researched")]) /\
  map command_name (calls (snd run)) = ["GetCommand"].
Proof. vm_compute. split; reflexivity. Qed.

Example worker_pipeline_order :
  let run := ResearchWorker.handler t1_test (with_task "t1" "pending" calm) in
  fst run = Returned (VObj [("taskId", VStr "t1"); ("s3Key", VStr "research/t1.md");
                            ("status", VStr "researched")]) /\
  map command_name (calls (snd run)) =
    ["GetCommand"; "UpdateCommand"; "GetSecretValueCommand"; "messages.create";
     "PutObjectCommand"; "UpdateCommand"] /\
  bucket (snd run) !! "research/t1.md" =
    Some {| Body := "Test research content"; ContentType := "text/markdown" |}.
Proof. vm_compute. repeat split; reflexivity. Qed.

Example worker_throws_on_empty_content :
  fst (ResearchWorker.handler t1_test
         (with_provider (fun _ => []) (with_task "t1" "pending" calm))) =
  Thrown (Error "Claude returned no text content").
Proof. vm_compute. reflexivity. Qed.

Example worker_marks_failed_and_rethrows_provider_failure :
  let run := ResearchWorker.handler t1_test rate_limited in
  fst run = Thrown (Error "API rate limited") /\
  status_of "t1" (snd run) = Some (VStr "failed") /\
  (table (snd run) !! "t1") ≫= (fun item => item !! "error") =
    Some (VStr "API rate limited").
Proof. vm_compute. repeat split; reflexivity. Qed.

Example worker_rethrows_blob_failure :
  fst (ResearchWorker.handler t1_test bucket_missing) =
  Thrown (Error "S3 bucket not found").
Proof. vm_compute. reflexivity. Qed.

(** Two neighbours of the guards: an empty [taskId] counts as missing, and
    a rejected read sends even a finished task through the [catch]. *)
Example worker_treats_empty_taskId_as_missing :
  ResearchWorker.handler (sqsEvent (VObj [("taskId", VStr EmptyString)])) calm =
  (Thrown (Error "Missing taskId in SQS message"), calm).
Proof. reflexivity. Qed.

Example worker_marks_failed_when_the_read_is_rejected :
  let run := ResearchWorker.handler t1_test read_throttled in
  fst run = Thrown (Error "Throughput exceeded") /\
  map command_name (calls (snd run)) = ["GetCommand"; "UpdateCommand"] /\
  status_of "t1" (snd run) = Some (VStr "failed").
Proof. vm_compute. repeat split; reflexivity. Qed.

Example accept_rejects_what_the_tests_reject :
  fst (Research.handler {| Research.body := Some "not json" |} calm) =
    Returned (error_response 400 "Invalid JSON in request body") /\
  fst (Research.handler {| Research.body := None |} calm) =
    Returned (error_response 400 "Missing required field: topic (must be a string)") /\
  fst (Research.handler (request (VObj [])) calm) =
    Returned (error_response 400 "Missing required field: topic (must be a string)") /\
  fst (Research.handler (request (VObj [("topic", VNum 123)])) calm) =
    Returned (error_response 400 "Missing required field: topic (must be a string)") /\
  fst (Research.handler (request (VObj [("topic", VStr (repeat_string "a" 501))])) calm) =
    Returned (error_response 400 "topic must be 500 characters or fewer").
Proof. vm_compute. repeat split; reflexivity. Qed.

Example accept_queues_the_task :
  let run := Research.handler test_topic calm in
  fst run = Returned (accepted "test-task-id-1234") /\
  calls (snd run) =
    [PutCommand (pending_item "test-task-id-1234" (VStr "test topic")
                   "2026-01-01T00:00:00Z");
     SendMessageCommand (work_message "test-task-id-1234" (VStr "test topic"))].
Proof. vm_compute. split; reflexivity. Qed.

Example accept_answers_500_when_the_store_is_down :
  let run := Research.handler test_topic all_down in
  fst run = Returned (error_response 500 "Failed to create task record") /\
  map command_name (calls (snd run)) = ["PutCommand"] /\
  queue (snd run) = [].
Proof. vm_compute. repeat split; reflexivity. Qed.

Example accept_marks_failed_when_the_queue_is_down :
  let run := Research.handler test_topic queue_down in
  map command_name (calls (snd run)) =
    ["PutCommand"; "SendMessageCommand"; "UpdateCommand"] /\
  map status_written (calls (snd run)) = [None; None; Some (VStr "failed")].
Proof. vm_compute. split; reflexivity. Qed.

Example accept_answers_500_when_the_compensation_fails_too :
  let run := Research.handler test_topic broken_after_first in
  fst run = Returned (error_response 500 "Failed to place message on queue") /\
  status_of "test-task-id-1234" (snd run) = Some (VStr "pending").
Proof. vm_compute. split; reflexivity. Qed.

(** End to end: the work item the accept handler queues is one the worker
    takes, and the task ends [researched] with its artifact stored. *)
Example accepted_task_is_researched :
  let accepted_world :=
    snd (Research.handler (request (VObj [("topic", VStr "serverless architecture")]))
           calm) in
  let event :=
    {| ResearchWorker.Records :=
         option_map (fun m => [ {| ResearchWorker.body := m |} ])
                    (head (queue accepted_world)) |} in
  let run := ResearchWorker.handler event
               (with_provider (fun _ => mixed_content) accepted_world) in
  status_of "test-task-id-1234" accepted_world = Some (VStr "pending") /\
  status_of "test-task-id-1234" (snd run) = Some (VStr "researched") /\
  (table (snd run) !! "test-task-id-1234") ≫= (fun item => item !! "s3Key") =
    Some (VStr "research/test-task-id-1234.md") /\
  (table (snd run) !! "test-task-id-1234") ≫= (fun item => item !! "topic") =
    Some (VStr "serverless architecture") /\
  bucket (snd run) !! "research/test-task-id-1234.md" =
    Some {| Body := "The actual research"; ContentType := "text/markdown" |}.
Proof. vm_compute. repeat split; reflexivity. Qed.

(** ** Further properties: what a computation leaves alone *)

Section FrameRules.
Context {R : world -> world -> Prop}.

Lemma keeps_ret `{!PreOrder R} {A} (a : A) : keeps R (ret a).
Proof. intros w. reflexivity. Qed.

Lemma keeps_throw `{!PreOrder R} {A} (e : exn) : keeps R (@throw A e).
Proof. intros w. reflexivity. Qed.

Lemma keeps_bind `{!PreOrder R} {A B} (m : M A) (k : A -> M B) :
  keeps R m -> (forall a, keeps R (k a)) -> keeps R (bind m k).
Proof.
  intros Hm Hk w. unfold bind. specialize (Hm w).
  destruct (m w) as [[a|e] w1]; cbn [snd] in *; [|exact Hm].
  etransitivity; [exact Hm | apply Hk].
Qed.

Lemma keeps_try_catch `{!PreOrder R} {A} (m : M A) (h : exn -> M A) :
  keeps R m -> (forall e, keeps R (h e)) -> keeps R (try_catch m h).
Proof.
  intros Hm Hh w. unfold try_catch. specialize (Hm w).
  destruct (m w) as [[a|e] w1]; cbn [snd] in *; [exact Hm|].
  etransitivity; [exact Hm | apply Hh].
Qed.

Lemma keeps_best_effort `{!PreOrder R} (m : M unit) : keeps R m -> keeps R (best_effort m).
Proof. intros Hm. apply keeps_try_catch; [exact Hm | intros e; apply keeps_ret]. Qed.

End FrameRules.

Lemma UpdateItem_other u tbl tbl' t :
  UpdateItem u tbl = Some tbl' -> Key u <> VStr t -> tbl' !! t = tbl !! t.
Proof.
  unfold UpdateItem. destruct (Key u) as [| | | |k| |]; try discriminate.
  destruct (set_actions (UpdateExpression u)) as [actions|]; [|discriminate]. cbn.
  destruct (mapM (resolve u) actions) as [sets|]; [|discriminate]. cbn.
  intros [= <-] Hne. apply lookup_insert_ne. congruence.
Qed.

Section WorkerFrame.
Context `{JS}.
Import ResearchWorker.

Lemma worker_frame_preorder taskId : PreOrder (worker_frame taskId).
Proof.
  split.
  - intros w. repeat split; try reflexivity. exists []. now rewrite app_nil_r.
  - intros w1 w2 w3 (Hq1 & Hd1 & Hf1 & Ht1 & Hb1 & i1 & Hc1 & Hi1)
                    (Hq2 & Hd2 & Hf2 & Ht2 & Hb2 & i2 & Hc2 & Hi2).
    repeat split; try congruence.
    + intros t Hne. now rewrite Ht2, Ht1.
    + intros k Hne. now rewrite Hb2, Hb1.
    + exists (i1 ++ i2). rewrite Hc2, Hc1, app_assoc. split; [reflexivity|].
      now apply Forall_app.
Qed.

#[local] Existing Instance worker_frame_preorder.

Lemma issue_in_frame taskId c : worker_command c -> keeps (worker_frame taskId) (issue c).
Proof.
  intros Hc w. unfold issue.
  destruct (faults w (length (calls w))); cbn; repeat split; try reflexivity;
    exists [c]; split; try reflexivity; now constructor.
Qed.

Lemma now_iso_in_frame taskId : keeps (worker_frame taskId) now_iso.
Proof.
  intros w. cbn. repeat split; try reflexivity. exists []. now rewrite app_nil_r.
Qed.

Lemma send_GetCommand_in_frame taskId key :
  keeps (worker_frame taskId) (send_GetCommand key).
Proof.
  apply keeps_bind; [now apply issue_in_frame|]. intros _ w.
  destruct key; reflexivity.
Qed.

Lemma send_UpdateCommand_in_frame u :
  keeps (worker_frame (Key u)) (send_UpdateCommand u).
Proof.
  apply keeps_bind; [now apply issue_in_frame|]. intros _ w.
  destruct (UpdateItem u (table w)) as [tbl|] eqn:Hu; [|reflexivity].
  cbn. repeat split; try reflexivity.
  - intros t Hne. apply (UpdateItem_other _ _ _ _ Hu). congruence.
  - exists []. now rewrite app_nil_r.
Qed.

Lemma updateTaskStatus_in_frame taskId status extraFields :
  keeps (worker_frame taskId) (updateTaskStatus taskId status extraFields).
Proof.
  apply keeps_bind; [apply now_iso_in_frame|]. intros now.
  assert (Hkey : Key (update_input taskId status extraFields now) = taskId).
  { unfold update_input. now destruct (foldl _ _ _) as [[? ?] ?]. }
  pose proof (send_UpdateCommand_in_frame
                (update_input taskId status extraFields now)) as Hsend.
  now rewrite Hkey in Hsend.
Qed.

Lemma getAnthropicApiKey_in_frame taskId : keeps (worker_frame taskId) getAnthropicApiKey.
Proof.
  intros w. unfold getAnthropicApiKey.
  destruct (cachedApiKey w) as [[|a k]|]; try reflexivity.
  all: unfold send_GetSecretValueCommand, bind, issue;
    destruct (faults w (length (calls w))); cbn; repeat split; try reflexivity;
    exists [GetSecretValueCommand]; split; try reflexivity; now repeat constructor.
Qed.

Lemma messages_create_in_frame taskId params :
  keeps (worker_frame taskId) (messages_create params).
Proof.
  apply keeps_bind; [now apply issue_in_frame|]. intros _ w. reflexivity.
Qed.

Lemma send_PutObjectCommand_in_frame taskId obj :
  keeps (worker_frame taskId)
    (send_PutObjectCommand ("research/" +:+ ToString taskId +:+ ".md") obj).
Proof.
  apply keeps_bind; [now apply issue_in_frame|]. intros _ w.
  cbn. repeat split; try reflexivity.
  - intros k Hne. now apply lookup_insert_ne.
  - exists []. now rewrite app_nil_r.
Qed.

Lemma research_in_frame taskId topic : keeps (worker_frame taskId) (research taskId topic).
Proof.
  unfold research.
  apply keeps_bind; [apply send_GetCommand_in_frame|]. intros existing.
  destruct (already_researched existing); [apply keeps_ret|].
  apply keeps_bind; [apply updateTaskStatus_in_frame|]. intros _.
  apply keeps_bind; [apply getAnthropicApiKey_in_frame|]. intros apiKey.
  apply keeps_bind; [apply messages_create_in_frame|]. intros content.
  destruct (List.find is_text content); [|apply keeps_throw].
  apply keeps_bind; [apply send_PutObjectCommand_in_frame|]. intros _.
  apply keeps_bind; [apply updateTaskStatus_in_frame|]. intros _.
  apply keeps_ret.
Qed.

Lemma mark_failed_in_frame taskId error :
  keeps (worker_frame taskId) (mark_failed_and_rethrow taskId error).
Proof.
  apply keeps_bind; [|intros _; apply keeps_throw].
  apply keeps_best_effort, updateTaskStatus_in_frame.
Qed.

(** X1. A delivery, whatever its event and whichever calls reject, never
    publishes to the queue, never issues a put of a record and draws no
    identifier; the only record it can change is the one keyed by the
    [taskId] it read, and the only blob the one under
    [research/{taskId}.md]. *)
Theorem delivery_touches_only_its_task event w :
  queue (snd (handler event w)) = queue w /\
  draws (snd (handler event w)) = draws w /\
  (forall t, delivered_taskId event <> Some (VStr t) ->
     table (snd (handler event w)) !! t = table w !! t) /\
  (forall k,
     (forall taskId, delivered_taskId event = Some taskId ->
                     k <> "research/" +:+ ToString taskId +:+ ".md") ->
     bucket (snd (handler event w)) !! k = bucket w !! k) /\
  exists issued,
    calls (snd (handler event w)) = calls w ++ issued /\
    Forall worker_command issued.
Proof.
  set (P := fun w' : world =>
    queue w' = queue w /\ draws w' = draws w /\
    (forall t, delivered_taskId event <> Some (VStr t) -> table w' !! t = table w !! t) /\
    (forall k,
       (forall taskId, delivered_taskId event = Some taskId ->
                       k <> "research/" +:+ ToString taskId +:+ ".md") ->
       bucket w' !! k = bucket w !! k) /\
    exists issued, calls w' = calls w ++ issued /\ Forall worker_command issued).
  change (P (snd (handler event w))).
  assert (Hsame : P w).
  { repeat split; try reflexivity. exists []. now rewrite app_nil_r. }
  assert (Hframe : forall taskId w',
    delivered_taskId event = Some taskId -> worker_frame taskId w w' -> P w').
  { intros taskId w' Hid (Hq & Hd & _ & Ht & Hb & Hc). repeat split; try assumption.
    - intros t Hne. apply Ht. congruence.
    - intros k Hk. apply Hb. now apply Hk. }
  clearbody P. revert Hframe. unfold handler, delivered_taskId.
  destruct (Records event) as [[|record rest]|]; try (intros _; exact Hsame).
  unfold parse_record, try_catch at 1, bind at 1.
  destruct (JSON_parse (body record)) as [parsed|]; [|intros _; exact Hsame].
  destruct (get parsed "taskId") as [taskId|]; [|intros _; exact Hsame].
  destruct (get parsed "topic") as [topic|]; [|intros _; exact Hsame].
  cbn [ret throw fst snd]. intros Hframe.
  destruct (truthy taskId); cbn [negb]; [|exact Hsame].
  destruct (truthy topic); cbn [negb]; apply (Hframe taskId _ eq_refl).
  - apply keeps_try_catch; [apply research_in_frame | apply mark_failed_in_frame].
  - apply keeps_bind; [|intros _; apply keeps_ret].
    apply keeps_best_effort, updateTaskStatus_in_frame.
Qed.

End WorkerFrame.

(** ** Further properties: the table stays well keyed *)

Lemma keyed_preorder : PreOrder keyed.
Proof.
  split; [intros w Hw; exact Hw | intros w1 w2 w3 H12 H23 Hw; auto].
Qed.

Lemma keyed_same_table w w' : table w' = table w -> keyed w w'.
Proof. intros Ht Hw. now rewrite Ht. Qed.

Lemma well_keyed_insert t item tbl :
  well_keyed tbl -> item !! "taskId" = Some (VStr t) -> well_keyed (<[ t := item ]> tbl).
Proof.
  intros Htbl Hitem k item' Hl.
  destruct (decide (t = k)) as [<- | Hne].
  - rewrite lookup_insert_eq in Hl. now injection Hl as <-.
  - rewrite lookup_insert_ne in Hl by assumption. now apply Htbl.
Qed.

Lemma old_item_taskId t tbl :
  well_keyed tbl -> old_item t tbl !! "taskId" = Some (VStr t).
Proof.
  intros Htbl. unfold old_item.
  destruct (tbl !! t) as [item|] eqn:Hl; cbn; [now apply Htbl | apply lookup_singleton_eq].
Qed.

Lemma UpdateItem_needs_string_key u tbl :
  (forall t, Key u <> VStr t) -> UpdateItem u tbl = None.
Proof.
  intros Hkey. unfold UpdateItem.
  destruct (Key u) as [| | | |t| |]; try reflexivity. now destruct (Hkey t).
Qed.

Section Keyed.
Context `{JS}.

#[local] Existing Instance keyed_preorder.

Lemma updateTaskStatus_keyed taskId status extraFields :
  transition status extraFields ->
  keeps keyed (ResearchWorker.updateTaskStatus taskId status extraFields).
Proof.
  intros Htr w Hw. rewrite updateTaskStatus_cases. cbn zeta.
  destruct (faults w (length (calls w))); [exact Hw|].
  destruct taskId as [| | | |t| |];
    try (rewrite UpdateItem_needs_string_key by (cbn; destruct Htr; discriminate);
         exact Hw).
  destruct Htr.
  - rewrite UpdateItem_plain. cbn. apply well_keyed_insert; [exact Hw|].
    rewrite !lookup_insert_ne by discriminate. now apply old_item_taskId.
  - rewrite UpdateItem_extra by now left. cbn. apply well_keyed_insert; [exact Hw|].
    rewrite !lookup_insert_ne by discriminate. now apply old_item_taskId.
  - rewrite UpdateItem_extra by now right. cbn. apply well_keyed_insert; [exact Hw|].
    rewrite !lookup_insert_ne by discriminate. now apply old_item_taskId.
Qed.

Lemma issue_keyed c : keeps keyed (issue c).
Proof. intros w. apply keyed_same_table. unfold issue. now destruct (faults w _). Qed.

Lemma research_keyed taskId topic : keeps keyed (ResearchWorker.research taskId topic).
Proof.
  unfold ResearchWorker.research.
  apply keeps_bind.
  { apply keeps_bind; [apply issue_keyed|]. intros _ w.
    apply keyed_same_table. now destruct taskId. }
  intros existing. destruct (ResearchWorker.already_researched existing); [apply keeps_ret|].
  apply keeps_bind; [apply updateTaskStatus_keyed; constructor|]. intros _.
  apply keeps_bind.
  { intros w. apply keyed_same_table. unfold ResearchWorker.getAnthropicApiKey.
    destruct (cachedApiKey w) as [[|a k]|]; try reflexivity;
      unfold send_GetSecretValueCommand, bind, issue;
      now destruct (faults w (length (calls w))). }
  intros apiKey.
  apply keeps_bind.
  { apply keeps_bind; [apply issue_keyed|]. intros _ w. now apply keyed_same_table. }
  intros content. destruct (List.find ResearchWorker.is_text content); [|apply keeps_throw].
  apply keeps_bind.
  { apply keeps_bind; [apply issue_keyed|]. intros _ w. now apply keyed_same_table. }
  intros _.
  apply keeps_bind; [apply updateTaskStatus_keyed; constructor|]. intros _.
  apply keeps_ret.
Qed.

Lemma worker_keyed event : keeps keyed (ResearchWorker.handler event).
Proof.
  unfold ResearchWorker.handler.
  destruct (ResearchWorker.Records event) as [[|record rest]|]; try apply keeps_ret.
  apply keeps_bind.
  { intros w. apply keyed_same_table.
    unfold try_catch, ResearchWorker.parse_record.
    destruct (JSON_parse (ResearchWorker.body record)) as [parsed|]; [|reflexivity].
    destruct (get parsed "taskId"); [|reflexivity].
    now destruct (get parsed "topic"). }
  intros [taskId topic].
  destruct (negb (truthy taskId)); [apply keeps_throw|].
  destruct (negb (truthy topic)).
  - apply keeps_bind; [|intros _; apply keeps_ret].
    apply keeps_best_effort, updateTaskStatus_keyed. constructor.
  - apply keeps_try_catch; [apply research_keyed|]. intros error.
    apply keeps_bind; [|intros _; apply keeps_throw].
    apply keeps_best_effort, updateTaskStatus_keyed. constructor.
Qed.

Lemma pending_item_taskId taskId topic now :
  (list_to_map (pending_item taskId topic now) : Item) !! "taskId" = Some (VStr taskId).
Proof. reflexivity. Qed.

Lemma accept_keyed request : keeps keyed (Research.handler request).
Proof.
  intros w Hw. unfold Research.handler, try_catch.
  destruct (JSON_parse (Research.body_or_default request)) as [parsed|]; [|exact Hw].
  destruct (get parsed "topic") as [topic|]; [|exact Hw].
  destruct (negb (truthy topic) || negb (is_string topic)); [exact Hw|].
  destruct (500 <? Research.str_length topic)%nat; [exact Hw|].
  rewrite create_and_queue_cases. cbn zeta.
  destruct (faults w (length (calls w))); [exact Hw|].
  assert (Hcreated : well_keyed
    (<[ uuids w (draws w) :=
          list_to_map (pending_item (uuids w (draws w)) topic (clock w (ticks w))) ]>
       (table w))).
  { apply well_keyed_insert; [exact Hw | apply pending_item_taskId]. }
  destruct (faults w (S (length (calls w)))); [|exact Hcreated].
  destruct (faults w (S (S (length (calls w))))); unfold ret; project; [exact Hcreated|].
  apply well_keyed_insert; [exact Hcreated|].
  rewrite !lookup_insert_ne by discriminate. apply pending_item_taskId.
Qed.

(** X2. Both handlers keep the table well keyed: if every record carries
    its key as [taskId] before an accept or a delivery, every record does
    after it, whichever calls reject. *)
Theorem handlers_keep_the_table_well_keyed event request w :
  well_keyed (table w) ->
  well_keyed (table (snd (ResearchWorker.handler event w))) /\
  well_keyed (table (snd (Research.handler request w))).
Proof.
  intros Hw. split; [now apply worker_keyed | now apply accept_keyed].
Qed.

End Keyed.

(** ** Further properties: what the outcome of a delivery tells *)

Lemma bind_returned_inv {A B} (m : M A) (k : A -> M B) b w w' :
  bind m k w = (Returned b, w') ->
  exists a w1, m w = (Returned a, w1) /\ k a w1 = (Returned b, w').
Proof.
  unfold bind. destruct (m w) as [[a|e] w1]; [eauto | discriminate].
Qed.

Lemma send_GetCommand_cases t w :
  send_GetCommand (VStr t) w =
  match faults w (length (calls w)) with
  | Some e => (Thrown e, set_calls (fun cs => cs ++ [GetCommand (VStr t)]) w)
  | None => (Returned (table w !! t),
             set_calls (fun cs => cs ++ [GetCommand (VStr t)]) w)
  end.
Proof.
  unfold send_GetCommand, bind, issue. now destruct (faults w (length (calls w))).
Qed.

Lemma messages_create_cases params w :
  messages_create params w =
  match faults w (length (calls w)) with
  | Some e => (Thrown e, set_calls (fun cs => cs ++ [MessagesCreate params]) w)
  | None => (Returned (provider w params),
             set_calls (fun cs => cs ++ [MessagesCreate params]) w)
  end.
Proof.
  unfold messages_create, bind, issue. now destruct (faults w (length (calls w))).
Qed.

Lemma send_PutObjectCommand_cases key obj w :
  send_PutObjectCommand key obj w =
  match faults w (length (calls w)) with
  | Some e => (Thrown e, set_calls (fun cs => cs ++ [PutObjectCommand key obj]) w)
  | None => (Returned tt,
             set_bucket (fun b => <[ key := obj ]> b)
               (set_calls (fun cs => cs ++ [PutObjectCommand key obj]) w))
  end.
Proof.
  unfold send_PutObjectCommand, bind, issue. now destruct (faults w (length (calls w))).
Qed.

Lemma getAnthropicApiKey_leaves_stores k w w' :
  ResearchWorker.getAnthropicApiKey w = (Returned k, w') ->
  table w' = table w /\ bucket w' = bucket w /\ clock w' = clock w /\
  ticks w' = ticks w /\ provider w' = provider w.
Proof.
  unfold ResearchWorker.getAnthropicApiKey.
  destruct (cachedApiKey w) as [[|a s]|].
  2: { intros [= <- <-]. repeat split. }
  all: unfold send_GetSecretValueCommand, bind, issue;
    destruct (faults w (length (calls w))); [discriminate|];
    intros [= <- <-]; repeat split.
Qed.

Lemma getAnthropicApiKey_returns_current_key k w w' :
  ResearchWorker.getAnthropicApiKey w = (Returned k, w') -> k = current_key w.
Proof.
  unfold ResearchWorker.getAnthropicApiKey, current_key.
  destruct (cachedApiKey w) as [[|a s]|].
  2: { now intros [= <- _]. }
  all: unfold send_GetSecretValueCommand, bind, issue;
    destruct (faults w (length (calls w))); [discriminate|];
    now intros [= <- _].
Qed.

Lemma guard_true_means_researched t w :
  ResearchWorker.already_researched (table w !! t) = true ->
  status_of t w = Some (VStr "researched").
Proof.
  unfold ResearchWorker.already_researched, status_of.
  destruct (table w !! t) as [item|]; [|discriminate]. cbn.
  destruct (item !! "status") as [[| | | |s| |]|]; try discriminate.
  now intros ->%String.eqb_eq.
Qed.

Section Outcomes.
Context `{JS}.
Import ResearchWorker.

(** The two ways the main [try] returns. *)
Lemma research_returned t topic v w w' :
  research (VStr t) topic w = (Returned v, w') ->
  (v = VObj [("taskId", VStr t); ("status", VStr "already_researched")] /\
   status_of t w = Some (VStr "researched") /\
   w' = set_calls (fun cs => cs ++ [GetCommand (VStr t)]) w) \/
  (v = VObj [("taskId", VStr t); ("s3Key", VStr (key_of t));
             ("status", VStr "researched")] /\
   status_of t w' = Some (VStr "researched") /\
   (table w' !! t) ≫= (fun item => item !! "s3Key") = Some (VStr (key_of t)) /\
   exists textBlock,
     List.find is_text (provider w (create_params (current_key w) topic)) =
       Some textBlock /\
     bucket w' !! key_of t =
       Some {| Body := block_text textBlock; ContentType := "text/markdown" |}).
Proof.
  unfold research. intros Hrun.
  apply bind_returned_inv in Hrun as (existing & w1 & Hget & Hrun).
  rewrite send_GetCommand_cases in Hget.
  destruct (faults w (length (calls w))); [discriminate|]. injection Hget as <- <-.
  destruct (already_researched (table w !! t)) eqn:Hguard.
  { injection Hrun as <- <-. left. split; [reflexivity|].
    split; [now apply guard_true_means_researched | reflexivity]. }
  right.
  apply bind_returned_inv in Hrun as ([] & w2 & Hupd & Hrun).
  rewrite updateTaskStatus_cases in Hupd. cbn zeta in Hupd.
  destruct (faults _ _); [discriminate|].
  rewrite UpdateItem_plain in Hupd. injection Hupd as <-.
  apply bind_returned_inv in Hrun as (apiKey & w3 & Hkey & Hrun).
  pose proof (getAnthropicApiKey_returns_current_key _ _ _ Hkey) as Hcurrent.
  apply getAnthropicApiKey_leaves_stores in Hkey
    as (Htable3 & Hbucket3 & Hclock3 & Hticks3 & Hprovider3).
  change (apiKey = current_key w) in Hcurrent. subst apiKey.
  apply bind_returned_inv in Hrun as (content & w4 & Hcreate & Hrun).
  rewrite messages_create_cases in Hcreate.
  destruct (faults w3 _); [discriminate|]. injection Hcreate as <- <-.
  destruct (List.find is_text _) as [textBlock|] eqn:Hfind; [|discriminate].
  apply bind_returned_inv in Hrun as ([] & w5 & Hput & Hrun).
  rewrite send_PutObjectCommand_cases in Hput.
  destruct (faults _ _); [discriminate|]. injection Hput as <-.
  apply bind_returned_inv in Hrun as ([] & w6 & Hdone & Hrun).
  rewrite updateTaskStatus_cases in Hdone. cbn zeta in Hdone.
  destruct (faults _ _); [discriminate|].
  rewrite UpdateItem_extra in Hdone by now left. injection Hdone as <-.
  injection Hrun as <- <-.
  split; [reflexivity|]. unfold status_of. project.
  rewrite !lookup_insert_eq. cbn.
  split; [rewrite !lookup_insert_ne by discriminate; apply lookup_insert_eq|].
  split; [apply lookup_insert_eq|].
  exists textBlock. split; [|reflexivity].
  rewrite Hprovider3 in Hfind. exact Hfind.
Qed.

(** X3. A delivery of a valid work item returns normally, so that the
    queue deletes the message, in two cases only: the task was already
    stored as [researched] and only the guard's read was issued; or the
    task's record now reads [researched] with [s3Key = research/{taskId}.md]
    and the bucket holds under that key, as [text/markdown], the text of
    the first block of type [text] in what the provider answered to the
    request for this topic. *)
Theorem normal_return_means_researched event (t : string) topic v w w' :
  work_item event (VStr t) topic ->
  truthy (VStr t) = true -> truthy topic = true ->
  handler event w = (Returned v, w') ->
  (v = VObj [("taskId", VStr t); ("status", VStr "already_researched")] /\
   status_of t w = Some (VStr "researched") /\
   table w' = table w /\ bucket w' = bucket w /\
   calls w' = calls w ++ [GetCommand (VStr t)]) \/
  (v = VObj [("taskId", VStr t); ("s3Key", VStr (key_of t));
             ("status", VStr "researched")] /\
   status_of t w' = Some (VStr "researched") /\
   (table w' !! t) ≫= (fun item => item !! "s3Key") = Some (VStr (key_of t)) /\
   exists textBlock,
     List.find is_text (provider w (create_params (current_key w) topic)) =
       Some textBlock /\
     bucket w' !! key_of t =
       Some {| Body := block_text textBlock; ContentType := "text/markdown" |}).
Proof.
  intros Hitem Ht1 Ht2 Hrun.
  rewrite (handler_valid_item _ _ _ _ Hitem Ht1 Ht2) in Hrun.
  unfold try_catch in Hrun.
  destruct (research (VStr t) topic w) as [[v0|e] w1] eqn:Hresearch.
  - injection Hrun as <- <-.
    destruct (research_returned _ _ _ _ _ Hresearch) as [(-> & Hs & ->) | Hdone].
    + left. repeat split; assumption.
    + right. exact Hdone.
  - pose proof (mark_failed_rethrows (VStr t) e w1) as Hthrown.
    rewrite Hrun in Hthrown. discriminate.
Qed.

(** X4. When a delivery of a valid work item throws [e], the last call it
    issued is the update that marks the task [failed] with [e]'s message;
    when that update was answered, the task's record reads [failed] with
    that message as [error]. *)
Theorem escalated_failure_is_recorded event (t : string) topic e w w' :
  work_item event (VStr t) topic ->
  truthy (VStr t) = true -> truthy topic = true ->
  handler event w = (Thrown e, w') ->
  exists before now,
    calls w' =
      before ++ [UpdateCommand (update_input (VStr t) "failed"
                                  [("error", VStr (message e))] now)] /\
    (faults w (length before) = None ->
     status_of t w' = Some (VStr "failed") /\
     (table w' !! t) ≫= (fun item => item !! "error") = Some (VStr (message e))).
Proof.
  intros Hitem Ht1 Ht2 Hrun.
  rewrite (handler_valid_item _ _ _ _ Hitem Ht1 Ht2) in Hrun.
  unfold try_catch in Hrun.
  destruct (research (VStr t) topic w) as [[v0|e0] w1] eqn:Hresearch; [discriminate|].
  pose proof (mark_failed_rethrows (VStr t) e0 w1) as Hthrown.
  rewrite Hrun in Hthrown. injection Hthrown as ->.
  assert (Hfaults : faults w1 = faults w).
  { pose proof (research_in_frame (VStr t) topic w) as Hframe.
    rewrite Hresearch in Hframe. now destruct Hframe as (_ & _ & Hf & _). }
  exists (calls w1), (clock w1 (ticks w1)).
  unfold mark_failed_and_rethrow, best_effort, try_catch, bind in Hrun.
  rewrite updateTaskStatus_cases in Hrun. cbn zeta in Hrun.
  rewrite <- Hfaults.
  destruct (faults w1 (length (calls w1))) as [e1|].
  - injection Hrun as <-. split; [reflexivity | discriminate].
  - rewrite UpdateItem_extra in Hrun by now right.
    injection Hrun as <-. split; [reflexivity|]. intros _.
    unfold status_of. project. rewrite !lookup_insert_eq. cbn.
    split; [|apply lookup_insert_eq].
    rewrite !lookup_insert_ne by discriminate. apply lookup_insert_eq.
Qed.

End Outcomes.

(** ** Further properties: the credential cache *)

Section Credential.
Import ResearchWorker.

(** X5. The credential is fetched once: when [getAnthropicApiKey] has
    returned a non-empty key, the next call returns the same key without
    issuing any SDK call or changing anything. *)
Theorem api_key_is_fetched_once k w w1 :
  getAnthropicApiKey w = (Returned k, w1) ->
  k <> EmptyString ->
  getAnthropicApiKey w1 = (Returned k, w1).
Proof.
  unfold getAnthropicApiKey at 1.
  destruct (cachedApiKey w) as [[|a s]|] eqn:Hcache.
  2: { intros [= <- <-] _. unfold getAnthropicApiKey. now rewrite Hcache. }
  all: unfold send_GetSecretValueCommand, bind, issue;
    destruct (faults w (length (calls w))); [discriminate|];
    intros [= <- <-] Hne; unfold getAnthropicApiKey; cbn;
    destruct (secret w); [congruence | reflexivity].
Qed.

(** X6. The cache serves nothing it should not: after a call that threw
    (the fetch was rejected) or that returned an empty [SecretString],
    the next call fetches from Secrets Manager again. *)
Theorem api_key_is_fetched_again outcome w w1 :
  getAnthropicApiKey w = (outcome, w1) ->
  (forall k, outcome = Returned k -> k = EmptyString) ->
  key_calls w1 = [GetSecretValueCommand] /\
  forall k w2, getAnthropicApiKey w1 = (Returned k, w2) ->
    calls w2 = calls w1 ++ [GetSecretValueCommand] /\ k = secret w1.
Proof.
  intros Hrun Hempty.
  assert (Hmiss : key_calls w1 = [GetSecretValueCommand]).
  { revert Hrun. unfold getAnthropicApiKey, key_calls.
    destruct (cachedApiKey w) as [[|a s]|] eqn:Hcache.
    2: { intros [= <- <-]. now specialize (Hempty _ eq_refl). }
    all: unfold send_GetSecretValueCommand, bind, issue;
      destruct (faults w (length (calls w)));
      intros [= <- <-]; cbn; rewrite ?Hcache; try reflexivity;
      now rewrite (Hempty _ eq_refl). }
  split; [exact Hmiss|].
  intros k w2. unfold key_calls in Hmiss. unfold getAnthropicApiKey.
  destruct (cachedApiKey w1) as [[|a s]|]; try discriminate.
  all: unfold send_GetSecretValueCommand, bind, issue;
    destruct (faults w1 (length (calls w1))); [discriminate|];
    intros [= <- <-]; split; reflexivity.
Qed.

End Credential.

(** ** Further properties: records the worker does not check *)

Section Unchecked.
Context `{JS}.
Import ResearchWorker.

(** X7. The worker never checks that the task exists: a delivery for a
    [taskId] the table has no record of, its calls answered and the
    provider answering a text block, creates the record; it ends
    [researched] with its [s3Key], and has neither [topic] nor
    [createdAt]. *)
Theorem unknown_task_is_created event (t : string) topic textBlock w :
  work_item event (VStr t) topic ->
  truthy (VStr t) = true -> truthy topic = true ->
  table w !! t = None ->
  answered (5 + length (key_calls w)) w ->
  List.find is_text (provider w (create_params (current_key w) topic)) =
    Some textBlock ->
  exists item,
    table (snd (handler event w)) !! t = Some item /\
    item !! "taskId" = Some (VStr t) /\
    item !! "status" = Some (VStr "researched") /\
    item !! "s3Key" = Some (VStr (key_of t)) /\
    item !! "updatedAt" = Some (VStr (clock w (S (ticks w)))) /\
    item !! "topic" = None /\
    item !! "createdAt" = None.
Proof.
  intros Hitem Ht1 Ht2 Hnone Ha Hfind.
  destruct (research_text t topic w textBlock) as (w' & Hrun & _ & Htable & _);
    [|exact Ha|exact Hfind|].
  { unfold already_researched. now rewrite Hnone. }
  rewrite (handler_valid_item _ _ _ _ Hitem Ht1 Ht2).
  rewrite (try_catch_returned _ _ _ _ _ Hrun). cbn [snd].
  rewrite Htable. unfold old_item. rewrite Hnone. cbn [default].
  eexists. split; [apply lookup_insert_eq|].
  repeat split; reflexivity.
Qed.

End Unchecked.

(** ** Further properties: the answers of the accept handler *)

Section AcceptAnswers.
Context `{JS}.
Import Research.

Lemma valid_request_runs request s w :
  valid_request request s ->
  handler request w =
  try_catch (create_and_queue (VStr s))
    (fun error => ret (respond 500 (VObj [("error", message_or_error error)]))) w.
Proof.
  intros (parsed & Hparse & Htopic & Hne & Hlen).
  now apply (handler_valid_topic _ parsed).
Qed.

(** A topic that passes the two tests is a non-empty string of at most
    500 characters. *)
Lemma passing_topic topic :
  negb (truthy topic) || negb (is_string topic) = false ->
  (500 <? str_length topic)%nat = false ->
  exists s, topic = VStr s /\ s <> EmptyString /\ (String.length s <= 500)%nat.
Proof.
  intros [Ht Hs]%orb_false_elim Hlen.
  apply negb_false_iff in Ht. apply negb_false_iff in Hs.
  destruct topic as [| | | |s| |]; try discriminate.
  exists s. split; [reflexivity|]. split.
  - intros ->. discriminate.
  - apply Nat.ltb_ge in Hlen. exact Hlen.
Qed.

(** X8. The accept handler always answers: whatever the request and
    whichever calls reject, it returns a response, never throws, and the
    status code is 202, 400 or 500. *)
Theorem accept_always_answers request w :
  exists response,
    fst (handler request w) = Returned response /\
    (statusCode response = 202 \/ statusCode response = 400 \/
     statusCode response = 500)%Z.
Proof.
  unfold handler, try_catch.
  destruct (JSON_parse (body_or_default request)) as [parsed|];
    [|eexists; split; [reflexivity | right; left; reflexivity]].
  destruct (get parsed "topic") as [topic|];
    [|eexists; split; [reflexivity | right; right; reflexivity]].
  destruct (negb (truthy topic) || negb (is_string topic));
    [eexists; split; [reflexivity | right; left; reflexivity]|].
  destruct (500 <? str_length topic)%nat;
    [eexists; split; [reflexivity | right; left; reflexivity]|].
  rewrite create_and_queue_cases. cbn zeta.
  destruct (faults w (length (calls w)));
    [eexists; split; [reflexivity | right; right; reflexivity]|].
  destruct (faults w (S (length (calls w))));
    [|eexists; split; [reflexivity | left; reflexivity]].
  destruct (faults w (S (S (length (calls w)))));
    eexists; (split; [reflexivity | right; right; reflexivity]).
Qed.

(** X9. The answer is 400 exactly for the requests the validation turns
    down, and then nothing at all has happened: no identifier drawn, no
    clock read, no SDK call. *)
Theorem accept_answers_400_iff_invalid request w :
  (exists response,
     fst (handler request w) = Returned response /\ statusCode response = 400%Z) <->
  invalid_request request /\ snd (handler request w) = w.
Proof.
  split.
  - intros (response & Hrun & Hcode). revert Hrun.
    unfold invalid_request, handler, try_catch.
    destruct (JSON_parse (body_or_default request)) as [parsed|] eqn:Hparse;
      [|intros _; split; [now left | reflexivity]].
    destruct (get parsed "topic") as [topic|] eqn:Htopic.
    2: { intros [= <-]. discriminate Hcode. }
    destruct (negb (truthy topic) || negb (is_string topic)) eqn:Hguard.
    { intros _. split; [|reflexivity]. right. exists parsed, topic.
      split; [reflexivity|]. split; [exact Htopic|].
      apply orb_true_iff in Hguard as [Hg | Hg]; apply negb_true_iff in Hg; auto. }
    destruct (500 <? str_length topic)%nat eqn:Hlen.
    { intros _. split; [|reflexivity]. right. exists parsed, topic.
      split; [reflexivity|]. split; [exact Htopic|].
      right. right. now apply Nat.ltb_lt. }
    rewrite create_and_queue_cases. cbn zeta.
    destruct (faults w (length (calls w))).
    { intros [= <-]. discriminate Hcode. }
    destruct (faults w (S (length (calls w)))).
    2: { intros [= <-]. discriminate Hcode. }
    destruct (faults w (S (S (length (calls w))))); intros [= <-]; discriminate Hcode.
  - intros (Hinvalid & _).
    destruct (accept_rejects_invalid_input request w Hinvalid) as (msg & Hrun).
    exists (error_response 400 msg). now rewrite Hrun.
Qed.

(** X10. An acknowledgement is never sent for nothing: when the answer is
    202, the request was valid, the record was written as [pending]
    under the [taskId] the answer names, and the message
    [{taskId, topic}] is the last one on the queue. *)
Theorem accept_202_means_queued request response w :
  fst (handler request w) = Returned response ->
  statusCode response = 202%Z ->
  exists s,
    valid_request request s /\
    response = accepted (uuids w (draws w)) /\
    status_of (uuids w (draws w)) (snd (handler request w)) = Some (VStr "pending") /\
    queue (snd (handler request w)) =
      queue w ++ [work_message (uuids w (draws w)) (VStr s)].
Proof.
  unfold handler, try_catch.
  destruct (JSON_parse (body_or_default request)) as [parsed|] eqn:Hparse.
  2: { intros [= <-] Hcode. discriminate Hcode. }
  destruct (get parsed "topic") as [topic|] eqn:Htopic.
  2: { intros [= <-] Hcode. discriminate Hcode. }
  destruct (negb (truthy topic) || negb (is_string topic)) eqn:Hguard.
  { intros [= <-] Hcode. discriminate Hcode. }
  destruct (500 <? str_length topic)%nat eqn:Hlen.
  { intros [= <-] Hcode. discriminate Hcode. }
  destruct (passing_topic topic Hguard Hlen) as (s & -> & Hne & Hle).
  rewrite create_and_queue_cases. cbn zeta.
  destruct (faults w (length (calls w))).
  { intros [= <-] Hcode. discriminate Hcode. }
  destruct (faults w (S (length (calls w)))).
  { destruct (faults w (S (S (length (calls w))))); intros [= <-] Hcode;
      discriminate Hcode. }
  intros [= <-] _. exists s. split; [now exists parsed|].
  split; [reflexivity|]. split; [|reflexivity].
  unfold status_of. project. now rewrite lookup_insert_eq.
Qed.

(** X11. Write before publish: when the store write of a valid request is
    rejected, the handler answers 500 with [Failed to create task record]
    and issues no other call; nothing is queued and the table is as it
    was. *)
Theorem rejected_write_is_never_published request s e w :
  valid_request request s ->
  faults w (length (calls w)) = Some e ->
  fst (handler request w) =
    Returned (error_response 500 "Failed to create task record") /\
  calls (snd (handler request w)) =
    calls w ++ [PutCommand (pending_item (uuids w (draws w)) (VStr s)
                              (clock w (ticks w)))] /\
  queue (snd (handler request w)) = queue w /\
  table (snd (handler request w)) = table w.
Proof.
  intros Hvalid Hput. rewrite (valid_request_runs _ _ _ Hvalid).
  unfold try_catch. rewrite create_and_queue_cases. cbn zeta. rewrite Hput.
  repeat split.
Qed.

(** X12. The orphan the code accepts: when the publish of a valid request
    is rejected and the compensating update is rejected too, the handler
    still answers 500, nothing is queued, and the record just created
    stays [pending] with no [error]. *)
Theorem rejected_compensation_leaves_pending request s e e' w :
  valid_request request s ->
  faults w (length (calls w)) = None ->
  faults w (S (length (calls w))) = Some e ->
  faults w (S (S (length (calls w)))) = Some e' ->
  fst (handler request w) =
    Returned (error_response 500 "Failed to place message on queue") /\
  queue (snd (handler request w)) = queue w /\
  exists item,
    table (snd (handler request w)) !! uuids w (draws w) = Some item /\
    item !! "status" = Some (VStr "pending") /\
    item !! "topic" = Some (VStr s) /\
    item !! "error" = None.
Proof.
  intros Hvalid Hput Hsend Hupdate. rewrite (valid_request_runs _ _ _ Hvalid).
  unfold try_catch. rewrite create_and_queue_cases. cbn zeta.
  rewrite Hput, Hsend, Hupdate. unfold ret. project.
  split; [reflexivity|]. split; [reflexivity|].
  eexists. split; [apply lookup_insert_eq|]. repeat split.
Qed.

(** X13. The accept handler works on nothing but its own task: whatever
    the request and whichever calls reject, no record but the one keyed
    by the identifier it draws changes, the bucket and the credential
    cache are untouched, at most one message is added to the queue, and
    only puts, sends and updates are issued. *)
Theorem accept_touches_only_its_task request w :
  (forall t, t <> uuids w (draws w) ->
     table (snd (handler request w)) !! t = table w !! t) /\
  bucket (snd (handler request w)) = bucket w /\
  cachedApiKey (snd (handler request w)) = cachedApiKey w /\
  (exists sent, queue (snd (handler request w)) = queue w ++ sent /\
                (length sent <= 1)%nat) /\
  exists issued,
    calls (snd (handler request w)) = calls w ++ issued /\
    Forall accept_command issued.
Proof.
  split; [intros t Hne; now apply accept_writes_only_its_task|].
  assert (Hnothing :
    bucket w = bucket w /\ cachedApiKey w = cachedApiKey w /\
    (exists sent, queue w = queue w ++ sent /\ (length sent <= 1)%nat) /\
    exists issued, calls w = calls w ++ issued /\ Forall accept_command issued).
  { repeat split; exists []; rewrite app_nil_r; split; auto. }
  unfold handler, try_catch.
  destruct (JSON_parse (body_or_default request)) as [parsed|]; [|exact Hnothing].
  destruct (get parsed "topic") as [topic|]; [|exact Hnothing].
  destruct (negb (truthy topic) || negb (is_string topic)); [exact Hnothing|].
  destruct (500 <? str_length topic)%nat; [exact Hnothing|].
  clear Hnothing. rewrite create_and_queue_cases. cbn zeta.
  destruct (faults w (length (calls w))).
  { unfold ret. project. repeat split.
    - exists []. rewrite app_nil_r. split; auto.
    - eexists [_]. split; [reflexivity|]. repeat constructor. }
  destruct (faults w (S (length (calls w)))).
  - destruct (faults w (S (S (length (calls w))))); unfold ret; project;
      (repeat split;
       [exists []; rewrite app_nil_r; split; auto
       |eexists [_; _; _]; rewrite <- !app_assoc; split;
        [reflexivity | repeat constructor]]).
  - project. repeat split.
    + eexists [_]. split; [reflexivity | auto].
    + eexists [_; _]. rewrite <- !app_assoc. split; [reflexivity | repeat constructor].
Qed.

End AcceptAnswers.

(** ** Further properties: the two handlers together *)

Section Pipeline.
Context `{JS}.

Lemma answered_later n m issued w w' :
  answered (m + n) w ->
  calls w' = calls w ++ issued -> length issued = m -> faults w' = faults w ->
  answered n w'.
Proof.
  intros Ha Hcalls Hlen Hfaults i Hi.
  rewrite Hfaults, Hcalls, length_app, Hlen.
  replace (i + (length (calls w) + m))%nat with ((m + i) + length (calls w))%nat by lia.
  apply Ha. lia.
Qed.

(** X14. From request to artifact: for a valid request whose queued
    message parses back to [{taskId, topic}], with every call of the
    accept and of the delivery answered and a text block from the
    provider, delivering the queued message ends with the record the
    accept created reading [researched], its [topic] and [createdAt] as
    the accept wrote them, its [s3Key] the key under which the bucket
    holds the text. *)
Theorem accepted_request_is_researched request s textBlock w :
  valid_request request s ->
  uuids w (draws w) <> EmptyString ->
  JSON_parse (work_message (uuids w (draws w)) (VStr s)) =
    Some (VObj [("taskId", VStr (uuids w (draws w))); ("topic", VStr s)]) ->
  answered (7 + length (key_calls w)) w ->
  List.find ResearchWorker.is_text
    (provider w (ResearchWorker.create_params (current_key w) (VStr s))) =
    Some textBlock ->
  let taskId := uuids w (draws w) in
  let w1 := snd (Research.handler request w) in
  let delivery := ResearchWorker.handler (delivery_of (work_message taskId (VStr s))) w1 in
  fst (Research.handler request w) = Returned (accepted taskId) /\
  queue w1 = queue w ++ [work_message taskId (VStr s)] /\
  fst delivery =
    Returned (VObj [("taskId", VStr taskId); ("s3Key", VStr (key_of taskId));
                    ("status", VStr "researched")]) /\
  bucket (snd delivery) !! key_of taskId =
    Some {| Body := block_text textBlock; ContentType := "text/markdown" |} /\
  exists item,
    table (snd delivery) !! taskId = Some item /\
    item !! "status" = Some (VStr "researched") /\
    item !! "s3Key" = Some (VStr (key_of taskId)) /\
    item !! "topic" = Some (VStr s) /\
    item !! "createdAt" = Some (VStr (clock w (ticks w))).
Proof.
  intros Hvalid Hid Hround Ha Hfind taskId w1 delivery.
  subst delivery w1.
  rewrite (valid_request_runs _ _ _ Hvalid).
  unfold try_catch. rewrite create_and_queue_cases. cbn zeta.
  rewrite (answered_at _ _ _ Ha) by lia.
  rewrite (answered_at _ _ _ Ha) by lia.
  cbn [fst snd].
  set (w1 := set_queue _ _).
  assert (Hitem : work_item (delivery_of (work_message taskId (VStr s)))
                    (VStr taskId) (VStr s)).
  { eexists _, [], _. split; [reflexivity|]. split; [exact Hround|].
    split; reflexivity. }
  assert (Htruthy : truthy (VStr taskId) = true).
  { subst taskId. destruct (uuids w (draws w)); [congruence | reflexivity]. }
  assert (Htopic : truthy (VStr s) = true).
  { destruct Hvalid as (_ & _ & _ & Hne & _). destruct s; [congruence | reflexivity]. }
  destruct (research_text taskId (VStr s) w1 textBlock)
    as (w2 & Hrun & Hbucket & Htable & _).
  { subst w1. project. now rewrite lookup_insert_eq. }
  { eapply (answered_later _ 2 _ w); [exact Ha | | | reflexivity].
    - subst w1. project. rewrite <- app_assoc. reflexivity.
    - reflexivity. }
  { exact Hfind. }
  rewrite (handler_valid_item _ _ _ _ Hitem Htruthy Htopic).
  rewrite (try_catch_returned _ _ _ _ _ Hrun). cbn [fst snd].
  split; [reflexivity|]. split; [reflexivity|]. split; [reflexivity|].
  split; [rewrite Hbucket; apply lookup_insert_eq|].
  rewrite Htable. eexists. split; [apply lookup_insert_eq|].
  subst w1. project. rewrite old_item_insert.
  repeat split; reflexivity.
Qed.

(** X15. Redeliveries after a success change nothing: once a delivery has
    researched the task, any number of further deliveries of the same
    work item, their reads answered, leave the table and the bucket as
    that delivery left them and issue one read each. *)
Theorem redeliveries_after_success_change_nothing event (t : string) topic textBlock n w :
  work_item event (VStr t) topic ->
  truthy (VStr t) = true -> truthy topic = true ->
  status_of t w <> Some (VStr "researched") ->
  answered (5 + length (key_calls w) + n) w ->
  List.find ResearchWorker.is_text
    (provider w (ResearchWorker.create_params (current_key w) topic)) =
    Some textBlock ->
  let w1 := snd (ResearchWorker.handler event w) in
  status_of t w1 = Some (VStr "researched") /\
  table (deliveries n event w1) = table w1 /\
  bucket (deliveries n event w1) = bucket w1 /\
  calls (deliveries n event w1) = calls w1 ++ repeat (GetCommand (VStr t)) n.
Proof.
  intros Hitem Ht1 Ht2 Hnot%not_researched_guard Ha Hfind w1. subst w1.
  destruct (research_text t topic w textBlock Hnot) as
    (w' & Hrun & _ & Htable & _ & Hfaults & Hcalls); [|exact Hfind|].
  { intros i Hi. apply Ha. lia. }
  rewrite (handler_valid_item _ _ _ _ Hitem Ht1 Ht2).
  rewrite (try_catch_returned _ _ _ _ _ Hrun). cbn [snd].
  assert (Hrow : exists item, table w' !! t = Some item /\
                              item !! "status" = Some (VStr "researched")).
  { rewrite Htable. eexists. split; [apply lookup_insert_eq|].
    rewrite !lookup_insert_ne by discriminate. apply lookup_insert_eq. }
  destruct Hrow as (item & Hrow & Hstatus). split.
  - unfold status_of. now rewrite Hrow.
  - apply (deliveries_of_researched event t topic item n Hitem Ht1 Ht2 Hstatus w' Hrow).
    eapply answered_later; [exact Ha | exact Hcalls | | exact Hfaults].
    rewrite !length_app. cbn [length]. lia.
Qed.

End Pipeline.

(** ** The status update in general *)
Lemma split_on_nonempty c s : split_on c s <> [].
Proof.
  induction s as [|a s IH]; cbn; [discriminate|].
  destruct (Ascii.eqb a c); [discriminate|].
  destruct (split_on c s); [contradiction | discriminate].
Qed.

Lemma split_on_lacks c s : lacks c s = true -> split_on c s = [s].
Proof.
  induction s as [|a s IH]; simpl; [reflexivity|].
  intros [Ha Hs]%andb_true_iff. apply negb_true_iff in Ha. rewrite Ha, (IH Hs).
  reflexivity.
Qed.

Lemma split_on_app c p s :
  lacks c p = true -> split_on c (p +:+ String c s) = p :: split_on c s.
Proof.
  induction p as [|a p IH]; simpl.
  - intros _. now rewrite Ascii.eqb_refl.
  - intros [Ha Hp]%andb_true_iff. apply negb_true_iff in Ha. rewrite Ha, (IH Hp).
    reflexivity.
Qed.

Lemma lacks_app c p s : lacks c (p +:+ s) = lacks c p && lacks c s.
Proof.
  induction p as [|a p IH]; simpl; [reflexivity|].
  now rewrite IH, andb_assoc.
Qed.

Lemma rtrim_lacks s : lacks " " s = true -> rtrim s = s.
Proof.
  induction s as [|a s IH]; simpl; [reflexivity|].
  intros [Ha Hs]%andb_true_iff. apply negb_true_iff in Ha. rewrite (IH Hs), Ha.
  now destruct s.
Qed.

Lemma rtrim_app_space s : rtrim (s +:+ " ") = rtrim s.
Proof.
  induction s as [|a s IH]; simpl; [reflexivity|].
  now rewrite IH.
Qed.

Lemma name_chars_lacks c s :
  name_char c = false -> name_chars s = true -> lacks c s = true.
Proof.
  intros Hc. induction s as [|a s IH]; simpl; [reflexivity|].
  intros [Ha Hs]%andb_true_iff. rewrite (IH Hs), andb_true_r.
  apply negb_true_iff. destruct (Ascii.eqb_spec a c) as [->|]; congruence.
Qed.

Lemma append_assoc (a b c : string) : (a +:+ b) +:+ c = a +:+ b +:+ c.
Proof.
  induction a as [|x a IH]; [reflexivity|].
  change (String x ((a +:+ b) +:+ c) = String x (a +:+ b +:+ c)). now rewrite IH.
Qed.

Lemma join_cons sep p q parts :
  ResearchWorker.join sep (p :: q :: parts) =
  p +:+ sep +:+ ResearchWorker.join sep (q :: parts).
Proof. reflexivity. Qed.

Lemma split_join_comma parts : forall p,
  Forall (fun s => lacks "," s = true) (p :: parts) ->
  split_on "," (ResearchWorker.join ", " (p :: parts)) = p :: map (String " ") parts.
Proof.
  induction parts as [|q parts IH]; intros p Hp.
  - apply split_on_lacks. now inversion Hp.
  - inversion Hp as [|? ? Hp1 Hp2]; subst.
    rewrite join_cons.
    change (", " +:+ ResearchWorker.join ", " (q :: parts))
      with (String "," (String " " (ResearchWorker.join ", " (q :: parts)))).
    rewrite (split_on_app _ _ _ Hp1).
    change (split_on "," (String " " (ResearchWorker.join ", " (q :: parts))))
      with (match split_on "," (ResearchWorker.join ", " (q :: parts)) with
            | [] => [String " " EmptyString]
            | h :: t => String " " h :: t
            end).
    now rewrite (IH _ Hp2).
Qed.

Lemma clause_lacks_comma k : name_chars k = true -> lacks "," (clause k) = true.
Proof.
  intros Hk. unfold clause.
  change (lacks "," (String "#" (k +:+ " = :" +:+ k)) = true).
  simpl. rewrite !lacks_app, (name_chars_lacks "," k) by (reflexivity || assumption).
  reflexivity.
Qed.

Lemma set_action_clause k :
  name_chars k = true ->
  set_action (String " " (clause k)) = Some ("#" +:+ k, ":" +:+ k).
Proof.
  intros Hk. unfold set_action, clause.
  assert (Heq : String " " (("#" +:+ k) +:+ " = " +:+ ":" +:+ k) =
                (" #" +:+ k +:+ " ") +:+ String "=" (" :" +:+ k)).
  { change (String " " (String "#" (k +:+ " " +:+ String "=" (" :" +:+ k))) =
            String " " (String "#" ((k +:+ " ") +:+ String "=" (" :" +:+ k)))).
    now rewrite append_assoc. }
  assert (Hno := name_chars_lacks "=" k eq_refl Hk).
  assert (Hsp := name_chars_lacks " " k eq_refl Hk).
  rewrite Heq, split_on_app.
  2:{ change (lacks "=" (k +:+ " ") = true). now rewrite lacks_app, Hno. }
  rewrite split_on_lacks by exact Hno.
  change (trim (" #" +:+ k +:+ " ")) with (rtrim (("#" +:+ k) +:+ " ")).
  change (trim (" :" +:+ k)) with (rtrim (":" +:+ k)).
  rewrite rtrim_app_space, !rtrim_lacks by exact Hsp.
  reflexivity.
Qed.

Lemma mapM_cons_Some {A B} (f : A -> option B) x l y k :
  f x = Some y -> mapM f l = Some k -> mapM f (x :: l) = Some (y :: k).
Proof. intros Hx Hl. cbn. now rewrite Hx, Hl. Qed.

Lemma mapM_map_Some {A B C} (f : B -> option C) (g : A -> B) (h : A -> C) l :
  (forall x, In x l -> f (g x) = Some (h x)) ->
  mapM f (map g l) = Some (map h l).
Proof.
  induction l as [|x l IH]; intros Hl; [reflexivity|].
  apply mapM_cons_Some; [apply Hl; now left|].
  apply IH. intros; apply Hl; now right.
Qed.

Lemma set_actions_rendered keys :
  Forall (fun k => name_chars k = true) keys ->
  set_actions ("SET " +:+ ResearchWorker.join ", "
                 ("#status = :status" :: "updatedAt = :now" :: map clause keys)) =
  Some (("#status", ":status") :: ("updatedAt", ":now") ::
        map (fun k => ("#" +:+ k, ":" +:+ k)) keys).
Proof.
  intros Hkeys. unfold set_actions.
  change (strip_prefix "SET " ("SET " +:+ ?x)) with (Some x). cbn [mbind option_bind].
  rewrite split_join_comma.
  2:{ constructor; [reflexivity|]. constructor; [reflexivity|].
      apply List.Forall_map. eapply List.Forall_impl; [|exact Hkeys].
      intros k Hk. now apply clause_lacks_comma. }
  change (map (String " ") ("updatedAt = :now" :: map clause keys))
    with (" updatedAt = :now" :: map (String " ") (map clause keys)).
  rewrite map_map.
  apply mapM_cons_Some; [reflexivity|].
  apply mapM_cons_Some; [reflexivity|].
  apply (mapM_map_Some set_action _ (fun k => ("#" +:+ k, ":" +:+ k))).
  intros k Hk. apply set_action_clause.
  rewrite List.Forall_forall in Hkeys. now apply Hkeys.
Qed.

Lemma assign_fresh {A} k (v : A) fields :
  ~ In k (map fst fields) -> assign k v fields = fields ++ [(k, v)].
Proof.
  induction fields as [|[k' v'] fields IH]; intros Hk; [reflexivity|].
  cbn [assign]. destruct (String.eqb_spec k k') as [->|_].
  - exfalso. apply Hk. now left.
  - rewrite IH by (intros Hin; apply Hk; now right). reflexivity.
Qed.

Lemma field_fresh {A} k (fields : list (string * A)) :
  ~ In k (map fst fields) -> field k fields = None.
Proof.
  induction fields as [|[k' v'] fields IH]; intros Hk; [reflexivity|].
  cbn [field]. rewrite IH by (intros Hin; apply Hk; now right).
  destruct (String.eqb_spec k k') as [->|_]; [|reflexivity].
  exfalso. apply Hk. now left.
Qed.

Lemma field_bound {A} k (v : A) fields :
  NoDup (map fst fields) -> In (k, v) fields -> field k fields = Some v.
Proof.
  induction fields as [|[k' v'] fields IH]; intros Hnd Hin; [destruct Hin|].
  inversion Hnd as [|? ? Hk' Hnd']; subst. rewrite list_elem_of_In in Hk'.
  cbn [field]. destruct Hin as [Heq | Hin].
  - injection Heq as -> ->.
    rewrite field_fresh by exact Hk'.
    now rewrite String.eqb_refl.
  - now rewrite (IH Hnd' Hin).
Qed.

(** The loop of [updateTaskStatus] over fields whose placeholders are not
    taken yet: one clause, one name and one value more per field. *)
Lemma fold_add_field extraFields : forall parts names values,
  NoDup (map fst extraFields) ->
  (forall k, In k (map fst extraFields) ->
     ~ In ("#" +:+ k) (map fst names) /\ ~ In (":" +:+ k) (map fst values)) ->
  foldl ResearchWorker.add_field (parts, names, values) extraFields =
  (parts ++ map (fun e => clause (fst e)) extraFields,
   names ++ map (fun e => ("#" +:+ fst e, fst e)) extraFields,
   values ++ map (fun e => (":" +:+ fst e, snd e)) extraFields).
Proof.
  induction extraFields as [|[k v] extra IH]; intros parts names values Hnd Hfresh.
  - cbn. now rewrite !app_nil_r.
  - inversion Hnd as [|? ? Hk Hnd']; subst. rewrite list_elem_of_In in Hk.
    destruct (Hfresh k) as [Hname Hvalue]; [now left|].
    cbn [foldl ResearchWorker.add_field].
    rewrite (assign_fresh _ _ _ Hname), (assign_fresh _ _ _ Hvalue).
    rewrite IH; [cbn [map fst snd]; now rewrite <- !app_assoc | exact Hnd' |].
    intros k' Hk'. destruct (Hfresh k') as [Hname' Hvalue']; [now right|].
    rewrite !map_app, !in_app_iff. cbn [map fst In].
    assert (k' <> k).
    { now intros ->. }
    split; intros [?|[Heq|[]]]; try contradiction;
      cbv [String.append] in Heq; injection Heq; congruence.
Qed.

Lemma foldl_insert_fresh (sets : list (string * value)) : forall (item : Item) k,
  ~ In k (map fst sets) ->
  foldl (fun it av => <[ fst av := snd av ]> it) item sets !! k = item !! k.
Proof.
  induction sets as [|[k' v'] sets IH]; intros item k Hk; [reflexivity|].
  cbn [foldl]. rewrite IH by (intros Hin; apply Hk; now right).
  apply lookup_insert_ne. intros <-. apply Hk. now left.
Qed.

Lemma foldl_insert_bound (sets : list (string * value)) : forall (item : Item) k v,
  NoDup (map fst sets) -> In (k, v) sets ->
  foldl (fun it av => <[ fst av := snd av ]> it) item sets !! k = Some v.
Proof.
  induction sets as [|[k' v'] sets IH]; intros item k v Hnd Hin; [destruct Hin|].
  inversion Hnd as [|? ? Hk' Hnd']; subst. rewrite list_elem_of_In in Hk'.
  cbn [foldl]. destruct Hin as [Heq | Hin].
  - injection Heq as -> ->.
    rewrite foldl_insert_fresh by exact Hk'.
    apply lookup_insert_eq.
  - now apply IH.
Qed.

Lemma in_prefixed {A B} c (h : string * A -> B) k (extraFields : list (string * A)) :
  In (String c k) (map fst (map (fun e => (String c (fst e), h e)) extraFields)) ->
  In k (map fst extraFields).
Proof.
  rewrite map_map, !in_map_iff. intros (e & Heq & Hin). cbn [fst] in Heq.
  injection Heq as <-. eauto.
Qed.

Lemma NoDup_prefixed {A B} c (h : string * A -> B) (extraFields : list (string * A)) :
  NoDup (map fst extraFields) ->
  NoDup (map fst (map (fun e => (String c (fst e), h e)) extraFields)).
Proof.
  induction extraFields as [|[k v] extra IH]; intros Hnd; [constructor|].
  inversion Hnd as [|? ? Hk Hnd']; subst. rewrite list_elem_of_In in Hk.
  cbn [map fst]. constructor; [|now apply IH].
  rewrite list_elem_of_In. intros Hin. apply Hk. exact (in_prefixed c h k extra Hin).
Qed.

Lemma resolve_named u k attr v :
  field (String "#" k) (ExpressionAttributeNames u) = Some attr ->
  field (String ":" k) (ExpressionAttributeValues u) = Some v ->
  resolve u (String "#" k, String ":" k) = Some (attr, v).
Proof. intros Hn Hv. unfold resolve. cbn [fst snd]. now rewrite Hn, Hv. Qed.

(** What the loop of [updateTaskStatus] leaves for plain extra fields. *)
Lemma update_input_plain_fields taskId status extraFields now :
  plain_fields extraFields ->
  ResearchWorker.update_input taskId status extraFields now =
  {| Key := taskId;
     UpdateExpression :=
       "SET " +:+ ResearchWorker.join ", "
         ("#status = :status" :: "updatedAt = :now" :: map clause (map fst extraFields));
     ExpressionAttributeNames :=
       ("#status", "status") :: map (fun e => (String "#" (fst e), fst e)) extraFields;
     ExpressionAttributeValues :=
       (":status", VStr status) :: (":now", VStr now) ::
       map (fun e => (String ":" (fst e), snd e)) extraFields |}.
Proof.
  intros [Hnd Hplain]. unfold ResearchWorker.update_input.
  rewrite fold_add_field; [now rewrite map_map | exact Hnd |].
  intros k Hk. rewrite List.Forall_forall in Hplain.
  destruct (Hplain k Hk) as (_ & _ & Hstatus & _ & Hnow & _).
  cbn [map fst In]. cbv [String.append].
  split; intros Hin; decompose [or] Hin; try contradiction; congruence.
Qed.

Lemma UpdateItem_plain_fields t status extraFields now tbl :
  plain_fields extraFields ->
  UpdateItem (ResearchWorker.update_input (VStr t) status extraFields now) tbl =
  Some (<[ t := foldl (fun it av => <[ fst av := snd av ]> it) (old_item t tbl)
                  (("status", VStr status) :: ("updatedAt", VStr now) :: extraFields) ]>
          tbl).
Proof.
  intros Hplain. rewrite (update_input_plain_fields _ _ _ _ Hplain).
  destruct Hplain as [Hnd Hplain]. rewrite List.Forall_forall in Hplain.
  set (u := Build_UpdateInput _ _ _ _).
  assert (Hnames : NoDup (map fst (ExpressionAttributeNames u))).
  { cbn [u ExpressionAttributeNames map fst]. constructor.
    - rewrite list_elem_of_In. intros Hin%(in_prefixed "#" fst).
      now destruct (Hplain _ Hin) as (_ & _ & ? & _).
    - now apply (NoDup_prefixed "#" fst). }
  assert (Hvalues : NoDup (map fst (ExpressionAttributeValues u))).
  { cbn [u ExpressionAttributeValues map fst]. constructor; [|constructor].
    - rewrite list_elem_of_In. intros [Heq | Hin%(in_prefixed ":" snd)]; [discriminate|].
      now destruct (Hplain _ Hin) as (_ & _ & ? & _).
    - rewrite list_elem_of_In. intros Hin%(in_prefixed ":" snd).
      now destruct (Hplain _ Hin) as (_ & _ & _ & _ & ? & _).
    - now apply (NoDup_prefixed ":" snd). }
  unfold UpdateItem. cbn [u Key UpdateExpression].
  rewrite set_actions_rendered.
  2:{ apply List.Forall_forall. intros k Hk. now destruct (Hplain k Hk) as (_ & ? & _). }
  cbn [mbind option_bind]. fold u.
  assert (Hsets : mapM (resolve u)
            (("#status", ":status") :: ("updatedAt", ":now") ::
             map (fun k => ("#" +:+ k, ":" +:+ k)) (map fst extraFields)) =
          Some (("status", VStr status) :: ("updatedAt", VStr now) :: extraFields)).
  { apply mapM_cons_Some.
    { apply resolve_named; apply field_bound; try assumption; now left. }
    apply mapM_cons_Some.
    { unfold resolve. cbn [fst snd].
      rewrite (field_bound ":now" (VStr now)); [reflexivity | exact Hvalues |].
      right. now left. }
    rewrite map_map.
    replace (Some extraFields) with (Some (map (fun e => e) extraFields))
      by now rewrite List.map_id.
    apply (mapM_map_Some (resolve u) _ (fun e => e)).
    intros [k v] Hin. cbn [fst].
    apply resolve_named; apply field_bound; try assumption.
    - right. apply in_map_iff. now exists (k, v).
    - right. right. apply in_map_iff. now exists (k, v). }
  rewrite Hsets. reflexivity.
Qed.

Lemma UpdateItem_now t status v now tbl :
  UpdateItem (ResearchWorker.update_input (VStr t) status [("now", v)] now) tbl =
  Some (<[ t := <[ "now" := v ]>
                  (<[ "updatedAt" := v ]>
                     (<[ "status" := VStr status ]> (old_item t tbl))) ]> tbl).
Proof. reflexivity. Qed.

Section GeneralStatusUpdate.
Import ResearchWorker.

(** X16. [updateTaskStatus] with any extra fields whose names are distinct
    identifiers other than [status], [updatedAt], [now] and [taskId]:
    an answered update returns, sets [status], [updatedAt] (to the clock
    reading) and every extra field to its value, leaves each other
    attribute of the record as it was (a missing record starts from its
    key alone), and changes no other record. *)
Theorem status_update_sets_exactly_its_fields t status extraFields w :
  plain_fields extraFields ->
  faults w (length (calls w)) = None ->
  fst (updateTaskStatus (VStr t) status extraFields w) = Returned tt /\
  exists item',
    table (snd (updateTaskStatus (VStr t) status extraFields w)) !! t = Some item' /\
    item' !! "status" = Some (VStr status) /\
    item' !! "updatedAt" = Some (VStr (clock w (ticks w))) /\
    (forall k v, In (k, v) extraFields -> item' !! k = Some v) /\
    (forall k, k <> "status" -> k <> "updatedAt" ->
               ~ In k (map fst extraFields) ->
               item' !! k = old_item t (table w) !! k) /\
    (forall t', t' <> t ->
       table (snd (updateTaskStatus (VStr t) status extraFields w)) !! t' =
       table w !! t').
Proof.
  intros Hplain Hf.
  rewrite (updateTaskStatus_answered _ _ _ _ _ Hf (UpdateItem_plain_fields _ _ _ _ _ Hplain)).
  cbn [fst snd after_update table set_table].
  destruct Hplain as [Hnd Hplain]. rewrite List.Forall_forall in Hplain.
  set (sets := ("status", VStr status) :: ("updatedAt", VStr (clock w (ticks w))) ::
               extraFields).
  assert (Hsets : NoDup (map fst sets)).
  { cbn [sets map fst]. constructor; [|constructor; [|exact Hnd]].
    - rewrite list_elem_of_In. intros [Heq | Hin]; [discriminate|].
      now destruct (Hplain _ Hin) as (_ & _ & ? & _).
    - rewrite list_elem_of_In. intros Hin.
      now destruct (Hplain _ Hin) as (_ & _ & _ & ? & _). }
  split; [reflexivity|].
  eexists. split; [apply lookup_insert_eq|].
  split; [apply foldl_insert_bound; [exact Hsets | now left]|].
  split; [apply foldl_insert_bound; [exact Hsets | right; now left]|].
  split; [intros k v Hin; apply foldl_insert_bound; [exact Hsets | now do 2 right]|].
  split.
  - intros k Hk1 Hk2 Hk3. apply foldl_insert_fresh. cbn [sets map fst In]. intuition.
  - intros t' Ht'. now apply lookup_insert_ne.
Qed.

(** X17. An extra field named [now] takes the placeholder [:now] of the
    timestamp: the answered update stores the field's value under
    [updatedAt] as well, whatever the clock reads. *)
Theorem extra_field_now_replaces_the_timestamp t status v w :
  faults w (length (calls w)) = None ->
  exists item',
    table (snd (updateTaskStatus (VStr t) status [("now", v)] w)) !! t = Some item' /\
    item' !! "now" = Some v /\
    item' !! "updatedAt" = Some v /\
    item' !! "status" = Some (VStr status).
Proof.
  intros Hf.
  rewrite (updateTaskStatus_answered _ _ _ _ _ Hf (UpdateItem_now _ _ _ _ _)).
  cbn [snd after_update table set_table].
  eexists. split; [apply lookup_insert_eq|].
  split; [apply lookup_insert_eq|].
  split; [rewrite lookup_insert_ne by discriminate; apply lookup_insert_eq|].
  now rewrite !lookup_insert_ne by discriminate; rewrite lookup_insert_eq.
Qed.

End GeneralStatusUpdate.

(** ** The command-line client *)

Section CliFacts.
Import Cli.

(** Induction that follows the loop: it moves on by one argument or, after
    a flag, by two. *)
Lemma arguments_ind (P : list string -> Prop) :
  P [] -> (forall x, P [x]) ->
  (forall x y rest, P rest -> P (y :: rest) -> P (x :: y :: rest)) ->
  forall args, P args.
Proof.
  intros Hnil Hone Hstep args.
  enough (P args /\ forall x, P (x :: args)) by tauto.
  induction args as [|y rest [IH1 IH2]]; [now split|].
  split; [apply IH2|]. intros x. apply Hstep; [exact IH1 | apply IH2].
Qed.

Lemma parse_named_last x a :
  parse_named [x] a =
  if String.eqb x "--topic" then inl (FlagRequiresValue "--topic")
  else if String.eqb x "--stage" then inl (FlagRequiresValue "--stage")
  else if String.eqb x "--profile" then inl (FlagRequiresValue "--profile")
  else if negb (startsWith "--" x) && negb (bool_decide (is_Some (topic a)))
  then inr {| topic := Some x; stage := stage a; profile := profile a |}
  else inr a.
Proof. reflexivity. Qed.

Lemma parse_named_step x y rest a :
  parse_named (x :: y :: rest) a =
  if String.eqb x "--topic" then
    if no_value (y :: rest) then inl (FlagRequiresValue "--topic")
    else parse_named rest {| topic := Some y; stage := stage a; profile := profile a |}
  else if String.eqb x "--stage" then
    if no_value (y :: rest) then inl (FlagRequiresValue "--stage")
    else parse_named rest {| topic := topic a; stage := y; profile := profile a |}
  else if String.eqb x "--profile" then
    if no_value (y :: rest) then inl (FlagRequiresValue "--profile")
    else parse_named rest {| topic := topic a; stage := stage a; profile := Some y |}
  else if negb (startsWith "--" x) && negb (bool_decide (is_Some (topic a)))
  then parse_named (y :: rest) {| topic := Some x; stage := stage a; profile := profile a |}
  else parse_named (y :: rest) a.
Proof. reflexivity. Qed.

Lemma parse_named_undashed args : forall a a',
  undashed a -> parse_named args a = inr a' -> undashed a'.
Proof.
  induction args as [| x | x y rest IH1 IH2] using arguments_ind; intros a a' Ha.
  - cbn. now intros [= <-].
  - rewrite parse_named_last.
    destruct (String.eqb x "--topic"); [discriminate|].
    destruct (String.eqb x "--stage"); [discriminate|].
    destruct (String.eqb x "--profile"); [discriminate|].
    destruct (startsWith "--" x) eqn:Hx; cbn [negb andb].
    + now intros [= <-].
    + destruct (bool_decide _); cbn [negb]; intros [= <-]; [exact Ha|].
      intros t [= <-]. exact Hx.
  - rewrite parse_named_step. cbn [no_value].
    destruct (String.eqb x "--topic").
    { destruct (String.eqb y EmptyString); [discriminate|].
      destruct (startsWith "--" y) eqn:Hy; [discriminate|]. cbn [orb].
      apply IH1. intros t [= <-]. exact Hy. }
    destruct (String.eqb x "--stage").
    { destruct (_ || _); [discriminate|]. apply IH1. exact Ha. }
    destruct (String.eqb x "--profile").
    { destruct (_ || _); [discriminate|]. apply IH1. exact Ha. }
    destruct (startsWith "--" x) eqn:Hx; cbn [negb andb].
    + apply IH2. exact Ha.
    + destruct (bool_decide _); cbn [negb]; apply IH2; [exact Ha|].
      intros t [= <-]. exact Hx.
Qed.

(** X18. The exit for a topic that starts with two dashes is never taken:
    whatever the arguments and the environment, the loop leaves either no
    topic or one without leading dashes, so the script never reports an
    invalid topic. *)
Theorem invalid_topic_exit_is_never_taken args AWS_PROFILE :
  read_arguments args AWS_PROFILE <> inl InvalidTopic.
Proof.
  unfold read_arguments.
  destruct (parse_named args _) as [exit | a] eqn:Hparse.
  - intros [= ->]. revert Hparse. generalize (Build_arguments None "dev" None).
    induction args as [| x | x y rest IH1 IH2] using arguments_ind; intros a.
    + discriminate.
    + rewrite parse_named_last. repeat (destruct (String.eqb _ _); [discriminate|]).
      now destruct (_ && _).
    + rewrite parse_named_step.
      repeat (destruct (String.eqb x _);
              [destruct (no_value _); [discriminate | apply IH1]|]).
      destruct (_ && _); apply IH2.
  - apply parse_named_undashed in Hparse; [|intros t [=]].
    destruct (given (topic a)) eqn:Hgiven; cbn [negb]; [|discriminate].
    destruct (topic a) as [t|] eqn:Htopic; [|discriminate].
    change (default EmptyString (Some t)) with t.
    now rewrite (Hparse t Htopic).
Qed.

(** X19. A flag at the very end of the arguments ends the script: the
    loop exits for a flag without a value, whatever comes before. *)
Theorem trailing_flag_has_no_value args flag AWS_PROFILE :
  flag = "--topic" \/ flag = "--stage" \/ flag = "--profile" ->
  exists flag', read_arguments (args ++ [flag]) AWS_PROFILE = inl (FlagRequiresValue flag').
Proof.
  intros Hflag. unfold read_arguments.
  enough (Hloop : forall a, exists flag',
            parse_named (args ++ [flag]) a = inl (FlagRequiresValue flag')).
  { destruct (Hloop (Build_arguments None "dev" None)) as [flag' ->]. eauto. }
  assert (Hdashed : startsWith "--" flag = true)
    by (decompose [or] Hflag; subst; reflexivity).
  assert (Hbase : forall a, exists flag',
            parse_named [flag] a = inl (FlagRequiresValue flag'))
    by (intros a; decompose [or] Hflag; subst; cbn; eauto).
  induction args as [| x | x y rest IH1 IH2] using arguments_ind; intros a.
  - apply Hbase.
  - change ([x] ++ [flag]) with [x; flag].
    rewrite parse_named_step. cbn [no_value]. rewrite Hdashed, orb_true_r.
    repeat (destruct (String.eqb x _); [eauto|]).
    destruct (_ && _); apply Hbase.
  - change ((x :: y :: rest) ++ [flag]) with (x :: (y :: rest) ++ [flag]).
    change ((y :: rest) ++ [flag]) with (y :: rest ++ [flag]) at 1.
    rewrite parse_named_step. change (y :: rest ++ [flag]) with ((y :: rest) ++ [flag]).
    repeat (destruct (String.eqb x _); [destruct (no_value _); [eauto | apply IH1]|]).
    destruct (_ && _); apply IH2.
Qed.

(** X20. Only the flags set [stage] and [profile]: arguments accepted
    without [--stage] name stage [dev], and without [--profile] the
    profile is [AWS_PROFILE] when that is set and none otherwise. *)
Theorem stage_and_profile_default args AWS_PROFILE a :
  read_arguments args AWS_PROFILE = inr a ->
  (~ In "--stage" args -> stage a = "dev") /\
  (~ In "--profile" args ->
     profile a = if given AWS_PROFILE then AWS_PROFILE else None).
Proof.
  unfold read_arguments.
  destruct (parse_named args _) as [exit | a0] eqn:Hparse; [discriminate|].
  assert (Hloop : forall args a a',
            parse_named args a = inr a' ->
            (~ In "--stage" args -> stage a' = stage a) /\
            (~ In "--profile" args -> profile a' = profile a)).
  { clear. intros args.
    induction args as [| x | x y rest IH1 IH2] using arguments_ind; intros a a'.
    - cbn. now intros [= <-].
    - rewrite parse_named_last. repeat (destruct (String.eqb x _); [discriminate|]).
      destruct (_ && _); intros [= <-]; cbn [stage profile]; tauto.
    - rewrite parse_named_step.
      destruct (String.eqb_spec x "--topic") as [->|_].
      { destruct (no_value _); [discriminate|]. intros Hrest%IH1. cbn in Hrest.
        split; intros Hnot; apply Hrest; intros Hin; apply Hnot; now do 2 right. }
      destruct (String.eqb_spec x "--stage") as [->|_].
      { destruct (no_value _); [discriminate|]. intros Hrest%IH1. cbn in Hrest.
        split; intros Hnot; [exfalso; apply Hnot; now left|].
        apply Hrest; intros Hin; apply Hnot; now do 2 right. }
      destruct (String.eqb_spec x "--profile") as [->|_].
      { destruct (no_value _); [discriminate|]. intros Hrest%IH1. cbn in Hrest.
        split; intros Hnot; [|exfalso; apply Hnot; now left].
        apply Hrest; intros Hin; apply Hnot; now do 2 right. }
      destruct (_ && _); intros Hrest%IH2; cbn in Hrest;
        (split; intros Hnot; apply Hrest; intros Hin; apply Hnot; now right). }
  destruct (Hloop _ _ _ Hparse) as [Hstage Hprofile]. cbn in Hstage, Hprofile.
  destruct (negb (given (topic a0))); [discriminate|].
  destruct (startsWith _ _); [discriminate|]. intros [= <-]. cbn [stage profile].
  split; [exact Hstage|]. intros Hnot. rewrite (Hprofile Hnot). cbn [given negb andb].
  now destruct (given AWS_PROFILE).
Qed.

End CliFacts.

(** ** The further properties at the inputs of the test suite *)

Lemma test_topic_valid : valid_request test_topic "test topic".
Proof.
  exists (VObj [("topic", VStr "test topic")]).
  repeat split; [discriminate | vm_compute; lia].
Qed.

Lemma serverless_valid :
  valid_request (request (VObj [("topic", VStr "serverless architecture")]))
    "serverless architecture".
Proof.
  exists (VObj [("topic", VStr "serverless architecture")]).
  repeat split; [discriminate | vm_compute; lia].
Qed.

Lemma stored_task_well_keyed taskId status :
  well_keyed (table (with_task taskId status calm)).
Proof.
  intros k item. cbn [with_task table set_table calm].
  destruct (decide (k = taskId)) as [->|Hk].
  - rewrite lookup_insert_eq. now intros [= <-].
  - rewrite lookup_insert_ne by congruence. now rewrite lookup_empty.
Qed.

Lemma review_fields_plain :
  plain_fields [("s3Key", VStr "research/t1.md"); ("reviewer", VStr "rich")].
Proof.
  split.
  - cbn [map fst]. repeat constructor; rewrite list_elem_of_In; cbn [In];
      intros Hin; decompose [or] Hin; discriminate || contradiction.
  - repeat constructor; discriminate.
Qed.

Lemma handlers_keep_the_table_well_keyed_witness :
  well_keyed (table (snd (ResearchWorker.handler t1_test (with_task "t1" "pending" calm)))) /\
  well_keyed (table (snd (Research.handler test_topic (with_task "t1" "pending" calm)))).
Proof.
  exact (handlers_keep_the_table_well_keyed t1_test test_topic
           (with_task "t1" "pending" calm) (stored_task_well_keyed "t1" "pending")).
Defined.

Lemma normal_return_means_researched_witness :
  status_of "t1" (snd (ResearchWorker.handler t1_test mixed)) =
    Some (VStr "researched") /\
  bucket (snd (ResearchWorker.handler t1_test mixed)) !! key_of "t1" =
    Some {| Body := "The actual research"; ContentType := "text/markdown" |}.
Proof.
  assert (Hrun :
    ResearchWorker.handler t1_test mixed =
    (Returned (VObj [("taskId", VStr "t1"); ("s3Key", VStr "research/t1.md");
                     ("status", VStr "researched")]),
     snd (ResearchWorker.handler t1_test mixed)))
    by (vm_compute; reflexivity).
  destruct (normal_return_means_researched t1_test "t1" (VStr "test") _ _ _
              t1_test_work_item eq_refl eq_refl Hrun)
    as [(_ & Hbefore & _) | (_ & Hstatus & _ & textBlock & Hfind & Hblob)].
  - vm_compute in Hbefore. discriminate Hbefore.
  - split; [exact Hstatus|].
    assert (Hfirst : textBlock = text_block "The actual research")
      by (vm_compute in Hfind; now injection Hfind as <-).
    rewrite Hblob, Hfirst. reflexivity.
Defined.

Lemma escalated_failure_is_recorded_witness :
  status_of "t1" (snd (ResearchWorker.handler t1_test rate_limited)) =
    Some (VStr "failed").
Proof.
  assert (Hrun :
    ResearchWorker.handler t1_test rate_limited =
    (Thrown (Error "API rate limited"),
     snd (ResearchWorker.handler t1_test rate_limited)))
    by (vm_compute; reflexivity).
  assert (Hlen : length (calls (snd (ResearchWorker.handler t1_test rate_limited))) = 5%nat)
    by (vm_compute; reflexivity).
  destruct (escalated_failure_is_recorded t1_test "t1" (VStr "test") _ _ _
              t1_test_work_item eq_refl eq_refl Hrun)
    as (before & now & Hcalls & Hrecorded).
  rewrite Hcalls, length_app in Hlen. cbn [length] in Hlen.
  assert (Hbefore : length before = 4%nat) by lia.
  destruct Hrecorded as [Hstatus _]; [now rewrite Hbefore | exact Hstatus].
Defined.

Lemma api_key_is_fetched_once_witness :
  ResearchWorker.getAnthropicApiKey (snd (ResearchWorker.getAnthropicApiKey calm)) =
  (Returned "sk-ant-test-key", snd (ResearchWorker.getAnthropicApiKey calm)).
Proof.
  apply (api_key_is_fetched_once "sk-ant-test-key" calm); [reflexivity | discriminate].
Defined.

Lemma api_key_is_fetched_again_witness :
  key_calls (snd (ResearchWorker.getAnthropicApiKey all_down)) = [GetSecretValueCommand].
Proof.
  destruct (api_key_is_fetched_again (Thrown (Error "DynamoDB unavailable")) all_down
              (snd (ResearchWorker.getAnthropicApiKey all_down)))
    as [Hfetch _]; [reflexivity | discriminate | exact Hfetch].
Defined.

Lemma unknown_task_is_created_witness :
  exists item,
    table (snd (ResearchWorker.handler t1_test calm)) !! "t1" = Some item /\
    item !! "status" = Some (VStr "researched") /\
    item !! "topic" = None.
Proof.
  destruct (unknown_task_is_created t1_test "t1" (VStr "test")
              (text_block "Test research content") calm
              t1_test_work_item eq_refl eq_refl eq_refl)
    as (item & Hrow & _ & Hstatus & _ & _ & Htopic & _).
  - intros i _. reflexivity.
  - reflexivity.
  - exists item. repeat split; assumption.
Defined.

Lemma accept_202_means_queued_witness :
  exists s,
    valid_request test_topic s /\
    queue (snd (Research.handler test_topic calm)) =
      [work_message "test-task-id-1234" (VStr s)].
Proof.
  assert (Hrun : fst (Research.handler test_topic calm) =
                 Returned (accepted "test-task-id-1234"))
    by (vm_compute; reflexivity).
  destruct (accept_202_means_queued test_topic _ calm Hrun eq_refl)
    as (s & Hvalid & _ & _ & Hqueue).
  exists s. split; [exact Hvalid | exact Hqueue].
Defined.

Lemma rejected_write_is_never_published_witness :
  fst (Research.handler test_topic all_down) =
    Returned (error_response 500 "Failed to create task record") /\
  queue (snd (Research.handler test_topic all_down)) = [].
Proof.
  destruct (rejected_write_is_never_published test_topic "test topic"
              (Error "DynamoDB unavailable") all_down test_topic_valid eq_refl)
    as (Hanswer & _ & Hqueue & _).
  split; [exact Hanswer | exact Hqueue].
Defined.

Lemma rejected_compensation_leaves_pending_witness :
  fst (Research.handler test_topic broken_after_first) =
    Returned (error_response 500 "Failed to place message on queue") /\
  status_of "test-task-id-1234" (snd (Research.handler test_topic broken_after_first)) =
    Some (VStr "pending").
Proof.
  destruct (rejected_compensation_leaves_pending test_topic "test topic"
              (Error "Everything is broken") (Error "Everything is broken")
              broken_after_first test_topic_valid eq_refl eq_refl eq_refl)
    as (Hanswer & _ & item & Hrow & Hstatus & _).
  split; [exact Hanswer|].
  change (uuids broken_after_first (draws broken_after_first))
    with "test-task-id-1234" in Hrow.
  unfold status_of. rewrite Hrow. exact Hstatus.
Defined.

Lemma accepted_request_is_researched_witness :
  fst (Research.handler (request (VObj [("topic", VStr "serverless architecture")])) calm) =
    Returned (accepted "test-task-id-1234") /\
  bucket
    (snd (ResearchWorker.handler
            (delivery_of (work_message "test-task-id-1234" (VStr "serverless architecture")))
            (snd (Research.handler
                    (request (VObj [("topic", VStr "serverless architecture")])) calm))))
    !! key_of "test-task-id-1234" =
    Some {| Body := "Test research content"; ContentType := "text/markdown" |}.
Proof.
  destruct (accepted_request_is_researched
              (request (VObj [("topic", VStr "serverless architecture")]))
              "serverless architecture" (text_block "Test research content") calm
              serverless_valid)
    as (Hanswer & _ & _ & Hblob & _).
  - discriminate.
  - vm_compute. reflexivity.
  - intros i _. reflexivity.
  - reflexivity.
  - split; [exact Hanswer | exact Hblob].
Defined.

Lemma redeliveries_after_success_change_nothing_witness :
  calls (deliveries 3 t1_test
           (snd (ResearchWorker.handler t1_test (with_task "t1" "pending" calm)))) =
  calls (snd (ResearchWorker.handler t1_test (with_task "t1" "pending" calm))) ++
  repeat (GetCommand (VStr "t1")) 3.
Proof.
  destruct (redeliveries_after_success_change_nothing t1_test "t1" (VStr "test")
              (text_block "Test research content") 3 (with_task "t1" "pending" calm)
              t1_test_work_item eq_refl eq_refl)
    as (_ & _ & _ & Hcalls).
  - vm_compute. discriminate.
  - intros i _. reflexivity.
  - reflexivity.
  - exact Hcalls.
Defined.

Lemma status_update_sets_exactly_its_fields_witness :
  exists item',
    table (snd (ResearchWorker.updateTaskStatus (VStr "t1") "reviewed"
                  [("s3Key", VStr "research/t1.md"); ("reviewer", VStr "rich")]
                  (with_task "t1" "researched" calm))) !! "t1" = Some item' /\
    item' !! "status" = Some (VStr "reviewed") /\
    item' !! "reviewer" = Some (VStr "rich") /\
    item' !! "topic" = Some (VStr "test").
Proof.
  destruct (status_update_sets_exactly_its_fields "t1" "reviewed"
              [("s3Key", VStr "research/t1.md"); ("reviewer", VStr "rich")]
              (with_task "t1" "researched" calm) review_fields_plain eq_refl)
    as (_ & item' & Hrow & Hstatus & _ & Hextra & Hrest & _).
  exists item'. split; [exact Hrow|]. split; [exact Hstatus|]. split.
  - apply Hextra. right. now left.
  - rewrite Hrest; [reflexivity | discriminate | discriminate |].
    cbn [map fst In]. intros Hin. decompose [or] Hin; discriminate || contradiction.
Defined.

Lemma extra_field_now_replaces_the_timestamp_witness :
  exists item',
    table (snd (ResearchWorker.updateTaskStatus (VStr "t1") "researching"
                  [("now", VStr "later")] (with_task "t1" "pending" calm))) !! "t1" =
      Some item' /\
    item' !! "updatedAt" = Some (VStr "later").
Proof.
  destruct (extra_field_now_replaces_the_timestamp "t1" "researching" (VStr "later")
              (with_task "t1" "pending" calm) eq_refl)
    as (item' & Hrow & _ & Hupdated & _).
  exists item'. split; [exact Hrow | exact Hupdated].
Defined.

Lemma trailing_flag_has_no_value_witness :
  exists flag',
    Cli.read_arguments (["serverless architecture"] ++ ["--stage"]) None =
    inl (Cli.FlagRequiresValue flag').
Proof.
  apply (trailing_flag_has_no_value ["serverless architecture"] "--stage" None).
  right. left. reflexivity.
Defined.

Lemma stage_and_profile_default_witness :
  Cli.stage {| Cli.topic := Some "serverless architecture"; Cli.stage := "dev";
               Cli.profile := Some "richcorabbithole" |} = "dev" /\
  Cli.profile {| Cli.topic := Some "serverless architecture"; Cli.stage := "dev";
                 Cli.profile := Some "richcorabbithole" |} = Some "richcorabbithole".
Proof.
  destruct (stage_and_profile_default ["--topic"; "serverless architecture"]
              (Some "richcorabbithole")
              {| Cli.topic := Some "serverless architecture"; Cli.stage := "dev";
                 Cli.profile := Some "richcorabbithole" |} eq_refl)
    as [Hstage Hprofile].
  split.
  - apply Hstage. cbn [In]. intros Hin. decompose [or] Hin; discriminate || contradiction.
  - apply Hprofile. cbn [In]. intros Hin. decompose [or] Hin; discriminate || contradiction.
Defined.
